(** * Verification-plan chat client: query orchestration and session lifecycle

    A shallow embedding of the browser client in
    [frontend/verification-plan.js] (class [KnowledgeQueryApp]) and of the
    credential manager in [frontend/auth.js] (class [CognitoAuthManager]),
    followed by the properties of the orchestration layer.

    Conventions of the embedding:
    - a JavaScript string is a [string] (its UTF-8 bytes); [null] and
      [undefined] are [None] where the code only tests the value or reads
      it as a string, and a value is a [Js.Value] where the code tells
      the two apart;
    - [localStorage] and [sessionStorage] are [gmap string string]; a
      plain object used as a dictionary is a [gmap string string] of its
      own properties, written through [Js.set_property];
    - an [async] method is a function in a state-and-exception monad over
      the browser and application state; what the outside world answers
      (transport, identity provider, clock, random source) is read from an
      explicit environment record. *)

From Stdlib Require Import ZArith String Ascii List Lia Bool DecimalString
  HexadecimalString.
From stdpp Require Import base option gmap strings list.

Open Scope string_scope.
Open Scope Z_scope.

(** ** JavaScript primitives *)

Module Js.

(** The double quote character, kept out of string literals. *)
Definition dq : string := String (ascii_of_nat 34) EmptyString.

(** The line feed matched by the regular expression [/\n/g]. *)
Definition lf : ascii := ascii_of_nat 10.

(** [s] between double quotes, as in an HTML attribute value. *)
Definition quoted (s : string) : string := dq +:+ s +:+ dq.

(** Truthiness of a value that is a string or [null]: [!x] holds for
    [null], [undefined] and the empty string. *)
Definition truthy (x : option string) : bool :=
  match x with
  | Some EmptyString => false
  | Some _ => true
  | None => false
  end.

(** [a || b] on string-or-null operands. *)
Definition or_else (a b : option string) : option string :=
  if truthy a then a else b.

(** [a || 'literal']. *)
Definition or_default (a : option string) (d : string) : string :=
  match or_else a (Some d) with
  | Some s => s
  | None => d
  end.

(** [s.replace(/c/g, by)] for a one-character pattern. *)
Fixpoint replace_char (c : ascii) (by_ : string) (s : string) : string :=
  match s with
  | EmptyString => EmptyString
  | String x rest =>
      if Ascii.eqb x c then by_ +:+ replace_char c by_ rest
      else String x (replace_char c by_ rest)
  end.

(** Number of occurrences of a character in a string. *)
Fixpoint occ (c : ascii) (s : string) : nat :=
  match s with
  | EmptyString => 0%nat
  | String x rest => ((if Ascii.eqb x c then 1 else 0) + occ c rest)%nat
  end.

(** [String(n)] for a natural number. *)
Definition nat_to_string (n : nat) : string :=
  DecimalString.NilZero.string_of_uint (Nat.to_uint n).

(** [String(z)] for an integer, as [Number.prototype.toString]
    prints it. *)
Definition number_to_string (z : Z) : string :=
  DecimalString.NilZero.string_of_int (Z.to_int z).

(** [v.toString(16)] for an integer. *)
Definition to_string16 (v : Z) : string :=
  HexadecimalString.NilZero.string_of_int (Z.to_hex_int v).

(** The digits [toString(16)] writes. *)
Definition hex_digits : list ascii :=
  list_ascii_of_string "0123456789abcdef".

Definition byte_is (c : ascii) (n : nat) : bool := (nat_of_ascii c =? n)%nat.

(** White space and line terminators of one, two and three UTF-8
    bytes, as [String.prototype.trim] removes them. *)
Definition space1 (c : ascii) : bool :=
  byte_is c 9 || byte_is c 10 || byte_is c 11 || byte_is c 12
  || byte_is c 13 || byte_is c 32.

Definition space2 (c1 c2 : ascii) : bool :=
  byte_is c1 194 && byte_is c2 160.

Definition space3 (c1 c2 c3 : ascii) : bool :=
  (byte_is c1 225 && byte_is c2 154 && byte_is c3 128)
  || (byte_is c1 226 && byte_is c2 128
      && ((128 <=? nat_of_ascii c3)%nat && (nat_of_ascii c3 <=? 138)%nat
          || byte_is c3 168 || byte_is c3 169 || byte_is c3 175))
  || (byte_is c1 226 && byte_is c2 129 && byte_is c3 159)
  || (byte_is c1 227 && byte_is c2 128 && byte_is c3 128)
  || (byte_is c1 239 && byte_is c2 187 && byte_is c3 191).

(** [s.trimStart()]. *)
Fixpoint trimStart (s : string) : string :=
  match s with
  | EmptyString => s
  | String c1 rest1 =>
      if space1 c1 then trimStart rest1
      else
        match rest1 with
        | EmptyString => s
        | String c2 rest2 =>
            if space2 c1 c2 then trimStart rest2
            else
              match rest2 with
              | EmptyString => s
              | String c3 rest3 =>
                  if space3 c1 c2 c3 then trimStart rest3 else s
              end
        end
  end.

(** [s.trimEnd()]: the longest suffix made of white space is dropped. *)
Fixpoint trimEnd (s : string) : string :=
  match s with
  | EmptyString => s
  | String c rest =>
      match trimStart s with
      | EmptyString => EmptyString
      | _ => String c (trimEnd rest)
      end
  end.

(** [s.trim()]. *)
Definition trim (s : string) : string := trimEnd (trimStart s).

Definition digit_of (c : ascii) : option Z :=
  let n := nat_of_ascii c in
  if (48 <=? n)%nat && (n <=? 57)%nat then Some (Z.of_nat (n - 48)) else None.

(** The value of a hexadecimal digit, in either case. *)
Definition hex_digit_of (c : ascii) : option Z :=
  let n := nat_of_ascii c in
  if (48 <=? n)%nat && (n <=? 57)%nat then Some (Z.of_nat (n - 48))
  else if (97 <=? n)%nat && (n <=? 102)%nat then Some (Z.of_nat (n - 87))
  else if (65 <=? n)%nat && (n <=? 70)%nat then Some (Z.of_nat (n - 55))
  else None.

(** The value of the longest prefix of digits of the radix; [acc] is
    the value read so far, [None] before the first digit. *)
Fixpoint parse_digits (radix : Z) (digit : ascii -> option Z) (s : string)
    (acc : option Z) : option Z :=
  match s with
  | EmptyString => acc
  | String c rest =>
      match digit c with
      | Some d => parse_digits radix digit rest (Some (radix * default 0 acc + d))
      | None => acc
      end
  end.

(** The optional sign in front of the digits. *)
Definition signed (parse : string -> option Z) (s : string) : option Z :=
  match s with
  | String "-" rest => Z.opp <$> parse rest
  | String "+" rest => parse rest
  | _ => parse s
  end.

(** [parseInt(s, 10)]: leading white space, an optional sign, then
    decimal digits; what follows them is ignored. [None] is [NaN]. *)
Definition parseInt10 (s : string) : option Z :=
  signed (fun digits => parse_digits 10 digit_of digits None) (trimStart s).

(** [parseInt(s)], without a radix: as [parseInt(s, 10)], except that
    after the prefix [0x] or [0X] the digits are hexadecimal. *)
Definition parseInt (s : string) : option Z :=
  signed
    (fun digits =>
       match digits with
       | String "0" (String c rest) =>
           if Ascii.eqb c "x" || Ascii.eqb c "X"
           then parse_digits 16 hex_digit_of rest None
           else parse_digits 10 digit_of digits None
       | _ => parse_digits 10 digit_of digits None
       end)
    (trimStart s).

(** A value that is a string, [null] or [undefined], where the code
    tells the last two apart: a property read from parsed JSON is
    [undefined] when the object has no such property. *)
Inductive Value : Type :=
| Undefined
| Null
| Str (s : string).

#[export] Instance Value_eq_dec : EqDecision Value.
Proof. solve_decision. Defined.

(** The value where only a string counts: [null] and [undefined] are
    [None]. *)
Definition present (v : Value) : option string :=
  match v with
  | Str s => Some s
  | _ => None
  end.

(** [String(v)]. *)
Definition to_String (v : Value) : string :=
  match v with
  | Undefined => "undefined"
  | Null => "null"
  | Str s => s
  end.

(** [a || b] when [b] is kept as it is: the result is [a] if it is a
    string that is not empty, and [b] otherwise. *)
Definition or_value (a : option string) (b : Value) : Value :=
  match a with
  | Some (String c rest) => Str (String c rest)
  | _ => b
  end.

(** [obj[key] = value] on a plain object used as a dictionary, for a
    value that is a string. The name [__proto__] is the accessor
    inherited from [Object.prototype]; its setter ignores a value that
    is neither an object nor [null], so the object gets no property of
    that name. Every other name becomes a property of the object. *)
Definition set_property (key value : string) (obj : gmap string string)
    : gmap string string :=
  if String.eqb key "__proto__" then obj else <[key := value]> obj.

(** [Array.prototype.join('')]. *)
Definition join (l : list string) : string :=
  fold_right append EmptyString l.

End Js.

(** ** HTML escaping and the chat transcript markup *)

Module Html.
Import Js.

(** The table [map] of [escapeHtml]. *)
Definition escape_entity (c : ascii) : option string :=
  if Ascii.eqb c "&" then Some "&amp;"
  else if Ascii.eqb c "<" then Some "&lt;"
  else if Ascii.eqb c ">" then Some "&gt;"
  else if Ascii.eqb c (ascii_of_nat 34) then Some "&quot;"
  else if Ascii.eqb c "'" then Some "&#039;"
  else None.

(** [escapeHtml(text)]: every character of the class matched by the
    regular expression (ampersand, angle brackets, double and single
    quote) is replaced by its entry in [map]; the others are kept. *)
Fixpoint escapeHtml (text : string) : string :=
  match text with
  | EmptyString => EmptyString
  | String c rest =>
      match escape_entity c with
      | Some e => e +:+ escapeHtml rest
      | None => String c (escapeHtml rest)
      end
  end.

(** What follows the ampersand in each of the five entities. *)
Definition entity_tails : list string :=
  ["amp;"; "lt;"; "gt;"; "quot;"; "#039;"].

(** A line break of a template literal followed by its indentation. *)
Definition nl (indent : nat) : string :=
  String lf (string_of_list_ascii (repeat " "%char indent)).

(** A citation returned with an answer. [sourceUri] is kept as the
    value it is, because [updatePdfList] uses it as the key of a [Map]
    when there is no [presignedUrl]. *)
Record Source := {
  fileName : option string;
  pdfFileName : option string;
  title : option string;
  presignedUrl : option string;
  sourceUri : Value
}.

(** An entry of [chatMessages]. [sources] is the empty list when the
    field is [null]; [rating] and [comment] are absent until feedback
    has been stored. *)
Record Message := {
  role : string;
  content : string;
  sources : list Source;
  timestamp : string;
  messageId : option string;
  rating : option Z;
  comment : option string
}.

Definition ratingNumbers : list string :=
  ["1"; "2"; "3"; "4"; "5"; "6"; "7"; "8"; "9"; "10"].

(** One button of the rating group: the callback of
    [ratingNumbers.map] in [createFeedbackHtml]. *)
Definition rating_button (messageId : string) (existingRating : option Z)
    (idx : nat) (num : string) : string :=
  let rating := (idx + 1)%nat in
  let isSelected :=
    if bool_decide (existingRating = Some (Z.of_nat rating))
    then " active" else "" in
  "<button class=" +:+ quoted ("rating-btn" +:+ isSelected)
    +:+ " data-message-id=" +:+ quoted messageId
    +:+ " data-rating=" +:+ quoted (nat_to_string rating)
    +:+ " title=" +:+ quoted ("評価: " +:+ num) +:+ ">"
    +:+ num +:+ "</button>".

(** [ratingNumbers[existingRating - 1]] inside a template literal. *)
Definition rating_symbol (existingRating : Z) : string :=
  if existingRating - 1 <? 0 then "undefined"
  else default "undefined" (ratingNumbers !! Z.to_nat (existingRating - 1)).

(** [createFeedbackHtml(messageId, existingRating, existingComment,
    contentForCopy)]. *)
Definition createFeedbackHtml (messageId : string)
    (existingRating : option Z) (existingComment : option string)
    (contentForCopy : string) : string :=
  let ratingButtons :=
    join (imap (rating_button messageId existingRating) ratingNumbers) in
  let displayRating :=
    match existingRating with
    | Some r =>
        if r =? 0 then ""
        else "<div class=" +:+ quoted "feedback-display" +:+ ">評価: "
               +:+ rating_symbol r +:+ "</div>"
    | None => ""
    end in
  let displayComment :=
    if truthy existingComment
    then "<div class=" +:+ quoted "feedback-display" +:+ ">コメント: "
           +:+ escapeHtml (default "" existingComment) +:+ "</div>"
    else "" in
  let displayHtml := displayRating +:+ displayComment in
  nl 12 +:+ "<div class=" +:+ quoted "feedback-section" +:+ ">"
  +:+ nl 16 +:+ "<div class=" +:+ quoted "rating-group" +:+ ">"
  +:+ nl 20 +:+ "<span class=" +:+ quoted "rating-label"
              +:+ " title=" +:+ quoted "低評価" +:+ ">👎</span>"
  +:+ nl 20 +:+ ratingButtons
  +:+ nl 20 +:+ "<span class=" +:+ quoted "rating-label"
              +:+ " title=" +:+ quoted "高評価" +:+ ">👍</span>"
  +:+ nl 16 +:+ "</div>"
  +:+ nl 16 +:+ "<button class=" +:+ quoted "comment-btn"
              +:+ " data-message-id=" +:+ quoted messageId
              +:+ " title=" +:+ quoted "コメントを追加" +:+ ">💬 コメント</button>"
  +:+ nl 16 +:+ "<button class=" +:+ quoted "copy-btn"
              +:+ " data-message-id=" +:+ quoted messageId
              +:+ " data-content=" +:+ quoted contentForCopy
              +:+ " title=" +:+ quoted "内容をコピー" +:+ ">コピー</button>"
  +:+ nl 12 +:+ "</div>"
  +:+ nl 12 +:+ displayHtml
  +:+ nl 12 +:+ "<div class=" +:+ quoted "comment-panel"
              +:+ " id=" +:+ quoted ("comment-panel-" +:+ messageId)
              +:+ " style=" +:+ quoted "display: none;" +:+ ">"
  +:+ nl 16 +:+ "<textarea class=" +:+ quoted "comment-input"
              +:+ " placeholder=" +:+ quoted "コメントを入力..."
              +:+ " maxlength=" +:+ quoted "500" +:+ ">"
              +:+ or_default existingComment "" +:+ "</textarea>"
  +:+ nl 16 +:+ "<div class=" +:+ quoted "comment-actions" +:+ ">"
  +:+ nl 20 +:+ "<button class=" +:+ quoted "btn btn-small comment-submit-btn"
              +:+ " data-message-id=" +:+ quoted messageId +:+ ">送信</button>"
  +:+ nl 20 +:+ "<button class=" +:+ quoted "btn btn-small comment-cancel-btn"
              +:+ " data-message-id=" +:+ quoted messageId +:+ ">キャンセル</button>"
  +:+ nl 16 +:+ "</div>"
  +:+ nl 12 +:+ "</div>"
  +:+ nl 8.

(** The body of [msg.sources.forEach] in [renderChatHistory]. *)
Definition source_item (source : Source) : string :=
  let fileName :=
    or_default (or_else (or_else (fileName source) (pdfFileName source))
                        (title source)) "Document" in
  let presignedUrl := or_else (presignedUrl source) (present (sourceUri source)) in
  if truthy presignedUrl then
    "<li><a href=" +:+ quoted (escapeHtml (default "" presignedUrl))
      +:+ " target=" +:+ quoted "_blank"
      +:+ " rel=" +:+ quoted "noopener noreferrer"
      +:+ " class=" +:+ quoted "source-link" +:+ ">📄 "
      +:+ escapeHtml fileName +:+ "</a></li>"
  else
    "<li>📄 " +:+ escapeHtml fileName +:+ "</li>".

(** [formattedContent]: the escaped content with its line feeds turned
    into line-break elements. *)
Definition formattedContent (msg : Message) : string :=
  replace_char lf "<br>" (escapeHtml (content msg)).

(** The copy of the content placed in the [data-content] attribute. *)
Definition contentForCopy (msg : Message) : string :=
  replace_char (ascii_of_nat 34) "&quot;" (escapeHtml (content msg)).

(** The callback of [this.chatMessages.map] in [renderChatHistory]:
    the markup of one message. *)
Definition render_message (msg : Message) : string :=
  let roleClass :=
    if String.eqb (role msg) "user" then "user-message"
    else "assistant-message" in
  let roleLabel :=
    if String.eqb (role msg) "user" then "あなた" else "AI先輩" in
  let html :=
    nl 16 +:+ "<div class=" +:+ quoted ("chat-message " +:+ roleClass) +:+ ">"
    +:+ nl 20 +:+ "<strong>" +:+ roleLabel +:+ "</strong>"
    +:+ nl 20 +:+ "<p>" +:+ formattedContent msg +:+ "</p>"
    +:+ nl 12 in
  let html :=
    match sources msg with
    | [] => html
    | _ :: _ =>
        html +:+ "<div class=" +:+ quoted "sources-list"
             +:+ "><strong>参考資料:</strong><ul>"
             +:+ join (map source_item (sources msg))
             +:+ "</ul></div>"
    end in
  let html :=
    if String.eqb (role msg) "assistant" && truthy (messageId msg)
    then html +:+ createFeedbackHtml (default "" (messageId msg))
                     (rating msg) (comment msg) (contentForCopy msg)
    else html in
  html +:+ "<small class=" +:+ quoted "timestamp" +:+ ">"
       +:+ timestamp msg +:+ "</small></div>".

(** [chatHtml], the string [renderChatHistory] assigns to
    [chatHistory.innerHTML]. *)
Definition chatHtml (chatMessages : list Message) : string :=
  join (map render_message chatMessages).

(** The same message with another text; used to compare the markup of
    a message with the markup of the same message left blank. *)
Definition with_content (c : string) (msg : Message) : Message :=
  {| role := role msg; content := c; sources := sources msg;
     timestamp := timestamp msg; messageId := messageId msg;
     rating := rating msg; comment := comment msg |}.

(** Total number of line feeds in the texts of a transcript. *)
Definition line_feeds (chatMessages : list Message) : nat :=
  fold_right (fun msg n => (occ lf (content msg) + n)%nat) 0%nat chatMessages.

End Html.

(** ** Computations with state and exceptions *)

Module Mon.

(** How a JavaScript statement completes: normally with a value, or by
    throwing an [Error] with a message. *)
Inductive Completion (A : Type) : Type :=
| Return (a : A)
| Throw (message : string).
Arguments Return {A} a.
Arguments Throw {A} message.

Definition M (S A : Type) : Type := S -> Completion A * S.

Definition ret {S A} (a : A) : M S A := fun s => (Return a, s).

Definition bind {S A B} (c : M S A) (k : A -> M S B) : M S B :=
  fun s =>
    match c s with
    | (Return a, s') => k a s'
    | (Throw e, s') => (Throw e, s')
    end.

(** [throw new Error(message)]. *)
Definition throw {S A} (message : string) : M S A :=
  fun s => (Throw message, s).

(** [try { body } catch (error) { handler(error.message) }]. *)
Definition try_catch {S A} (body : M S A) (handler : string -> M S A) : M S A :=
  fun s =>
    match body s with
    | (Return a, s') => (Return a, s')
    | (Throw e, s') => handler e s'
    end.

(** [try { body } finally { fin }], for a [fin] that completes
    normally: the completion of [body] is kept. *)
Definition finally {S A} (body : M S A) (fin : M S unit) : M S A :=
  fun s =>
    match body s with
    | (r, s') =>
        match fin s' with
        | (Return _, s'') => (r, s'')
        | (Throw e, s'') => (Throw e, s'')
        end
    end.

Definition get {S} : M S S := fun s => (Return s, s).
Definition gets {S A} (f : S -> A) : M S A := fun s => (Return (f s), s).
Definition modify {S} (f : S -> S) : M S unit := fun s => (Return tt, f s).

(** [for (const x of l) { body(x) }]. *)
Fixpoint for_each {S A} (l : list A) (body : A -> M S unit) : M S unit :=
  match l with
  | [] => ret tt
  | x :: rest => bind (body x) (fun _ => for_each rest body)
  end.

(** The state in which a computation ends. *)
Definition exec {S A} (c : M S A) (s : S) : S := snd (c s).

(** The completion of a computation. *)
Definition outcome {S A} (c : M S A) (s : S) : Completion A := fst (c s).

(** The computation keeps [P]. *)
Definition keeps {S A} (P : S -> Prop) (c : M S A) : Prop :=
  forall s, P s -> P (snd (c s)).

Module Notations.
Declare Scope js_scope.
Delimit Scope js_scope with js.
Notation "x <- c ;; k" := (bind c (fun x => k))
  (at level 100, c at next level, right associativity) : js_scope.
Notation "c ;; k" := (bind c (fun _ => k))
  (at level 100, right associativity) : js_scope.
End Notations.

End Mon.

(** ** Requests, responses and the browser environment *)

(** The body of the start request built by [submitQuery]. *)
Module QueryBody.
Record t := {
  query : string;
  chat_session_id : option string;
  use_agent : bool;
  agent_type : string;
  jobId : option string;
  selected_job_id : option string;
  folder_paths : option (list string);
  folder_default_job_ids : option (gmap string string)
}.
End QueryBody.

(** The payload of [submitFeedback]. *)
Module FeedbackPayload.
Record t := {
  action : string;
  message_id : string;
  chat_session_id : option string;
  rating : option Z;
  comment : option string
}.
End FeedbackPayload.

(** The fields of a JSON response body that the client reads. *)
Module Payload.
Record t := {
  error : option string;
  query_id : option string;
  status : option string;
  answer : option string;
  sources : list Html.Source;
  message_id : option string;
  job_id : option string;
  messages : list Html.Message
}.

Definition empty : t :=
  {| error := None; query_id := None; status := None; answer := None;
     sources := []; message_id := None; job_id := None; messages := [] |}.
End Payload.

Module Net.

(** The path appended to [apiEndpoint]. The parameter of a route is kept
    as it is given: [encodeURIComponent] and the string interpolation
    are one-to-one on it. *)
Inductive Route : Type :=
| Folders
| DefaultJob (folder_path : string)
| QueryStart
| QueryStatus (queryId : option string)
| History
| KnowledgeQuery.

(** A request body before [JSON.stringify]. *)
Inductive Body : Type :=
| QueryB (b : QueryBody.t)
| FeedbackB (p : FeedbackPayload.t)
| HistoryB (jobId action mode : string).

(** The arguments of [fetch(url, options)]. *)
Record Request := {
  endpoint : string;
  route : Route;
  method : string;
  headers : gmap string string;
  body : option Body
}.

(** A [Response]: its status and what [response.json()] resolves to
    ([None] when the body is not JSON and [json()] rejects). *)
Record Response := {
  status : Z;
  json : option Payload.t
}.

(** [response.ok]. *)
Definition ok (r : Response) : bool :=
  (200 <=? status r) && (status r <=? 299).

(** How a call of [fetch] settles. *)
Inductive FetchOutcome : Type :=
| Responded (r : Response)
| Rejected (message : string).

(** The tokens of [response.AuthenticationResult]. *)
Record AuthenticationResult := {
  AccessToken : string;
  IdToken : string;
  ExpiresIn : Z
}.

(** How a call of [initiateAuth(params).promise()] settles. *)
Inductive InitiateAuthOutcome : Type :=
| AuthResolved (result : option AuthenticationResult)
| AuthRejected (code : option string) (message : option string).

End Net.

(** ** Asynchronous computations *)

(** An [async] method runs until it reaches an [await] of something the
    outside world settles (a network call, a timer); it is then suspended
    and the event loop is free to run other handlers on the same state.
    [Run] is what a call has become: finished, or suspended on an
    operation with the code that resumes it. The state handed to [resume]
    is the state at the time of the resumption, which other handlers may
    have changed in between. *)
Module Async.
Import Mon.

(** What an [await] can wait for. *)
Inductive Op : Type :=
| Fetch (req : Net.Request)
| InitiateAuth
| Timeout (ms : Z).

(** What the operation settles with. *)
Definition Reply (op : Op) : Type :=
  match op with
  | Fetch _ => Net.FetchOutcome
  | InitiateAuth => Net.InitiateAuthOutcome
  | Timeout _ => unit
  end.

Inductive Run (S A : Type) : Type :=
| Done (r : Completion A) (s : S)
| Await (op : Op) (s : S) (resume : Reply op -> S -> Run S A).
Arguments Done {S A} r s.
Arguments Await {S A} op s resume.

Definition Async (S A : Type) : Type := S -> Run S A.

(** Synchronous code inside an [async] method. *)
Definition sync {S A} (c : M S A) : Async S A :=
  fun s => let (r, s') := c s in Done r s'.

Definition ret {S A} (a : A) : Async S A := fun s => Done (Return a) s.

Definition throw {S A} (message : string) : Async S A :=
  fun s => Done (Throw message) s.

(** [await op]. *)
Definition await {S} (op : Op) : Async S (Reply op) :=
  fun s => Await op s (fun x s' => Done (Return x) s').

Fixpoint bind_run {S A B} (r : Run S A) (k : A -> Async S B) : Run S B :=
  match r with
  | Done (Return a) s => k a s
  | Done (Throw e) s => Done (Throw e) s
  | Await op s resume => Await op s (fun x s' => bind_run (resume x s') k)
  end.

Definition bind {S A B} (c : Async S A) (k : A -> Async S B) : Async S B :=
  fun s => bind_run (c s) k.

Fixpoint catch_run {S A} (r : Run S A) (handler : string -> Async S A)
    : Run S A :=
  match r with
  | Done (Return a) s => Done (Return a) s
  | Done (Throw e) s => handler e s
  | Await op s resume =>
      Await op s (fun x s' => catch_run (resume x s') handler)
  end.

(** [try { body } catch (error) { handler(error.message) }]. *)
Definition try_catch {S A} (body : Async S A) (handler : string -> Async S A)
    : Async S A :=
  fun s => catch_run (body s) handler.

Fixpoint finally_run {S A} (r : Run S A) (fin : M S unit) : Run S A :=
  match r with
  | Done c s =>
      match fin s with
      | (Return _, s') => Done c s'
      | (Throw e, s') => Done (Throw e) s'
      end
  | Await op s resume =>
      Await op s (fun x s' => finally_run (resume x s') fin)
  end.

(** [try { body } finally { fin }] for a synchronous [fin]. *)
Definition finally {S A} (body : Async S A) (fin : M S unit) : Async S A :=
  fun s => finally_run (body s) fin.

(** [for (const x of l) { await body(x) }]. *)
Fixpoint for_each {S A} (l : list A) (body : A -> Async S unit)
    : Async S unit :=
  match l with
  | [] => ret tt
  | x :: rest => bind (body x) (fun _ => for_each rest body)
  end.

(** A computation on a part [W] of the state [S], run on the whole. *)
Fixpoint lift_run {W S A} (get : S -> W) (set : W -> S -> S)
    (r : Run W A) (s : S) : Run S A :=
  match r with
  | Done c w => Done c (set w s)
  | Await op w resume =>
      Await op (set w s)
        (fun x s' => lift_run get set (resume x (get s')) s')
  end.

Definition lift {W S A} (get : S -> W) (set : W -> S -> S)
    (c : Async W A) : Async S A :=
  fun s => lift_run get set (c (get s)) s.

(** Running a call to its end when nothing else happens in between:
    each operation is settled by [settle] as soon as it is awaited. *)
Fixpoint run {S A} (settle : forall op, S -> Reply op * S) (r : Run S A)
    : Completion A * S :=
  match r with
  | Done c s => (c, s)
  | Await op s resume =>
      let (x, s') := settle op s in run settle (resume x s')
  end.

(** [During P Q r]: the call is in a state that satisfies [P] each time
    it is suspended, whatever the operations settle with and as long as
    the state satisfies [P] again when the call is resumed; and when it
    finishes, its completion and its state satisfy [Q]. *)
Inductive During {S A} (P : S -> Prop) (Q : Completion A -> S -> Prop)
    : Run S A -> Prop :=
| During_Done c s : Q c s -> During P Q (Done c s)
| During_Await op s resume :
    P s ->
    (forall x s', P s' -> During P Q (resume x s')) ->
    During P Q (Await op s resume).

(** [P] holds whenever the call is suspended and when it finishes. *)
Definition Always {S A} (P : S -> Prop) (r : Run S A) : Prop :=
  During P (fun _ s => P s) r.

Module Notations.
Declare Scope async_scope.
Delimit Scope async_scope with async.
Notation "x <- c ;; k" := (bind c (fun x => k))
  (at level 100, c at next level, right associativity) : async_scope.
Notation "c ;; k" := (bind c (fun _ => k))
  (at level 100, right associativity) : async_scope.
End Notations.

End Async.

(** What the outside world answers. Each oracle is indexed by the number
    of earlier calls of the same kind. *)
Record Env := {
(** [Date.now()], also the instant of [new Date()] *)
clock : nat -> Z;
(** [date.toISOString()] and [date.toLocaleString('ja-JP')] *)
toISOString : Z -> string;
toLocaleString : Z -> string;
(** two readings of the number returned by a call of [Math.random()]:
    [Math.random() * 16 | 0], an integer from 0 to 15, and
    [Math.random().toString(36).substr(2, 9)] *)
random16 : nat -> Z;
random36 : nat -> string;
(** [fetch] *)
transport : nat -> Net.Request -> Net.FetchOutcome;
(** the identity provider behind [initiateAuth] *)
provider : nat -> Net.InitiateAuthOutcome
}.

(** The item ['selectedFolderPaths'] of [localStorage] holds JSON text
    written by [JSON.stringify] on an array of strings. It is kept as the
    array it parses to. [NoItem] is the absence of the item, or the empty
    text, which the code reads alike; [Malformed] is a text that is not
    empty and on which [JSON.parse] throws. *)
Inductive StoredPaths : Type :=
| NoItem
| Paths (paths : list string)
| Malformed.

(** The browser tab: storage, location, and the state of the
    [CognitoAuthManager] instance published on [window]. *)
Record World := {
(** the items of [localStorage] other than ['selectedFolderPaths'] *)
localStorage : gmap string string;
(** the item ['selectedFolderPaths'] of [localStorage] *)
storedFolderPaths : StoredPaths;
sessionStorage : gmap string string;
(** the last value assigned to [window.location.href], if any *)
location_href : option string;
(** [performance.navigation.type], when the interface exists *)
navigation_type : option Z;
(** whether [window.verificationPlanAuthManager] is set *)
manager_published : bool;
(** [this.sessionToken] of the manager *)
sessionToken : option string;
(** whether [this.cognitoIdentityServiceProvider] is set *)
sdk_ready : bool;
(** how many times the clock, the random source, the transport and
    the identity provider have been asked so far *)
clock_reads : nat;
random_draws : nat;
fetches : nat;
auth_calls : nat;
(** the delays, in milliseconds, of the timers set with [setTimeout]
    that have fired so far, the latest last *)
timers : list Z
}.

(** Field updates of [World]. *)
Definition set_storedFolderPaths (v : StoredPaths) (w : World) : World :=
  {| localStorage := localStorage w; storedFolderPaths := v;
     sessionStorage := sessionStorage w; location_href := location_href w;
     navigation_type := navigation_type w;
     manager_published := manager_published w;
     sessionToken := sessionToken w; sdk_ready := sdk_ready w;
     clock_reads := clock_reads w; random_draws := random_draws w;
     fetches := fetches w; auth_calls := auth_calls w;
     timers := timers w |}.

Definition set_location_href (v : option string) (w : World) : World :=
  {| localStorage := localStorage w;
     storedFolderPaths := storedFolderPaths w;
     sessionStorage := sessionStorage w; location_href := v;
     navigation_type := navigation_type w;
     manager_published := manager_published w;
     sessionToken := sessionToken w; sdk_ready := sdk_ready w;
     clock_reads := clock_reads w; random_draws := random_draws w;
     fetches := fetches w; auth_calls := auth_calls w;
     timers := timers w |}.

Definition set_sessionToken (v : option string) (w : World) : World :=
  {| localStorage := localStorage w;
     storedFolderPaths := storedFolderPaths w;
     sessionStorage := sessionStorage w; location_href := location_href w;
     navigation_type := navigation_type w;
     manager_published := manager_published w; sessionToken := v;
     sdk_ready := sdk_ready w; clock_reads := clock_reads w;
     random_draws := random_draws w; fetches := fetches w;
     auth_calls := auth_calls w;
     timers := timers w |}.

Definition upd_localStorage (f : gmap string string -> gmap string string) (w : World) : World :=
  {| localStorage := f (localStorage w);
     storedFolderPaths := storedFolderPaths w;
     sessionStorage := sessionStorage w; location_href := location_href w;
     navigation_type := navigation_type w;
     manager_published := manager_published w;
     sessionToken := sessionToken w; sdk_ready := sdk_ready w;
     clock_reads := clock_reads w; random_draws := random_draws w;
     fetches := fetches w; auth_calls := auth_calls w;
     timers := timers w |}.

Definition upd_sessionStorage (f : gmap string string -> gmap string string) (w : World) : World :=
  {| localStorage := localStorage w;
     storedFolderPaths := storedFolderPaths w;
     sessionStorage := f (sessionStorage w);
     location_href := location_href w; navigation_type := navigation_type w;
     manager_published := manager_published w;
     sessionToken := sessionToken w; sdk_ready := sdk_ready w;
     clock_reads := clock_reads w; random_draws := random_draws w;
     fetches := fetches w; auth_calls := auth_calls w;
     timers := timers w |}.

Definition upd_clock_reads (f : nat -> nat) (w : World) : World :=
  {| localStorage := localStorage w;
     storedFolderPaths := storedFolderPaths w;
     sessionStorage := sessionStorage w; location_href := location_href w;
     navigation_type := navigation_type w;
     manager_published := manager_published w;
     sessionToken := sessionToken w; sdk_ready := sdk_ready w;
     clock_reads := f (clock_reads w); random_draws := random_draws w;
     fetches := fetches w; auth_calls := auth_calls w;
     timers := timers w |}.

Definition upd_random_draws (f : nat -> nat) (w : World) : World :=
  {| localStorage := localStorage w;
     storedFolderPaths := storedFolderPaths w;
     sessionStorage := sessionStorage w; location_href := location_href w;
     navigation_type := navigation_type w;
     manager_published := manager_published w;
     sessionToken := sessionToken w; sdk_ready := sdk_ready w;
     clock_reads := clock_reads w; random_draws := f (random_draws w);
     fetches := fetches w; auth_calls := auth_calls w;
     timers := timers w |}.

Definition upd_fetches (f : nat -> nat) (w : World) : World :=
  {| localStorage := localStorage w;
     storedFolderPaths := storedFolderPaths w;
     sessionStorage := sessionStorage w; location_href := location_href w;
     navigation_type := navigation_type w;
     manager_published := manager_published w;
     sessionToken := sessionToken w; sdk_ready := sdk_ready w;
     clock_reads := clock_reads w; random_draws := random_draws w;
     fetches := f (fetches w); auth_calls := auth_calls w;
     timers := timers w |}.

Definition upd_auth_calls (f : nat -> nat) (w : World) : World :=
  {| localStorage := localStorage w;
     storedFolderPaths := storedFolderPaths w;
     sessionStorage := sessionStorage w; location_href := location_href w;
     navigation_type := navigation_type w;
     manager_published := manager_published w;
     sessionToken := sessionToken w; sdk_ready := sdk_ready w;
     clock_reads := clock_reads w; random_draws := random_draws w;
     fetches := fetches w; auth_calls := f (auth_calls w);
     timers := timers w |}.

Definition upd_timers (f : list Z -> list Z) (w : World) : World :=
  {| localStorage := localStorage w;
     storedFolderPaths := storedFolderPaths w;
     sessionStorage := sessionStorage w; location_href := location_href w;
     navigation_type := navigation_type w;
     manager_published := manager_published w;
     sessionToken := sessionToken w; sdk_ready := sdk_ready w;
     clock_reads := clock_reads w; random_draws := random_draws w;
     fetches := fetches w; auth_calls := auth_calls w;
     timers := f (timers w) |}.

(** The browser interfaces the code calls. *)
Module Browser.
Import Mon Mon.Notations.
Local Open Scope js_scope.

Section WithEnv.
Variable env : Env.

(** [Date.now()]. *)
Definition Date_now : M World Z :=
  fun w => (Return (clock env (clock_reads w)), upd_clock_reads S w).

(** [Math.random() * 16 | 0]. *)
Definition Math_random16 : M World Z :=
  fun w => (Return (random16 env (random_draws w)), upd_random_draws S w).

(** [Math.random().toString(36).substr(2, 9)]. *)
Definition Math_random36 : M World string :=
  fun w => (Return (random36 env (random_draws w)), upd_random_draws S w).

(** [new Date()]: the instant it holds. *)
Definition new_Date : M World Z := Date_now.

End WithEnv.

(** [fetch(url, options)], to be awaited. *)
Definition fetch {S} (req : Net.Request) : Async.Async S Net.FetchOutcome :=
  Async.await (Async.Fetch req).

(** [cognitoIdentityServiceProvider.initiateAuth(params).promise()], to
    be awaited. *)
Definition initiateAuth {S} : Async.Async S Net.InitiateAuthOutcome :=
  Async.await Async.InitiateAuth.

(** [new Promise(resolve => setTimeout(resolve, ms))], to be awaited. *)
Definition sleep {S} (ms : Z) : Async.Async S unit :=
  Async.await (Async.Timeout ms).

(** How the outside world settles an operation awaited in world [w]:
    the transport and the identity provider answer, a timer fires
    after its delay. *)
Definition settle (env : Env) (op : Async.Op) (w : World)
    : Async.Reply op * World :=
  match op as o return Async.Reply o * World with
  | Async.Fetch req => (transport env (fetches w) req, upd_fetches S w)
  | Async.InitiateAuth => (provider env (auth_calls w), upd_auth_calls S w)
  | Async.Timeout ms => (tt, upd_timers (fun fired => (fired ++ [ms])%list) w)
  end.

Definition localStorage_getItem (key : string) : M World (option string) :=
  gets (fun w => localStorage w !! key).
Definition localStorage_setItem (key value : string) : M World unit :=
  modify (upd_localStorage (insert key value)).
Definition localStorage_removeItem (key : string) : M World unit :=
  modify (upd_localStorage (delete key)).

Definition sessionStorage_getItem (key : string) : M World (option string) :=
  gets (fun w => sessionStorage w !! key).
Definition sessionStorage_setItem (key value : string) : M World unit :=
  modify (upd_sessionStorage (insert key value)).
Definition sessionStorage_removeItem (key : string) : M World unit :=
  modify (upd_sessionStorage (delete key)).

(** [window.location.href = href]. *)
Definition navigate (href : string) : M World unit :=
  modify (set_location_href (Some href)).

End Browser.

(** ** The credential manager ([frontend/auth.js]) *)

(** The structured result of [refreshAccessToken]. *)
Module RefreshResult.
Record t := {
  success : bool;
  message : string;
  accessToken : option string;
  idToken : option string
}.

Definition failure (message : string) : t :=
  {| success := false; message := message;
     accessToken := None; idToken := None |}.
End RefreshResult.

(** What [apiRequest] calls on [this.authManager]. *)
Module Manager.
Record t := {
  getAccessToken : Async.Async World (option string);
  refreshAccessToken : Async.Async World RefreshResult.t
}.
End Manager.

Module CognitoAuthManager.
Import Mon Mon.Notations Async.Notations Js Browser.
Local Open Scope js_scope.

(** The table [errorMessages] of [parseError]. *)
Definition errorMessages : list (string * string) :=
  [ ("UsernameExistsException", "このメールアドレスは既に登録されています");
    ("InvalidPasswordException", "パスワードが要件を満たしていません");
    ("UserNotFoundException", "このユーザーは登録されていません");
    ("NotAuthorizedException", "メールアドレスまたはパスワードが正しくありません");
    ("UserNotConfirmedException", "メール確認がまだ完了していません");
    ("CodeMismatchException", "確認コードが正しくありません");
    ("ExpiredCodeException", "確認コードの有効期限が切れています");
    ("TooManyRequestsException",
     "リクエストが多すぎます。しばらく待ってから再度お試しください") ].

Fixpoint assoc (key : string) (table : list (string * string)) : option string :=
  match table with
  | [] => None
  | (k, v) :: rest => if String.eqb k key then Some v else assoc key rest
  end.

(** [parseError(error)], with [errorCode] standing for
    [error.code || error.name]. *)
Definition parseError (errorCode message : option string) : string :=
  or_default
    (or_else (match errorCode with
              | Some c => assoc c errorMessages
              | None => None
              end) message)
    "エラーが発生しました".

(** [signOut()]: the five stored items are removed. *)
Definition signOut : M World unit :=
  localStorage_removeItem "cognito_access_token" ;;
  localStorage_removeItem "cognito_id_token" ;;
  localStorage_removeItem "cognito_refresh_token" ;;
  localStorage_removeItem "cognito_token_expires_at" ;;
  localStorage_removeItem "cognito_user_email" ;;
  modify (set_sessionToken None).

Section WithEnv.
Variable env : Env.

(** [isAuthenticated()]. A comparison with [NaN] is false. *)
Definition isAuthenticated : M World bool :=
  token <- localStorage_getItem "cognito_access_token" ;;
  if negb (truthy token) then ret false
  else
    expiresAt <- localStorage_getItem "cognito_token_expires_at" ;;
    if truthy expiresAt then
      now <- Date_now env ;;
      match parseInt10 (default "" expiresAt) with
      | Some expiryTime => if expiryTime <=? now then ret false else ret true
      | None => ret true
      end
    else ret true.

(** What [refreshAccessToken] does with a resolved provider call
    that carries an [AuthenticationResult]. *)
Definition store_tokens (result : Net.AuthenticationResult)
    : M World RefreshResult.t :=
  modify (set_sessionToken (Some (Net.AccessToken result))) ;;
  let newIdToken := Net.IdToken result in
  localStorage_setItem "cognito_access_token" (Net.AccessToken result) ;;
  localStorage_setItem "cognito_id_token" newIdToken ;;
  let expiresIn :=
    if Net.ExpiresIn result =? 0 then 3600 else Net.ExpiresIn result in
  now <- Date_now env ;;
  let expiresAt := now + expiresIn * 1000 in
  localStorage_setItem "cognito_token_expires_at"
    (number_to_string expiresAt) ;;
  ret {| RefreshResult.success := true;
         RefreshResult.message := "トークンを更新しました";
         RefreshResult.accessToken := Some (Net.AccessToken result);
         RefreshResult.idToken := Some newIdToken |}.

(** [refreshAccessToken()]. It always completes with a structured
    result: the provider call is inside [try]/[catch]. *)
Definition refreshAccessToken : Async.Async World RefreshResult.t :=
  (refreshToken <- Async.sync (localStorage_getItem "cognito_refresh_token") ;;
   if negb (truthy refreshToken) then
     Async.ret (RefreshResult.failure "リフレッシュトークンがありません")
   else
     sdk <- Async.sync (gets sdk_ready) ;;
     if negb sdk then
       Async.ret (RefreshResult.failure "AWS SDKが初期化されていません")
     else
       response <- initiateAuth ;;
       match response with
       | Net.AuthResolved None =>
           Async.ret
             (RefreshResult.failure "トークンのリフレッシュに失敗しました")
       | Net.AuthResolved (Some result) =>
           Async.sync (store_tokens result)
       | Net.AuthRejected code message =>
           Async.sync
             (if bool_decide (code = Some "NotAuthorizedException")
              then signOut else ret tt) ;;
           Async.ret (RefreshResult.failure (parseError code message))
       end)%async.

(** [getAccessToken()]. *)
Definition getAccessToken : Async.Async World (option string) :=
  (authenticated <- Async.sync isAuthenticated ;;
   if negb authenticated then
     refreshResult <- refreshAccessToken ;;
     if negb (RefreshResult.success refreshResult) then Async.ret None
     else Async.sync (localStorage_getItem "cognito_access_token")
   else Async.sync (localStorage_getItem "cognito_access_token"))%async.

(** The manager published as [window.verificationPlanAuthManager]. *)
Definition manager : Manager.t :=
  {| Manager.getAccessToken := getAccessToken;
     Manager.refreshAccessToken := refreshAccessToken |}.
End WithEnv.

End CognitoAuthManager.

(** ** The application ([frontend/verification-plan.js]) *)

Module App.
Import Mon Mon.Notations Async.Notations Js Browser Html.
Local Open Scope js_scope.

(** The properties of [this.elements] that the methods below read or
    write. Class lists, scrolling and focus are display only and are
    left out. *)
Record Elements := {
  queryInput_value : string;
  queryInput_disabled : bool;
  queryInput_placeholder : string;
  submitQueryBtn_disabled : bool;
  queryStatus_textContent : string;
  queryStatus_className : string;
  queryStatus_display : string;
  chatHistory_innerHTML : string;
(** the message of the element [loading-spinner-overlay], when it is
    in the document *)
loadingOverlay : option string;
searchTargetModal_display : string;
jobIdInputModal_value : string;
currentFolderDisplay_textContent : string;
(** the [src] of the frame inside [pdfViewerContainer], if there is one *)
pdfViewerContainer_src : option string
}.

Definition set_queryInput_value (v : string) (e : Elements) : Elements :=
  {| queryInput_value := v; queryInput_disabled := queryInput_disabled e;
     queryInput_placeholder := queryInput_placeholder e;
     submitQueryBtn_disabled := submitQueryBtn_disabled e;
     queryStatus_textContent := queryStatus_textContent e;
     queryStatus_className := queryStatus_className e;
     queryStatus_display := queryStatus_display e;
     chatHistory_innerHTML := chatHistory_innerHTML e;
     loadingOverlay := loadingOverlay e;
     searchTargetModal_display := searchTargetModal_display e;
     jobIdInputModal_value := jobIdInputModal_value e;
     currentFolderDisplay_textContent := currentFolderDisplay_textContent e;
     pdfViewerContainer_src := pdfViewerContainer_src e |}.

Definition set_queryInput_disabled (v : bool) (e : Elements) : Elements :=
  {| queryInput_value := queryInput_value e; queryInput_disabled := v;
     queryInput_placeholder := queryInput_placeholder e;
     submitQueryBtn_disabled := submitQueryBtn_disabled e;
     queryStatus_textContent := queryStatus_textContent e;
     queryStatus_className := queryStatus_className e;
     queryStatus_display := queryStatus_display e;
     chatHistory_innerHTML := chatHistory_innerHTML e;
     loadingOverlay := loadingOverlay e;
     searchTargetModal_display := searchTargetModal_display e;
     jobIdInputModal_value := jobIdInputModal_value e;
     currentFolderDisplay_textContent := currentFolderDisplay_textContent e;
     pdfViewerContainer_src := pdfViewerContainer_src e |}.

Definition set_queryInput_placeholder (v : string) (e : Elements) : Elements :=
  {| queryInput_value := queryInput_value e;
     queryInput_disabled := queryInput_disabled e;
     queryInput_placeholder := v;
     submitQueryBtn_disabled := submitQueryBtn_disabled e;
     queryStatus_textContent := queryStatus_textContent e;
     queryStatus_className := queryStatus_className e;
     queryStatus_display := queryStatus_display e;
     chatHistory_innerHTML := chatHistory_innerHTML e;
     loadingOverlay := loadingOverlay e;
     searchTargetModal_display := searchTargetModal_display e;
     jobIdInputModal_value := jobIdInputModal_value e;
     currentFolderDisplay_textContent := currentFolderDisplay_textContent e;
     pdfViewerContainer_src := pdfViewerContainer_src e |}.

Definition set_submitQueryBtn_disabled (v : bool) (e : Elements) : Elements :=
  {| queryInput_value := queryInput_value e;
     queryInput_disabled := queryInput_disabled e;
     queryInput_placeholder := queryInput_placeholder e;
     submitQueryBtn_disabled := v;
     queryStatus_textContent := queryStatus_textContent e;
     queryStatus_className := queryStatus_className e;
     queryStatus_display := queryStatus_display e;
     chatHistory_innerHTML := chatHistory_innerHTML e;
     loadingOverlay := loadingOverlay e;
     searchTargetModal_display := searchTargetModal_display e;
     jobIdInputModal_value := jobIdInputModal_value e;
     currentFolderDisplay_textContent := currentFolderDisplay_textContent e;
     pdfViewerContainer_src := pdfViewerContainer_src e |}.

Definition set_queryStatus_textContent (v : string) (e : Elements) : Elements :=
  {| queryInput_value := queryInput_value e;
     queryInput_disabled := queryInput_disabled e;
     queryInput_placeholder := queryInput_placeholder e;
     submitQueryBtn_disabled := submitQueryBtn_disabled e;
     queryStatus_textContent := v;
     queryStatus_className := queryStatus_className e;
     queryStatus_display := queryStatus_display e;
     chatHistory_innerHTML := chatHistory_innerHTML e;
     loadingOverlay := loadingOverlay e;
     searchTargetModal_display := searchTargetModal_display e;
     jobIdInputModal_value := jobIdInputModal_value e;
     currentFolderDisplay_textContent := currentFolderDisplay_textContent e;
     pdfViewerContainer_src := pdfViewerContainer_src e |}.

Definition set_queryStatus_className (v : string) (e : Elements) : Elements :=
  {| queryInput_value := queryInput_value e;
     queryInput_disabled := queryInput_disabled e;
     queryInput_placeholder := queryInput_placeholder e;
     submitQueryBtn_disabled := submitQueryBtn_disabled e;
     queryStatus_textContent := queryStatus_textContent e;
     queryStatus_className := v;
     queryStatus_display := queryStatus_display e;
     chatHistory_innerHTML := chatHistory_innerHTML e;
     loadingOverlay := loadingOverlay e;
     searchTargetModal_display := searchTargetModal_display e;
     jobIdInputModal_value := jobIdInputModal_value e;
     currentFolderDisplay_textContent := currentFolderDisplay_textContent e;
     pdfViewerContainer_src := pdfViewerContainer_src e |}.

Definition set_queryStatus_display (v : string) (e : Elements) : Elements :=
  {| queryInput_value := queryInput_value e;
     queryInput_disabled := queryInput_disabled e;
     queryInput_placeholder := queryInput_placeholder e;
     submitQueryBtn_disabled := submitQueryBtn_disabled e;
     queryStatus_textContent := queryStatus_textContent e;
     queryStatus_className := queryStatus_className e;
     queryStatus_display := v;
     chatHistory_innerHTML := chatHistory_innerHTML e;
     loadingOverlay := loadingOverlay e;
     searchTargetModal_display := searchTargetModal_display e;
     jobIdInputModal_value := jobIdInputModal_value e;
     currentFolderDisplay_textContent := currentFolderDisplay_textContent e;
     pdfViewerContainer_src := pdfViewerContainer_src e |}.

Definition set_chatHistory_innerHTML (v : string) (e : Elements) : Elements :=
  {| queryInput_value := queryInput_value e;
     queryInput_disabled := queryInput_disabled e;
     queryInput_placeholder := queryInput_placeholder e;
     submitQueryBtn_disabled := submitQueryBtn_disabled e;
     queryStatus_textContent := queryStatus_textContent e;
     queryStatus_className := queryStatus_className e;
     queryStatus_display := queryStatus_display e;
     chatHistory_innerHTML := v; loadingOverlay := loadingOverlay e;
     searchTargetModal_display := searchTargetModal_display e;
     jobIdInputModal_value := jobIdInputModal_value e;
     currentFolderDisplay_textContent := currentFolderDisplay_textContent e;
     pdfViewerContainer_src := pdfViewerContainer_src e |}.

Definition set_loadingOverlay (v : option string) (e : Elements) : Elements :=
  {| queryInput_value := queryInput_value e;
     queryInput_disabled := queryInput_disabled e;
     queryInput_placeholder := queryInput_placeholder e;
     submitQueryBtn_disabled := submitQueryBtn_disabled e;
     queryStatus_textContent := queryStatus_textContent e;
     queryStatus_className := queryStatus_className e;
     queryStatus_display := queryStatus_display e;
     chatHistory_innerHTML := chatHistory_innerHTML e; loadingOverlay := v;
     searchTargetModal_display := searchTargetModal_display e;
     jobIdInputModal_value := jobIdInputModal_value e;
     currentFolderDisplay_textContent := currentFolderDisplay_textContent e;
     pdfViewerContainer_src := pdfViewerContainer_src e |}.

Definition set_searchTargetModal_display (v : string) (e : Elements) : Elements :=
  {| queryInput_value := queryInput_value e;
     queryInput_disabled := queryInput_disabled e;
     queryInput_placeholder := queryInput_placeholder e;
     submitQueryBtn_disabled := submitQueryBtn_disabled e;
     queryStatus_textContent := queryStatus_textContent e;
     queryStatus_className := queryStatus_className e;
     queryStatus_display := queryStatus_display e;
     chatHistory_innerHTML := chatHistory_innerHTML e;
     loadingOverlay := loadingOverlay e; searchTargetModal_display := v;
     jobIdInputModal_value := jobIdInputModal_value e;
     currentFolderDisplay_textContent := currentFolderDisplay_textContent e;
     pdfViewerContainer_src := pdfViewerContainer_src e |}.

Definition set_jobIdInputModal_value (v : string) (e : Elements) : Elements :=
  {| queryInput_value := queryInput_value e;
     queryInput_disabled := queryInput_disabled e;
     queryInput_placeholder := queryInput_placeholder e;
     submitQueryBtn_disabled := submitQueryBtn_disabled e;
     queryStatus_textContent := queryStatus_textContent e;
     queryStatus_className := queryStatus_className e;
     queryStatus_display := queryStatus_display e;
     chatHistory_innerHTML := chatHistory_innerHTML e;
     loadingOverlay := loadingOverlay e;
     searchTargetModal_display := searchTargetModal_display e;
     jobIdInputModal_value := v;
     currentFolderDisplay_textContent := currentFolderDisplay_textContent e;
     pdfViewerContainer_src := pdfViewerContainer_src e |}.

Definition set_currentFolderDisplay_textContent (v : string) (e : Elements) : Elements :=
  {| queryInput_value := queryInput_value e;
     queryInput_disabled := queryInput_disabled e;
     queryInput_placeholder := queryInput_placeholder e;
     submitQueryBtn_disabled := submitQueryBtn_disabled e;
     queryStatus_textContent := queryStatus_textContent e;
     queryStatus_className := queryStatus_className e;
     queryStatus_display := queryStatus_display e;
     chatHistory_innerHTML := chatHistory_innerHTML e;
     loadingOverlay := loadingOverlay e;
     searchTargetModal_display := searchTargetModal_display e;
     jobIdInputModal_value := jobIdInputModal_value e;
     currentFolderDisplay_textContent := v;
     pdfViewerContainer_src := pdfViewerContainer_src e |}.

Definition set_pdfViewerContainer_src (v : option string) (e : Elements) : Elements :=
  {| queryInput_value := queryInput_value e;
     queryInput_disabled := queryInput_disabled e;
     queryInput_placeholder := queryInput_placeholder e;
     submitQueryBtn_disabled := submitQueryBtn_disabled e;
     queryStatus_textContent := queryStatus_textContent e;
     queryStatus_className := queryStatus_className e;
     queryStatus_display := queryStatus_display e;
     chatHistory_innerHTML := chatHistory_innerHTML e;
     loadingOverlay := loadingOverlay e;
     searchTargetModal_display := searchTargetModal_display e;
     jobIdInputModal_value := jobIdInputModal_value e;
     currentFolderDisplay_textContent := currentFolderDisplay_textContent e;
     pdfViewerContainer_src := v |}.

(** The fields of a [KnowledgeQueryApp]. *)
Record t := {
  apiEndpoint : string;
  selectedJobId : option string;
  selectedFolderPaths : list string;
  folderDefaultJobIds : gmap string string;
  chatSessionId : option string;
  useAgent : bool;
  agentType : string;
(** whether [this.authManager] refers to the manager ([false] for
    [null]) *)
authManager : bool;
chatMessages : list Html.Message;
currentPdfUris : list Value;
currentPdfIndex : nat;
isHardRefresh : bool;
elements : Elements
}.

Definition set_selectedJobId (v : option string) (a : t) : t :=
  {| apiEndpoint := apiEndpoint a; selectedJobId := v;
     selectedFolderPaths := selectedFolderPaths a;
     folderDefaultJobIds := folderDefaultJobIds a;
     chatSessionId := chatSessionId a; useAgent := useAgent a;
     agentType := agentType a; authManager := authManager a;
     chatMessages := chatMessages a; currentPdfUris := currentPdfUris a;
     currentPdfIndex := currentPdfIndex a;
     isHardRefresh := isHardRefresh a; elements := elements a |}.

Definition set_selectedFolderPaths (v : list string) (a : t) : t :=
  {| apiEndpoint := apiEndpoint a; selectedJobId := selectedJobId a;
     selectedFolderPaths := v;
     folderDefaultJobIds := folderDefaultJobIds a;
     chatSessionId := chatSessionId a; useAgent := useAgent a;
     agentType := agentType a; authManager := authManager a;
     chatMessages := chatMessages a; currentPdfUris := currentPdfUris a;
     currentPdfIndex := currentPdfIndex a;
     isHardRefresh := isHardRefresh a; elements := elements a |}.

Definition set_folderDefaultJobIds (v : gmap string string) (a : t) : t :=
  {| apiEndpoint := apiEndpoint a; selectedJobId := selectedJobId a;
     selectedFolderPaths := selectedFolderPaths a;
     folderDefaultJobIds := v; chatSessionId := chatSessionId a;
     useAgent := useAgent a; agentType := agentType a;
     authManager := authManager a; chatMessages := chatMessages a;
     currentPdfUris := currentPdfUris a;
     currentPdfIndex := currentPdfIndex a;
     isHardRefresh := isHardRefresh a; elements := elements a |}.

Definition set_chatSessionId (v : option string) (a : t) : t :=
  {| apiEndpoint := apiEndpoint a; selectedJobId := selectedJobId a;
     selectedFolderPaths := selectedFolderPaths a;
     folderDefaultJobIds := folderDefaultJobIds a; chatSessionId := v;
     useAgent := useAgent a; agentType := agentType a;
     authManager := authManager a; chatMessages := chatMessages a;
     currentPdfUris := currentPdfUris a;
     currentPdfIndex := currentPdfIndex a;
     isHardRefresh := isHardRefresh a; elements := elements a |}.

Definition set_authManager (v : bool) (a : t) : t :=
  {| apiEndpoint := apiEndpoint a; selectedJobId := selectedJobId a;
     selectedFolderPaths := selectedFolderPaths a;
     folderDefaultJobIds := folderDefaultJobIds a;
     chatSessionId := chatSessionId a; useAgent := useAgent a;
     agentType := agentType a; authManager := v;
     chatMessages := chatMessages a; currentPdfUris := currentPdfUris a;
     currentPdfIndex := currentPdfIndex a;
     isHardRefresh := isHardRefresh a; elements := elements a |}.

Definition set_chatMessages (v : list Html.Message) (a : t) : t :=
  {| apiEndpoint := apiEndpoint a; selectedJobId := selectedJobId a;
     selectedFolderPaths := selectedFolderPaths a;
     folderDefaultJobIds := folderDefaultJobIds a;
     chatSessionId := chatSessionId a; useAgent := useAgent a;
     agentType := agentType a; authManager := authManager a;
     chatMessages := v; currentPdfUris := currentPdfUris a;
     currentPdfIndex := currentPdfIndex a;
     isHardRefresh := isHardRefresh a; elements := elements a |}.

Definition set_currentPdfUris (v : list Value) (a : t) : t :=
  {| apiEndpoint := apiEndpoint a; selectedJobId := selectedJobId a;
     selectedFolderPaths := selectedFolderPaths a;
     folderDefaultJobIds := folderDefaultJobIds a;
     chatSessionId := chatSessionId a; useAgent := useAgent a;
     agentType := agentType a; authManager := authManager a;
     chatMessages := chatMessages a; currentPdfUris := v;
     currentPdfIndex := currentPdfIndex a;
     isHardRefresh := isHardRefresh a; elements := elements a |}.

Definition set_currentPdfIndex (v : nat) (a : t) : t :=
  {| apiEndpoint := apiEndpoint a; selectedJobId := selectedJobId a;
     selectedFolderPaths := selectedFolderPaths a;
     folderDefaultJobIds := folderDefaultJobIds a;
     chatSessionId := chatSessionId a; useAgent := useAgent a;
     agentType := agentType a; authManager := authManager a;
     chatMessages := chatMessages a; currentPdfUris := currentPdfUris a;
     currentPdfIndex := v; isHardRefresh := isHardRefresh a;
     elements := elements a |}.

Definition set_isHardRefresh (v : bool) (a : t) : t :=
  {| apiEndpoint := apiEndpoint a; selectedJobId := selectedJobId a;
     selectedFolderPaths := selectedFolderPaths a;
     folderDefaultJobIds := folderDefaultJobIds a;
     chatSessionId := chatSessionId a; useAgent := useAgent a;
     agentType := agentType a; authManager := authManager a;
     chatMessages := chatMessages a; currentPdfUris := currentPdfUris a;
     currentPdfIndex := currentPdfIndex a; isHardRefresh := v;
     elements := elements a |}.

Definition upd_elements (f : Elements -> Elements) (a : t) : t :=
  {| apiEndpoint := apiEndpoint a; selectedJobId := selectedJobId a;
     selectedFolderPaths := selectedFolderPaths a;
     folderDefaultJobIds := folderDefaultJobIds a;
     chatSessionId := chatSessionId a; useAgent := useAgent a;
     agentType := agentType a; authManager := authManager a;
     chatMessages := chatMessages a; currentPdfUris := currentPdfUris a;
     currentPdfIndex := currentPdfIndex a;
     isHardRefresh := isHardRefresh a; elements := f (elements a) |}.

(** What a call leaves behind besides the state, in order: the calls of
    [apiRequest], of [fetch], of the two methods of the manager and of
    the three-second wait, made by the code of the application; the
    first argument of each console call of [apiRequest]; the console
    line of each polling attempt; the callbacks handed to [setTimeout]
    and the dialogs shown. *)
Inductive Event : Type :=
| ApiRequest (req : Net.Request)
| FetchCalled (req : Net.Request)
| GetAccessToken
| RefreshAccessToken
| Console (line : string)
| PollingAttempt (attempts maxAttempts : nat)
| Scheduled (callback : string) (ms : Z)
| Alert (message : string).

Record State := {
  world : World;
  app : t;
  log : list Event
}.

Definition set_world (v : World) (st : State) : State :=
  {| world := v; app := app st; log := log st |}.

Definition upd_app (f : t -> t) (st : State) : State :=
  {| world := world st; app := f (app st); log := log st |}.

Definition upd_log (f : list Event -> list Event) (st : State) : State :=
  {| world := world st; app := app st; log := f (log st) |}.

(** Code of the browser or of the manager, run on the whole state. *)
Definition in_world {A} (c : M World A) : M State A :=
  fun st => let (r, w) := c (world st) in (r, set_world w st).

Definition await_world {A} (c : Async.Async World A) : Async.Async State A :=
  Async.lift world set_world c.

(** An assignment to a field of [this]. *)
Definition assign (f : t -> t) : M State unit := modify (upd_app f).

(** An assignment to a property of an element. *)
Definition ui (f : Elements -> Elements) : M State unit :=
  modify (upd_app (upd_elements f)).

Definition read {A} (f : t -> A) : M State A := gets (fun st => f (app st)).

Definition emit (e : Event) : M State unit :=
  modify (upd_log (fun l => (l ++ [e])%list)).

(** A property of the state that only depends on the fields of the
    application. *)
Definition app_only (P : State -> Prop) : Prop :=
  forall st st', app st = app st' -> P st -> P st'.

(** A property of the state that does not depend on the browser. *)
Definition world_stable (P : State -> Prop) : Prop :=
  forall st w, P st -> P (set_world w st).

(** How the outside world settles an operation awaited by the
    application. *)
Definition settle (env : Env) (op : Async.Op) (st : State)
    : Async.Reply op * State :=
  let (x, w) := Browser.settle env op (world st) in (x, set_world w st).

(** A call run to its end with nothing else happening in between. *)
Definition run_alone {A} (env : Env) (c : Async.Async State A) (st : State)
    : Completion A * State :=
  Async.run (settle env) (c st).

(** *** Session identity and page load *)

Section WithEnv.
Variable env : Env.

(** [detectHardRefresh()]. A comparison with [NaN] is false. *)
Definition detectHardRefresh : M State bool :=
  lastLoadTime <- in_world (sessionStorage_getItem "lastPageLoadTime") ;;
  currentTime <- in_world (Date_now env) ;;
  let isReload :=
    truthy lastLoadTime
    && match parseInt (default "" lastLoadTime) with
       | Some t => currentTime - t <? 100
       | None => false
       end in
  in_world (sessionStorage_setItem "lastPageLoadTime"
              (number_to_string currentTime)) ;;
  navigation <- gets (fun st => navigation_type (world st)) ;;
  match navigation with
  | Some type =>
      let isPerformanceReload := type =? 1 in
      ret (negb isReload || isPerformanceReload)
  | None => ret (negb isReload)
  end.

(** The replacement of the characters [x] and [y] of a template by
    hexadecimal digits drawn from left to right. *)
Fixpoint replace_xy (template : string) : M World string :=
  match template with
  | EmptyString => ret EmptyString
  | String c rest =>
      if Ascii.eqb c "x" || Ascii.eqb c "y" then
        r <- Math_random16 env ;;
        let v := if Ascii.eqb c "x" then r else Z.lor (Z.land r 3) 8 in
        tail <- replace_xy rest ;;
        ret (to_string16 v +:+ tail)
      else
        tail <- replace_xy rest ;;
        ret (String c tail)
  end.

(** [generateUUID()], the local function of [initializeChatSession]
    and of [resetChatSession]. *)
Definition generateUUID : M World string :=
  replace_xy "xxxxxxxx-xxxx-4xxx-yxxx-xxxxxxxxxxxx".

(** [initializeChatSession()]. *)
Definition initializeChatSession : M State unit :=
  sessionId <- in_world (sessionStorage_getItem "verificationPlanSessionId") ;;
  if negb (truthy sessionId) then
    uuid <- in_world generateUUID ;;
    let sessionId := "verification_" +:+ uuid in
    in_world (sessionStorage_setItem "verificationPlanSessionId" sessionId) ;;
    assign (set_chatSessionId (Some sessionId))
  else
    assign (set_chatSessionId sessionId).

(** [showMessage(message, type)]. *)
Definition showMessage (message type : string) : M State unit :=
  match message with
  | EmptyString =>
      ui (set_queryStatus_display "none") ;;
      ui (set_queryStatus_textContent "")
  | _ =>
      ui (set_queryStatus_textContent message) ;;
      ui (set_queryStatus_className ("status-message " +:+ type)) ;;
      ui (set_queryStatus_display "block")
  end.

(** [showLoadingUI(message)] and [hideLoadingUI()]. *)
Definition showLoadingUI (message : string) : M State unit :=
  ui (set_loadingOverlay None) ;;
  ui (set_loadingOverlay (Some message)).

Definition hideLoadingUI : M State unit :=
  ui (set_loadingOverlay None).

(** [renderChatHistory()]: the markup of the transcript is assigned
    to [chatHistory.innerHTML]. *)
Definition renderChatHistory : M State unit :=
  chatMessages <- read chatMessages ;;
  ui (set_chatHistory_innerHTML (chatHtml chatMessages)).

(** [addChatMessage(role, content, sources, messageId)]. *)
Definition addChatMessage (role content : string) (sources : list Source)
    (messageId : option string) : M State unit :=
  messageId <-
    (if negb (truthy messageId) && String.eqb role "assistant" then
       now <- in_world (new_Date env) ;;
       let timestamp := toISOString env now in
       suffix <- in_world (Math_random36 env) ;;
       ret (Some (timestamp +:+ "#" +:+ suffix))
     else ret messageId) ;;
  now <- in_world (new_Date env) ;;
  let message :=
    {| Html.role := role; Html.content := content;
       Html.sources := sources;
       Html.timestamp := toLocaleString env now;
       Html.messageId := messageId;
       Html.rating := None; Html.comment := None |} in
  chatMessages <- read chatMessages ;;
  assign (set_chatMessages (chatMessages ++ [message])%list) ;;
  renderChatHistory.

(** [displayPdfInIframe(pdfUrl)]: the container holds a new frame
    whose [src] is the argument, converted to a string. *)
Definition displayPdfInIframe (pdfUrl : Value) : M State unit :=
  showMessage "PDFを読み込み中..." "info" ;;
  ui (set_pdfViewerContainer_src (Some (to_String pdfUrl))) ;;
  showMessage "" "".

(** [source.presignedUrl || source.sourceUri] in [updatePdfList]. *)
Definition fileUrl (source : Source) : Value :=
  or_value (presignedUrl source) (sourceUri source).

(** The loop of [updatePdfList]: what it pushes to [currentPdfUris],
    [seen] being the keys of the [Map] [uniquePdfs]. The keys of a
    [Map] are compared as values: [null], [undefined] and the empty
    string are three different keys. *)
Fixpoint unique_urls (sources : list Source) (seen : list Value)
    : list Value :=
  match sources with
  | [] => []
  | source :: rest =>
      let key := fileUrl source in
      if bool_decide (key ∈ seen) then unique_urls rest seen
      else key :: unique_urls rest (key :: seen)
  end.

(** [updatePdfList(sources)]. *)
Definition updatePdfList (sources : list Source) : M State unit :=
  let uris := unique_urls sources [] in
  assign (set_currentPdfUris uris) ;;
  match uris with
  | [] => ret tt
  | first :: _ =>
      assign (set_currentPdfIndex 0%nat) ;;
      displayPdfInIframe first
  end.

(** [resetChatSession()]. *)
Definition resetChatSession : M State unit :=
  in_world (sessionStorage_removeItem "chatSessionId") ;;
  uuid <- in_world generateUUID ;;
  assign (set_chatSessionId (Some uuid)) ;;
  in_world (sessionStorage_setItem "chatSessionId" uuid) ;;
  assign (set_chatMessages []) ;;
  assign (set_currentPdfUris []) ;;
  assign (set_currentPdfIndex 0%nat) ;;
  renderChatHistory ;;
  ui (set_pdfViewerContainer_src None) ;;
  showMessage "チャットをリセットしました" "info".

(** [updateCurrentFolderDisplay()]. *)
Definition updateCurrentFolderDisplay : M State unit :=
  paths <- read selectedFolderPaths ;;
  match paths with
  | [] => ui (set_currentFolderDisplay_textContent "未選択")
  | [path] => ui (set_currentFolderDisplay_textContent path)
  | _ =>
      ui (set_currentFolderDisplay_textContent
            (nat_to_string (length paths) +:+ "個のフォルダ: "
             +:+ String.concat ", " paths))
  end.

(** [updateQueryInputPlaceholder()]. *)
Definition updateQueryInputPlaceholder : M State unit :=
  paths <- read selectedFolderPaths ;;
  match paths with
  | [] => ui (set_queryInput_placeholder
                "検索対象を上のボタンから選択してください。")
  | _ => ui (set_queryInput_placeholder "質問を入力してください...")
  end.

(** [toggleFolderSelection(folderPath, isSelected)]. *)
Definition toggleFolderSelection (folderPath : string) (isSelected : bool)
    : M State unit :=
  paths <- read selectedFolderPaths ;;
  if isSelected then
    if bool_decide (folderPath ∈ paths) then ret tt
    else assign (set_selectedFolderPaths (paths ++ [folderPath])%list)
  else
    assign (set_selectedFolderPaths
              (filter (fun p => p ≠ folderPath) paths)).

(** [closeSearchTargetModal()]. *)
Definition closeSearchTargetModal : M State unit :=
  ui (set_searchTargetModal_display "none").

(** *** The authenticated request client *)

(** The manager behind [window.verificationPlanAuthManager]. *)
Variable manager : Manager.t.

(** The message of the [SyntaxError] with which [response.json()]
    rejects when the body is not JSON. *)
Definition json_syntax_error : string := "Unexpected end of JSON input".

(** [await response.json()]. The body is taken to have arrived with
    the response: the call is not suspended here. *)
Definition response_json (response : Net.Response)
    : Async.Async State Payload.t :=
  match Net.json response with
  | Some data => Async.ret data
  | None => Async.throw json_syntax_error
  end.

(** [options] with [headers] replaced. *)
Definition with_headers (headers : gmap string string) (req : Net.Request)
    : Net.Request :=
  {| Net.endpoint := Net.endpoint req; Net.route := Net.route req;
     Net.method := Net.method req; Net.headers := headers;
     Net.body := Net.body req |}.

(** [await fetch(url, { ...options, headers: headers })]; a rejected
    promise throws at the [await]. *)
Definition await_fetch (req : Net.Request) : Async.Async State Net.Response :=
  (Async.sync (emit (FetchCalled req)) ;;
   outcome <- fetch req ;;
   match outcome with
   | Net.Responded response => Async.ret response
   | Net.Rejected message => Async.throw message
   end)%async.

(** The first argument of the console calls of [apiRequest]. *)
Definition no_token_line : string :=
  "[apiRequest] Failed to get valid access token - refresh token may be expired".
Definition unauthorized_line : string :=
  "[apiRequest] 401 Unauthorized - Attempting token refresh...".
Definition refreshed_line : string :=
  "[apiRequest] Token refreshed successfully, retrying request...".
Definition retry_successful_line : string :=
  "[apiRequest] Retry successful after token refresh".
Definition refresh_failed_line : string :=
  "[apiRequest] Token refresh failed or retry failed".
Definition request_failed_line : string := "[apiRequest] Request failed:".

Definition session_expired : string := "認証エラー: セッションが切れました".

(** The part of [apiRequest] that obtains the token before the first
    transport call. *)
Definition initial_token : Async.Async State (option string) :=
  (hasManager <- Async.sync (read authManager) ;;
   if hasManager then
     Async.sync (emit GetAccessToken) ;;
     accessToken <- await_world (Manager.getAccessToken manager) ;;
     if negb (truthy accessToken) then
       Async.sync (emit (Console no_token_line)) ;;
       Async.sync (in_world (navigate "index.html")) ;;
       Async.throw "認証セッションが切れました"
     else Async.ret accessToken
   else
     idToken <- Async.sync (in_world (localStorage_getItem "cognito_id_token")) ;;
     accessToken <-
       Async.sync (in_world (localStorage_getItem "cognito_access_token")) ;;
     Async.ret (or_else idToken accessToken))%async.

(** The end of the branch of [apiRequest] for a 401: refresh or
    resend has failed. *)
Definition expire_session : Async.Async State Net.Response :=
  (Async.sync (emit (Console refresh_failed_line)) ;;
   Async.sync (in_world (navigate "index.html")) ;;
   Async.throw session_expired)%async.

(** The branch of [apiRequest] taken when [response.status === 401]. *)
Definition on_unauthorized (req : Net.Request) (headers : gmap string string)
    : Async.Async State Net.Response :=
  (Async.sync (emit (Console unauthorized_line)) ;;
   hasManager <- Async.sync (read authManager) ;;
   if hasManager then
     Async.sync (emit RefreshAccessToken) ;;
     refreshResult <- await_world (Manager.refreshAccessToken manager) ;;
     if RefreshResult.success refreshResult then
       Async.sync (emit (Console refreshed_line)) ;;
       Async.sync (emit GetAccessToken) ;;
       newAccessToken <- await_world (Manager.getAccessToken manager) ;;
       let headers :=
         <["Authorization" := "Bearer " +:+ default "null" newAccessToken]>
           headers in
       retryResponse <- await_fetch (with_headers headers req) ;;
       if Net.ok retryResponse then
         Async.sync (emit (Console retry_successful_line)) ;;
         Async.ret retryResponse
       else expire_session
     else expire_session
   else expire_session)%async.

(** [apiRequest(url, options)]. The final [catch] logs the error and
    throws it again. *)
Definition apiRequest (req : Net.Request) : Async.Async State Net.Response :=
  (Async.sync (emit (ApiRequest req)) ;;
   let headers := Net.headers req in
   accessToken <- initial_token ;;
   let headers :=
     if truthy accessToken
     then <["Authorization" := "Bearer " +:+ default "" accessToken]> headers
     else headers in
   let headers :=
     if negb (truthy (headers !! "Content-Type"))
        && bool_decide (is_Some (Net.body req))
     then <["Content-Type" := "application/json"]> headers
     else headers in
   Async.try_catch
     (response <- await_fetch (with_headers headers req) ;;
      if Net.status response =? 401 then on_unauthorized req headers
      else Async.ret response)
     (fun error =>
        Async.sync (emit (Console request_failed_line)) ;;
        Async.throw error))%async.

(** *** Scoping filter and query orchestration *)

Definition get_options : gmap string string := ∅.

Definition json_headers : gmap string string :=
  {["Content-Type" := "application/json"]}.

(** A request to [`${this.apiEndpoint}${route}`]. *)
Definition request (route : Net.Route) (method : string)
    (headers : gmap string string) (body : option Net.Body)
    : M State Net.Request :=
  endpoint <- read apiEndpoint ;;
  ret {| Net.endpoint := endpoint; Net.route := route;
         Net.method := method; Net.headers := headers;
         Net.body := body |}.

(** The body of the loop of [loadDefaultJobIdsForFolders] for one
    folder: a failed or empty lookup leaves no entry. *)
Definition loadDefaultJobId (folderPath : string) : Async.Async State unit :=
  Async.try_catch
    (req <- Async.sync (request (Net.DefaultJob folderPath) "GET" get_options None) ;;
     response <- apiRequest req ;;
     if Net.ok response then
       data <- response_json response ;;
       if truthy (Payload.job_id data) then
         ids <- Async.sync (read folderDefaultJobIds) ;;
         Async.sync
           (assign (set_folderDefaultJobIds
                      (set_property folderPath
                         (default "" (Payload.job_id data)) ids)))
       else Async.ret tt
     else Async.ret tt)%async
    (fun error => Async.ret tt).

(** [loadDefaultJobIdsForFolders()]. *)
Definition loadDefaultJobIdsForFolders : Async.Async State unit :=
  (Async.sync (assign (set_folderDefaultJobIds ∅)) ;;
   paths <- Async.sync (read selectedFolderPaths) ;;
   Async.for_each paths loadDefaultJobId)%async.

(** [requestBody] as [submitQuery] builds it. *)
Definition build_requestBody (a : t) (query : string) : QueryBody.t :=
  if truthy (selectedJobId a) then
    {| QueryBody.query := query;
       QueryBody.chat_session_id := chatSessionId a;
       QueryBody.use_agent := useAgent a;
       QueryBody.agent_type := agentType a;
       QueryBody.jobId := selectedJobId a;
       QueryBody.selected_job_id := selectedJobId a;
       QueryBody.folder_paths := None;
       QueryBody.folder_default_job_ids := None |}
  else
    {| QueryBody.query := query;
       QueryBody.chat_session_id := chatSessionId a;
       QueryBody.use_agent := useAgent a;
       QueryBody.agent_type := agentType a;
       QueryBody.jobId := None;
       QueryBody.selected_job_id := None;
       QueryBody.folder_paths := Some (selectedFolderPaths a);
       QueryBody.folder_default_job_ids :=
         if bool_decide (folderDefaultJobIds a = ∅) then None
         else Some (folderDefaultJobIds a) |}.

Definition maxAttempts : nat := 60.

(** What [submitQuery] does with a status that is [completed]. *)
Definition on_completed (statusData : Payload.t) : M State unit :=
  let answer := or_default (Payload.answer statusData) "" in
  let sources := Payload.sources statusData in
  let messageId := or_else (Payload.message_id statusData) None in
  addChatMessage "assistant" answer sources messageId ;;
  (match sources with
   | [] => ret tt
   | _ :: _ => updatePdfList sources
   end) ;;
  hideLoadingUI.

(** The polling loop of [submitQuery],
    [while (attempts < maxAttempts && !completed)], entered with
    [completed] false; [remaining] is [maxAttempts - attempts]. The
    result is the final value of [completed]. *)
Fixpoint poll (remaining attempts : nat) (queryId : option string)
    : Async.Async State bool :=
  match remaining with
  | O => Async.ret false
  | S remaining =>
      let attempts := S attempts in
      (sleep 3000 ;;
       Async.sync (emit (PollingAttempt attempts maxAttempts)) ;;
       req <- Async.sync (request (Net.QueryStatus queryId) "GET" json_headers None) ;;
       statusResponse <- apiRequest req ;;
       if negb (Net.ok statusResponse) then
         errorData <- response_json statusResponse ;;
         Async.throw (or_default (Payload.error errorData)
                        "ステータス取得に失敗しました")
       else
         statusData <- response_json statusResponse ;;
         if bool_decide (Payload.status statusData = Some "completed") then
           Async.sync (on_completed statusData) ;;
           Async.ret true
         else if bool_decide (Payload.status statusData = Some "failed") then
           Async.throw (or_default (Payload.error statusData)
                          "クエリ処理に失敗しました")
         else poll remaining attempts queryId)%async
  end.

Definition timeout_message : string :=
  "タイムアウトしました。管理者に問い合わせてください".

(** The [try] block of [submitQuery]. *)
Definition submitQuery_try (query : string) : Async.Async State unit :=
  (Async.sync (addChatMessage "user" query [] None) ;;
   Async.sync (ui (set_queryInput_value "")) ;;
   a <- Async.sync (read (fun a => a)) ;;
   let requestBody := build_requestBody a query in
   req <- Async.sync (request Net.QueryStart "POST" json_headers
                        (Some (Net.QueryB requestBody))) ;;
   startResponse <- apiRequest req ;;
   if negb (Net.ok startResponse) then
     errorData <- response_json startResponse ;;
     Async.throw (or_default (Payload.error errorData)
                    "クエリの開始に失敗しました")
   else
     startData <- response_json startResponse ;;
     let queryId := Payload.query_id startData in
     completed <- poll maxAttempts 0 queryId ;;
     if negb completed then Async.throw timeout_message
     else Async.ret tt)%async.

(** The [catch] and [finally] blocks of [submitQuery]. *)
Definition submitQuery_catch (error : string) : M State unit :=
  showMessage ("エラー: " +:+ error) "error" ;;
  hideLoadingUI.

Definition submitQuery_finally : M State unit :=
  ui (set_submitQueryBtn_disabled false) ;;
  ui (set_queryInput_disabled false).

(** [submitQuery()]. *)
Definition submitQuery : Async.Async State unit :=
  (value <- Async.sync (read (fun a => queryInput_value (elements a))) ;;
   let query := trim value in
   match query with
   | EmptyString => Async.sync (showMessage "質問を入力してください" "error")
   | _ =>
       paths <- Async.sync (read selectedFolderPaths) ;;
       match paths with
       | [] =>
           Async.sync
             (showMessage
                "検索対象のフォルダを選択してください（ヘッダーの「検索対象選択」ボタンから）"
                "error")
       | _ :: _ =>
           Async.sync (ui (set_submitQueryBtn_disabled true)) ;;
           Async.sync (ui (set_queryInput_disabled true)) ;;
           Async.sync (showLoadingUI "回答を生成中...") ;;
           Async.finally
             (Async.try_catch (submitQuery_try query)
                (fun error => Async.sync (submitQuery_catch error)))
             submitQuery_finally
       end
   end)%async.

(** *** Feedback, history and the search target dialog *)

(** The change [submitFeedback] makes to the first message whose
    [messageId] is the given one ([chatMessages.find]); values that
    are [null] leave the field as it is. *)
Fixpoint update_feedback (messageId : string) (rating : option Z)
    (comment : option string) (messages : list Message) : list Message :=
  match messages with
  | [] => []
  | m :: rest =>
      if bool_decide (Html.messageId m = Some messageId) then
        {| Html.role := Html.role m; Html.content := Html.content m;
           Html.sources := Html.sources m;
           Html.timestamp := Html.timestamp m;
           Html.messageId := Html.messageId m;
           Html.rating :=
             match rating with Some _ => rating | None => Html.rating m end;
           Html.comment :=
             match comment with Some _ => comment | None => Html.comment m end
        |} :: rest
      else m :: update_feedback messageId rating comment rest
  end.

(** [submitFeedback(messageId, rating, comment)]. *)
Definition submitFeedback (messageId : string) (rating : option Z)
    (comment : option string) : Async.Async State unit :=
  Async.try_catch
    (sessionId <- Async.sync (read chatSessionId) ;;
     let payload :=
       {| FeedbackPayload.action := "update-feedback";
          FeedbackPayload.message_id := messageId;
          FeedbackPayload.chat_session_id := sessionId;
          FeedbackPayload.rating := rating;
          FeedbackPayload.comment := comment |} in
     req <- Async.sync (request Net.History "POST" ∅
                          (Some (Net.FeedbackB payload))) ;;
     response <- apiRequest req ;;
     if negb (Net.ok response) then
       Async.throw "フィードバック送信に失敗しました"
     else
       result <- response_json response ;;
       messages <- Async.sync (read chatMessages) ;;
       Async.sync
         (assign (set_chatMessages
                    (update_feedback messageId rating comment messages))))%async
    (fun error =>
       Async.sync
         (showMessage ("フィードバック送信に失敗しました: " +:+ error) "error")).

(** [loadChatHistory()]. *)
Definition loadChatHistory : Async.Async State unit :=
  (jobId <- Async.sync (read selectedJobId) ;;
   if negb (truthy jobId) then Async.ret tt
   else
     Async.try_catch
       (req <- Async.sync
                 (request Net.KnowledgeQuery "POST" json_headers
                    (Some (Net.HistoryB (default "" jobId)
                             "get-history" "verification"))) ;;
        response <- await_fetch req ;;
        if Net.ok response then
          data <- response_json response ;;
          Async.sync (assign (set_chatMessages (Payload.messages data))) ;;
          Async.sync renderChatHistory
        else Async.ret tt)
       (fun error => Async.ret tt))%async.

(** [loadFolderTreeInModal()]; the tree it draws is display only. *)
Definition loadFolderTreeInModal : Async.Async State unit :=
  Async.try_catch
    (req <- Async.sync (request Net.Folders "GET" get_options None) ;;
     response <- apiRequest req ;;
     if negb (Net.ok response) then
       Async.throw "フォルダツリーの取得に失敗しました"
     else
       folders <- response_json response ;;
       Async.ret tt)%async
    (fun error => Async.ret tt).

(** A call that is suspended: what it waits for and how it goes on. *)
Record Task := {
  op : Async.Op;
  resume : Async.Reply op -> State -> Async.Run State unit
}.

(** The state a call leaves when it returns control, and the task it
    has become if it is not finished. *)
Definition suspended (r : Async.Run State unit) : State * list Task :=
  match r with
  | Async.Done _ st => (st, [])
  | Async.Await op st resume => (st, [{| op := op; resume := resume |}])
  end.

(** A call of an [async] method that is not awaited. *)
Definition spawn (c : Async.Async State unit) : M State (list Task) :=
  fun st => let (st', tasks) := suspended (c st) in (Return tasks, st').

(** [openSearchTargetModal()]. *)
Definition openSearchTargetModal : M State (list Task) :=
  jobId <- read selectedJobId ;;
  ui (set_jobIdInputModal_value (if truthy jobId then default "" jobId else "")) ;;
  ui (set_searchTargetModal_display "block") ;;
  spawn loadFolderTreeInModal.

(** The part of [applySearchTarget] after the check that a folder is
    selected; [confirmed] is what the user answers if the
    confirmation dialog is shown. *)
Definition applySearchTarget_selected (confirmed : bool)
    : Async.Async State unit :=
  (messages <- Async.sync (read chatMessages) ;;
   let hasActiveSession := negb (bool_decide (messages = [])) in
   stored <- Async.sync (gets (fun st => storedFolderPaths (world st))) ;;
   match stored with
   | Malformed => Async.throw json_syntax_error
   | _ =>
       let previousFolderPaths :=
         match stored with Paths l => l | _ => [] end in
       previousJobId <- Async.sync (in_world (localStorage_getItem "selectedJobId")) ;;
       value <- Async.sync (read (fun a => jobIdInputModal_value (elements a))) ;;
       let newJobId :=
         match trim value with EmptyString => None | v => Some v end in
       selected <- Async.sync (read selectedFolderPaths) ;;
       let foldersChanged :=
         negb (bool_decide (previousFolderPaths ≡ₚ selected)) in
       let jobIdChanged := negb (bool_decide (previousJobId = newJobId)) in
       let searchTargetChanged := foldersChanged || jobIdChanged in
       if hasActiveSession && searchTargetChanged && negb confirmed
       then Async.ret tt
       else
         (if hasActiveSession && searchTargetChanged
          then Async.sync resetChatSession else Async.ret tt) ;;
         Async.sync (assign (set_selectedJobId newJobId)) ;;
         Async.sync (modify (fun st =>
           set_world (set_storedFolderPaths (Paths selected) (world st)) st)) ;;
         Async.sync (in_world
           (match newJobId with
            | Some jobId => localStorage_setItem "selectedJobId" jobId
            | None => localStorage_removeItem "selectedJobId"
            end)) ;;
         loadDefaultJobIdsForFolders ;;
         Async.sync updateCurrentFolderDisplay ;;
         Async.sync (ui (set_queryInput_disabled false)) ;;
         Async.sync updateQueryInputPlaceholder ;;
         Async.sync renderChatHistory ;;
         Async.sync closeSearchTargetModal
   end)%async.

(** [applySearchTarget()]. *)
Definition applySearchTarget (confirmed : bool) : Async.Async State unit :=
  (selected <- Async.sync (read selectedFolderPaths) ;;
   match selected with
   | [] => Async.sync (emit (Alert "フォルダパスを最低1つ選択してください（必須）"))
   | _ :: _ => applySearchTarget_selected confirmed
   end)%async.

(** *** Page load *)

(** [loadSearchTargetFromStorage()]. The result is the call of
    [loadDefaultJobIdsForFolders] it leaves running, if any. *)
Definition loadSearchTargetFromStorage : M State (list Task) :=
  hard <- read isHardRefresh ;;
  if hard then
    modify (fun st => set_world (set_storedFolderPaths NoItem (world st)) st) ;;
    in_world (localStorage_removeItem "selectedJobId") ;;
    assign (set_selectedFolderPaths []) ;;
    assign (set_selectedJobId None) ;;
    assign (set_folderDefaultJobIds ∅) ;;
    updateCurrentFolderDisplay ;;
    ui (set_queryInput_disabled true) ;;
    updateQueryInputPlaceholder ;;
    renderChatHistory ;;
    emit (Scheduled "openSearchTargetModal" 100) ;;
    ret []
  else
    stored <- gets (fun st => storedFolderPaths (world st)) ;;
    (match stored with
     | Paths l => assign (set_selectedFolderPaths l)
     | Malformed => assign (set_selectedFolderPaths [])
     | NoItem => ret tt
     end) ;;
    storedJobId <- in_world (localStorage_getItem "selectedJobId") ;;
    (if truthy storedJobId then assign (set_selectedJobId storedJobId)
     else ret tt) ;;
    paths <- read selectedFolderPaths ;;
    tasks <-
      (match paths with
       | _ :: _ =>
           tasks <- spawn loadDefaultJobIdsForFolders ;;
           ui (set_queryInput_disabled false) ;;
           ret tasks
       | [] =>
           ui (set_queryInput_disabled true) ;;
           emit (Scheduled "openSearchTargetModal" 100) ;;
           ret []
       end) ;;
    updateCurrentFolderDisplay ;;
    updateQueryInputPlaceholder ;;
    renderChatHistory ;;
    ret tasks.

(** [checkAuthManager], the function [initializeAuthManager] calls
    and hands to [setTimeout] until the manager is published. *)
Definition checkAuthManager : M State unit :=
  published <- gets (fun st => manager_published (world st)) ;;
  if published then assign (set_authManager true)
  else emit (Scheduled "checkAuthManager" 100).

(** The fields a new [KnowledgeQueryApp] starts with, before the
    constructor calls its methods; [dom] is what [initializeElements]
    finds in the document. *)
Definition new_app (apiEndpoint : string) (dom : Elements) : t :=
  {| apiEndpoint := apiEndpoint;
     selectedJobId := None;
     selectedFolderPaths := [];
     folderDefaultJobIds := ∅;
     chatSessionId := None;
     useAgent := true;
     agentType := "verification";
     authManager := false;
     chatMessages := [];
     currentPdfUris := [];
     currentPdfIndex := 0%nat;
     isHardRefresh := false;
     elements := dom |}.

(** The calls of the constructor, in order, that touch the state kept
    here. *)
Definition constructor : M State (list Task) :=
  hard <- detectHardRefresh ;;
  assign (set_isHardRefresh hard) ;;
  initializeChatSession ;;
  tasks <- loadSearchTargetFromStorage ;;
  checkAuthManager ;;
  ret tasks.

(** A page load in a tab whose browser state is [w]: the script
    builds a new application. *)
Definition page_load (apiEndpoint : string) (dom : Elements) (w : World)
    : State * list Task :=
  match constructor {| world := w; app := new_app apiEndpoint dom; log := [] |} with
  | (Return tasks, st) => (st, tasks)
  | (Throw _, st) => (st, [])
  end.

(** What a reload of the page finds: the storage of the tab is kept,
    the objects of the previous script are gone, and the navigation
    is a reload. *)
Definition reload_world (w : World) : World :=
  {| localStorage := localStorage w;
     storedFolderPaths := storedFolderPaths w;
     sessionStorage := sessionStorage w;
     location_href := None;
     navigation_type := Some 1;
     manager_published := false;
     sessionToken := None;
     sdk_ready := sdk_ready w;
     clock_reads := clock_reads w; random_draws := random_draws w;
     fetches := fetches w; auth_calls := auth_calls w;
     timers := timers w |}.

(** *** The event loop *)

(** A tab: the state and the calls that are suspended. *)
Record Tab := {
  state : State;
  pending : list Task
}.

(** What the user does. The browser delivers no click to a disabled
    button and no key or text to a disabled text area. A click is
    also what the keyboard activation of a focused button produces;
    the element that [showLoadingUI] appends to the body takes
    neither the focus nor the keyboard. [ClickCancelSearchTarget]
    is a click on the close button or the cancel button of the
    search target dialog, or outside the dialog: the three listeners
    call [closeSearchTargetModal]. *)
Inductive UiEvent : Type :=
| ClickOpenSearchTarget
| ToggleFolder (folderPath : string) (checked : bool)
| TypeJobId (text : string)
| ClickApplySearchTarget (confirmed : bool)
| ClickCancelSearchTarget
| TypeQuery (text : string)
| ClickSubmit
| PressEnter
| ClickReset
| ClickRating (messageId : string) (rating : Z).

(** A handler is started on the state of the tab and runs until it
    finishes or is suspended. *)
Definition start (handler : Async.Async State unit) (tab : Tab) : Tab :=
  let (st, tasks) := suspended (handler (state tab)) in
  {| state := st; pending := (pending tab ++ tasks)%list |}.

Definition start_sync (handler : M State (list Task)) (tab : Tab) : Tab :=
  match handler (state tab) with
  | (Return tasks, st) => {| state := st; pending := (pending tab ++ tasks)%list |}
  | (Throw _, st) => {| state := st; pending := pending tab |}
  end.

(** The listeners of [attachEventListeners] and
    [attachFeedbackListeners]. *)
Definition dispatch (event : UiEvent) (tab : Tab) : Tab :=
  let e := elements (app (state tab)) in
  match event with
  | ClickOpenSearchTarget => start_sync openSearchTargetModal tab
  | ToggleFolder folderPath checked =>
      start (Async.sync (toggleFolderSelection folderPath checked)) tab
  | TypeJobId text =>
      start (Async.sync (ui (set_jobIdInputModal_value text))) tab
  | ClickApplySearchTarget confirmed => start (applySearchTarget confirmed) tab
  | ClickCancelSearchTarget => start (Async.sync closeSearchTargetModal) tab
  | TypeQuery text =>
      if queryInput_disabled e then tab
      else start (Async.sync (ui (set_queryInput_value text))) tab
  | ClickSubmit =>
      if submitQueryBtn_disabled e then tab else start submitQuery tab
  | PressEnter =>
      if queryInput_disabled e then tab else start submitQuery tab
  | ClickReset => start (Async.sync resetChatSession) tab
  | ClickRating messageId rating =>
      start (submitFeedback messageId (Some rating) None) tab
  end.

(** The operation awaited by the [i]-th suspended call settles and
    the call goes on until it finishes or is suspended again. *)
Definition settle_task (i : nat) (tab : Tab) : Tab :=
  match pending tab !! i with
  | None => tab
  | Some task =>
      let (x, st) := settle env (op task) (state tab) in
      let (st', tasks) := suspended (resume task x st) in
      {| state := st';
         pending := (take i (pending tab) ++ tasks
                     ++ drop (S i) (pending tab))%list |}
  end.

(** What happens in a tab, from outside. *)
Inductive Step : Type :=
| User (event : UiEvent)
| Settle (i : nat).

Definition step (s : Step) (tab : Tab) : Tab :=
  match s with
  | User event => dispatch event tab
  | Settle i => settle_task i tab
  end.

Definition steps (l : list Step) (tab : Tab) : Tab :=
  fold_left (fun tab s => step s tab) l tab.

(** The requests that are awaiting an answer. *)
Definition outstanding (tab : Tab) : list Net.Request :=
  omap (fun task =>
          match op task with
          | Async.Fetch req => Some req
          | _ => None
          end) (pending tab).

(** The requests of queries among them: what each call of
    [submitQuery] is waiting for. *)
Definition queries_in_flight (tab : Tab) : list Net.Route :=
  List.filter
    (fun route =>
       match route with
       | Net.QueryStart | Net.QueryStatus _ => true
       | _ => false
       end)
    (map Net.route (outstanding tab)).

(** The submit button and the text area are both disabled. *)
Definition submit_disabled (st : State) : Prop :=
  submitQueryBtn_disabled (elements (app st)) = true
  /\ queryInput_disabled (elements (app st)) = true.

(** *** Observations on the record of a call *)

Definition is_refresh (e : Event) : bool :=
  match e with RefreshAccessToken => true | _ => false end.

Definition is_fetch (e : Event) : bool :=
  match e with FetchCalled _ => true | _ => false end.

Definition is_api_request (e : Event) : bool :=
  match e with ApiRequest _ => true | _ => false end.

Definition is_polling_attempt (e : Event) : bool :=
  match e with PollingAttempt _ _ => true | _ => false end.

Fixpoint count (p : Event -> bool) (l : list Event) : nat :=
  match l with
  | [] => 0%nat
  | e :: rest => ((if p e then 1 else 0) + count p rest)%nat
  end.

(** How many times [refreshAccessToken] and [fetch] were called. *)
Definition refresh_calls (l : list Event) : nat := count is_refresh l.
Definition transport_calls (l : list Event) : nat := count is_fetch l.

(** How many times the request was sent again after the first time. *)
Definition resends (l : list Event) : nat := (transport_calls l - 1)%nat.

(** The address last assigned to [window.location.href]. *)
Definition href (st : State) : option string := location_href (world st).

(** What [apiRequest] does after it has called [refreshAccessToken]
    for a 401: the calls and console lines that follow, with the
    completion [c] and the final state [st']. Either the refresh has
    failed and nothing is sent; or it has succeeded and the request is
    sent once more, with three possible ends: the new response is ok
    and is returned, it is not ok, or the transport rejects the
    call. *)
Definition after_refresh (c : Completion Net.Response) (st' : State)
    (tail : list Event) : Prop :=
  (tail = [Console refresh_failed_line; Console request_failed_line]
   /\ c = Throw session_expired /\ href st' = Some "index.html")
  \/ exists r2,
      let resend := [Console refreshed_line; GetAccessToken; FetchCalled r2] in
      (tail = (resend ++ [Console retry_successful_line])%list
       /\ exists r, c = Return r /\ Net.ok r = true)
      \/ (tail = (resend ++ [Console refresh_failed_line;
                              Console request_failed_line])%list
          /\ c = Throw session_expired /\ href st' = Some "index.html")
      \/ (tail = (resend ++ [Console request_failed_line])%list
          /\ exists e, c = Throw e).

(** The manager completes its two methods with a value, whatever the
    state of the browser: it reports failure in its result. *)
Definition manager_total : Prop :=
  (forall w, exists token w',
      Async.run (Browser.settle env) (Manager.getAccessToken manager w)
      = (Return token, w'))
  /\ (forall w, exists result w',
         Async.run (Browser.settle env) (Manager.refreshAccessToken manager w)
         = (Return result, w')).

(** The record has grown from [l]. *)
Definition extends (l : list Event) (st : State) : Prop :=
  exists rest, log st = (l ++ rest)%list.

(** The calls of [apiRequest] and the polling attempts of a record,
    in order. *)
Definition is_timeline (e : Event) : bool :=
  match e with
  | ApiRequest _ | PollingAttempt _ _ => true
  | _ => false
  end.

Definition timeline (l : list Event) : list Event := List.filter is_timeline l.

(** The requests [submitQuery] makes for a query. *)
Definition start_request (a : t) (query : string) : Net.Request :=
  {| Net.endpoint := apiEndpoint a; Net.route := Net.QueryStart;
     Net.method := "POST"; Net.headers := json_headers;
     Net.body := Some (Net.QueryB (build_requestBody a query)) |}.



(** The request [loadDefaultJobIdsForFolders] makes for a folder, and
    the default it reads in the completion of [apiRequest]. *)
Definition default_job_request (a : t) (folderPath : string) : Net.Request :=
  {| Net.endpoint := apiEndpoint a; Net.route := Net.DefaultJob folderPath;
     Net.method := "GET"; Net.headers := get_options; Net.body := None |}.

Definition default_of (c : Completion Net.Response) : option string :=
  match c with
  | Return response =>
      if Net.ok response then
        match Net.json response with
        | Some data =>
            if truthy (Payload.job_id data) then Payload.job_id data else None
        | None => None
        end
      else None
  | Throw _ => None
  end.

(** The dictionary [folderDefaultJobIds] after the lookup for one more
    folder, when [known] gives the default of each folder. *)
Definition record_default (known : string -> option string)
    (ids : gmap string string) (folderPath : string) : gmap string string :=
  match known folderPath with
  | Some jobId => set_property folderPath jobId ids
  | None => ids
  end.

(** The request [submitFeedback] makes. *)
Definition feedback_request (a : t) (messageId : string) (rating : option Z)
    (comment : option string) : Net.Request :=
  {| Net.endpoint := apiEndpoint a; Net.route := Net.History;
     Net.method := "POST"; Net.headers := ∅;
     Net.body :=
       Some (Net.FeedbackB
               {| FeedbackPayload.action := "update-feedback";
                  FeedbackPayload.message_id := messageId;
                  FeedbackPayload.chat_session_id := chatSessionId a;
                  FeedbackPayload.rating := rating;
                  FeedbackPayload.comment := comment |}) |}.

(** The server has confirmed the feedback: [apiRequest] has returned
    a response that is ok and whose body is JSON. *)
Definition confirmed (c : Completion Net.Response) : bool :=
  match c with
  | Return response =>
      Net.ok response && bool_decide (is_Some (Net.json response))
  | Throw _ => false
  end.

(** [chatMessages.find(m => m.messageId === messageId)]. *)
Definition find_message (messageId : string) (messages : list Message)
    : option Message :=
  List.find (fun m => bool_decide (Html.messageId m = Some messageId)) messages.

(** Feedback values applied to the transcript one after the other. *)
Definition update_feedbacks (messageId : string)
    (values : list (option Z * option string)) (messages : list Message)
    : list Message :=
  fold_left (fun messages v => update_feedback messageId (fst v) (snd v) messages)
    values messages.

(** [submitFeedback] called for each value in turn, each call run to
    its end before the next, and whether the server confirms all of
    them. *)
Fixpoint submit_feedbacks (messageId : string)
    (values : list (option Z * option string)) (st : State) : State :=
  match values with
  | [] => st
  | v :: rest =>
      submit_feedbacks messageId rest
        (snd (run_alone env (submitFeedback messageId (fst v) (snd v)) st))
  end.

Fixpoint all_confirmed (messageId : string)
    (values : list (option Z * option string)) (st : State) : bool :=
  match values with
  | [] => true
  | v :: rest =>
      confirmed
        (fst (run_alone env
                (apiRequest
                   (feedback_request (app st) messageId (fst v) (snd v))) st))
      && all_confirmed messageId rest
           (snd (run_alone env (submitFeedback messageId (fst v) (snd v)) st))
  end.

(** *** Further observations *)

(** A message without its feedback. *)
Definition without_feedback (m : Message) : Message :=
  {| Html.role := Html.role m; Html.content := Html.content m;
     Html.sources := Html.sources m; Html.timestamp := Html.timestamp m;
     Html.messageId := Html.messageId m;
     Html.rating := None; Html.comment := None |}.

(** A string of the shape of a template of [generateUUID]: a
    hexadecimal digit for each [x], one of [8], [9], [a], [b] for
    each [y], and the character of the template elsewhere. *)
Fixpoint fills_template (template s : string) : bool :=
  match template, s with
  | EmptyString, EmptyString => true
  | String t template, String c s =>
      (if Ascii.eqb t "x" then bool_decide (c ∈ Js.hex_digits)
       else if Ascii.eqb t "y"
            then bool_decide (c ∈ list_ascii_of_string "89ab")
            else Ascii.eqb c t)
      && fills_template template s
  | _, _ => false
  end.

(** How many characters of a template are replaced. *)
Fixpoint replaced (template : string) : nat :=
  match template with
  | EmptyString => 0
  | String t template =>
      ((if Ascii.eqb t "x" || Ascii.eqb t "y" then 1 else 0)
       + replaced template)%nat
  end.

(** The selection [loadSearchTargetFromStorage] takes from
    [localStorage] on a load that is not a hard refresh. *)
Definition restored_paths (st : State) : list string :=
  match storedFolderPaths (world st) with
  | Paths l => l
  | Malformed => []
  | NoItem => selectedFolderPaths (app st)
  end.
End WithEnv.

End App.

(** ** Example environments and states *)

(** Concrete worlds, used to run the model on explicit inputs. *)
Module Examples.
Import Js.

(** A backend that accepts every query and never finishes it, and a
    clock that advances by five seconds at each reading. *)
Definition pending_transport (n : nat) (req : Net.Request) : Net.FetchOutcome :=
  match Net.route req with
  | Net.QueryStart =>
      Net.Responded
        {| Net.status := 200;
           Net.json := Some {| Payload.error := None;
                               Payload.query_id := Some "q-1";
                               Payload.status := None;
                               Payload.answer := None;
                               Payload.sources := [];
                               Payload.message_id := None;
                               Payload.job_id := None;
                               Payload.messages := [] |} |}
  | Net.QueryStatus _ =>
      Net.Responded
        {| Net.status := 200;
           Net.json := Some {| Payload.error := None;
                               Payload.query_id := None;
                               Payload.status := Some "processing";
                               Payload.answer := None;
                               Payload.sources := [];
                               Payload.message_id := None;
                               Payload.job_id := None;
                               Payload.messages := [] |} |}
  | _ => Net.Responded {| Net.status := 200; Net.json := Some Payload.empty |}
  end.

Definition env0 : Env :=
  {| clock := fun n => 1700000000000 + 5000 * Z.of_nat n;
     toISOString := fun z => "iso:" +:+ number_to_string z;
     toLocaleString := fun z => "ja:" +:+ number_to_string z;
     random16 := fun n => Z.of_nat (n mod 16);
     random36 := fun n => "r" +:+ nat_to_string n;
     transport := pending_transport;
     provider := fun _ => Net.AuthRejected (Some "NotAuthorizedException") None |}.

(** The document before the script runs. *)
Definition dom0 : App.Elements :=
  {| App.queryInput_value := "";
     App.queryInput_disabled := false;
     App.queryInput_placeholder := "";
     App.submitQueryBtn_disabled := false;
     App.queryStatus_textContent := "";
     App.queryStatus_className := "";
     App.queryStatus_display := "none";
     App.chatHistory_innerHTML := "";
     App.loadingOverlay := None;
     App.searchTargetModal_display := "none";
     App.jobIdInputModal_value := "";
     App.currentFolderDisplay_textContent := "";
     App.pdfViewerContainer_src := None |}.

(** A tab opened for the first time: empty storage, signed in. *)
Definition fresh_world : World :=
  {| localStorage := {["cognito_access_token" := "token-1"]};
     storedFolderPaths := NoItem;
     sessionStorage := ∅;
     location_href := None;
     navigation_type := Some 0;
     manager_published := false;
     sessionToken := Some "token-1";
     sdk_ready := true;
     clock_reads := 0; random_draws := 0; fetches := 0; auth_calls := 0;
     timers := [] |}.

Definition manager0 : Manager.t := CognitoAuthManager.manager env0.



(** The application after its first load in [fresh_world]. *)
Definition loaded : App.State :=
  fst (App.page_load env0 manager0 "https://api.example" dom0 fresh_world).

(** The page reloaded five seconds later, nothing having been
    selected in between. *)
Definition reloaded : App.State :=
  fst (App.page_load env0 manager0 "https://api.example" dom0
         (App.reload_world (App.world loaded))).

(** The application after the user has reset the chat. *)
Definition after_reset : App.State :=
  snd (App.resetChatSession env0 loaded).

(** A signed-in tab whose application holds the manager: tokens in
    storage, the access token valid for another hour. *)
Definition signed_in_world : World :=
  {| localStorage :=
       {[ "cognito_access_token" := "token-1";
          "cognito_id_token" := "id-1";
          "cognito_refresh_token" := "refresh-1";
          "cognito_token_expires_at" := "1700003600000" ]};
     storedFolderPaths := Paths ["docs/a"];
     sessionStorage :=
       {[ "verificationPlanSessionId" :=
            "verification_01234567-89ab-4cde-b012-3456789abcde" ]};
     location_href := None;
     navigation_type := Some 0;
     manager_published := true;
     sessionToken := Some "token-1";
     sdk_ready := true;
     clock_reads := 0; random_draws := 0; fetches := 0; auth_calls := 0;
     timers := [] |}.

Definition signed_in_app : App.t :=
  {| App.apiEndpoint := "https://api.example";
     App.selectedJobId := None;
     App.selectedFolderPaths := ["docs/a"];
     App.folderDefaultJobIds := ∅;
     App.chatSessionId :=
       Some "verification_01234567-89ab-4cde-b012-3456789abcde";
     App.useAgent := true;
     App.agentType := "verification";
     App.authManager := true;
     App.chatMessages := [];
     App.currentPdfUris := [];
     App.currentPdfIndex := 0;
     App.isHardRefresh := false;
     App.elements := dom0 |}.

Definition signed_in : App.State :=
  {| App.world := signed_in_world; App.app := signed_in_app; App.log := [] |}.

(** The same with an explicit job reference selected. *)
Definition signed_in_with_job : App.State :=
  App.upd_app (App.set_selectedJobId (Some "job-1")) signed_in.

(** A tab in which the manager has not been published yet:
    [apiRequest] sends the token it finds in storage. *)
Definition detached : App.State :=
  App.upd_app (App.set_authManager false) signed_in.

(** The user types a question. *)
Definition question : string := "How is part A verified?".

Definition type_query (text : string) (st : App.State) : App.State :=
  App.upd_app (App.upd_elements (App.set_queryInput_value text)) st.

(** Two folders are selected; only the first has a default. *)
Definition two_folders : App.State :=
  App.upd_app (App.set_selectedFolderPaths ["docs/a"; "docs/b"]) detached.

Definition known_defaults (folderPath : string) : option string :=
  if String.eqb folderPath "docs/a" then Some "job-a" else None.

Definition defaults_transport (n : nat) (req : Net.Request) : Net.FetchOutcome :=
  match Net.route req with
  | Net.DefaultJob folderPath =>
      match known_defaults folderPath with
      | Some jobId =>
          Net.Responded
            {| Net.status := 200;
               Net.json := Some {| Payload.error := None;
                                   Payload.query_id := None;
                                   Payload.status := None;
                                   Payload.answer := None;
                                   Payload.sources := [];
                                   Payload.message_id := None;
                                   Payload.job_id := Some jobId;
                                   Payload.messages := [] |} |}
      | None => Net.Responded {| Net.status := 404; Net.json := Some Payload.empty |}
      end
  | _ => pending_transport n req
  end.

Definition env_defaults : Env :=
  {| clock := clock env0; toISOString := toISOString env0;
     toLocaleString := toLocaleString env0;
     random16 := random16 env0; random36 := random36 env0;
     transport := defaults_transport;
     provider := provider env0 |}.

(** A transcript with an answer that can be rated. *)
Definition answered : App.State :=
  App.upd_app
    (App.set_chatMessages
       [ {| Html.role := "user"; Html.content := question;
            Html.sources := []; Html.timestamp := "ja:1700000000000";
            Html.messageId := None;
            Html.rating := None; Html.comment := None |};
         {| Html.role := "assistant"; Html.content := "By test plan 7.";
            Html.sources := []; Html.timestamp := "ja:1700000005000";
            Html.messageId := Some "m-1";
            Html.rating := None; Html.comment := None |} ])
    signed_in.

(** A backend that names each accepted query after the number of the
    transport call that started it, and never finishes any. *)
Definition queue_transport (n : nat) (req : Net.Request) : Net.FetchOutcome :=
  match Net.route req with
  | Net.QueryStart =>
      Net.Responded
        {| Net.status := 200;
           Net.json := Some {| Payload.error := None;
                               Payload.query_id := Some ("q-" +:+ nat_to_string n);
                               Payload.status := None;
                               Payload.answer := None;
                               Payload.sources := [];
                               Payload.message_id := None;
                               Payload.job_id := None;
                               Payload.messages := [] |} |}
  | _ => pending_transport n req
  end.

Definition env_queue : Env :=
  {| clock := clock env0; toISOString := toISOString env0;
     toLocaleString := toLocaleString env0;
     random16 := random16 env0; random36 := random36 env0;
     transport := queue_transport;
     provider := provider env0 |}.

(** The tab after the page has loaded in [signed_in_world], with the
    lookup of the default of the stored folder still running. *)
Definition opened : App.Tab :=
  let (st, tasks) :=
    App.page_load env_queue (CognitoAuthManager.manager env_queue)
      "https://api.example" dom0 signed_in_world in
  {| App.state := st; App.pending := tasks |}.

(** After the load the dialog is used to select a folder. The user
    asks a question; while it is in flight the dialog is opened and
    applied unchanged, which enables the text area again. *)
Definition first_in_flight : list App.Step :=
  [ App.User App.ClickOpenSearchTarget;
    App.User (App.ToggleFolder "docs/a" true);
    App.User (App.ClickApplySearchTarget true);
    App.Settle 1;
    App.User (App.TypeQuery "first question");
    App.User App.PressEnter;
    App.User App.ClickOpenSearchTarget;
    App.User (App.ClickApplySearchTarget true);
    App.Settle 3 ].

(** A second question is typed and sent with the Enter key. *)
Definition second_sent : list App.Step :=
  (first_in_flight
   ++ [ App.User (App.TypeQuery "second question");
        App.User App.PressEnter ])%list.

(** The two start requests and then the two first waits settle: both
    calls are at their first status request. *)
Definition both_polling : list App.Step :=
  (second_sent ++ [App.Settle 1; App.Settle 3; App.Settle 1; App.Settle 3])%list.

(** Two folders that both have a default. *)
Definition both_known (folderPath : string) : option string :=
  if String.eqb folderPath "docs/a" then Some "job-a"
  else if String.eqb folderPath "docs/b" then Some "job-b"
  else None.

Definition both_known_transport (n : nat) (req : Net.Request)
    : Net.FetchOutcome :=
  match Net.route req with
  | Net.DefaultJob folderPath =>
      match both_known folderPath with
      | Some jobId =>
          Net.Responded
            {| Net.status := 200;
               Net.json := Some {| Payload.error := None;
                                   Payload.query_id := None;
                                   Payload.status := None;
                                   Payload.answer := None;
                                   Payload.sources := [];
                                   Payload.message_id := None;
                                   Payload.job_id := Some jobId;
                                   Payload.messages := [] |} |}
      | None => Net.Responded {| Net.status := 404; Net.json := Some Payload.empty |}
      end
  | _ => pending_transport n req
  end.

Definition env_both_known : Env :=
  {| clock := clock env0; toISOString := toISOString env0;
     toLocaleString := toLocaleString env0;
     random16 := random16 env0; random36 := random36 env0;
     transport := both_known_transport;
     provider := provider env0 |}.

(** The tab after the page has loaded in [signed_in_world] against
    that backend: a first load, which clears the stored selection. *)
Definition opened_both_known : App.Tab :=
  let (st, tasks) :=
    App.page_load env_both_known (CognitoAuthManager.manager env_both_known)
      "https://api.example" dom0 signed_in_world in
  {| App.state := st; App.pending := tasks |}.

(** The folder [docs/a] is selected in the dialog and applied; the
    lookup of its default is answered. *)
Definition docs_a_applied : list App.Step :=
  [ App.User App.ClickOpenSearchTarget;
    App.User (App.ToggleFolder "docs/a" true);
    App.User (App.ClickApplySearchTarget true);
    App.Settle 1 ].

(** The dialog is opened again, [docs/b] is ticked and [docs/a]
    unticked, and the dialog is cancelled; then a question is typed
    and sent with the Enter key. *)
Definition cancelled_then_asked : list App.Step :=
  [ App.User App.ClickOpenSearchTarget;
    App.User (App.ToggleFolder "docs/b" true);
    App.User (App.ToggleFolder "docs/a" false);
    App.User App.ClickCancelSearchTarget;
    App.User (App.TypeQuery question);
    App.User App.PressEnter ].

(** A tab showing the transcript [answered], with no call running. *)
Definition answered_tab : App.Tab :=
  {| App.state := answered; App.pending := [] |}.

(** The user rates the answer 2 and then 5 before either call has
    been answered. *)
Definition rated_twice : list App.Step :=
  [ App.User (App.ClickRating "m-1" 2);
    App.User (App.ClickRating "m-1" 5) ].

(** The second call is answered first, the first call after it. *)
Definition answered_in_reverse : list App.Step :=
  [ App.Settle 1; App.Settle 0 ].

Definition folders_request : Net.Request :=
  {| Net.endpoint := "https://api.example"; Net.route := Net.Folders;
     Net.method := "GET"; Net.headers := ∅; Net.body := None |}.

Definition unauthorized : Net.FetchOutcome :=
  Net.Responded {| Net.status := 401; Net.json := None |}.

Definition accepted : Net.FetchOutcome :=
  Net.Responded {| Net.status := 200; Net.json := Some Payload.empty |}.

(** Every call is answered 401 and the identity provider rejects the
    refresh token. *)
Definition env_refresh_fails : Env :=
  {| clock := clock env0; toISOString := toISOString env0;
     toLocaleString := toLocaleString env0;
     random16 := random16 env0; random36 := random36 env0;
     transport := fun _ _ => unauthorized;
     provider := fun _ => Net.AuthRejected (Some "NotAuthorizedException") None |}.

(** The first call is answered 401, the identity provider issues new
    tokens, and the next calls are accepted. *)
Definition env_refresh_succeeds : Env :=
  {| clock := clock env0; toISOString := toISOString env0;
     toLocaleString := toLocaleString env0;
     random16 := random16 env0; random36 := random36 env0;
     transport := fun n _ => match n with O => unauthorized | _ => accepted end;
     provider := fun _ =>
       Net.AuthResolved
         (Some {| Net.AccessToken := "token-2"; Net.IdToken := "id-2";
                  Net.ExpiresIn := 3600 |}) |}.

End Examples.

(** * Properties *)

Module HtmlFacts.
Import Js Html.

(** Membership in an explicit list. *)
Ltac in_list :=
  repeat first [ apply list_elem_of_here | apply list_elem_of_further ].

Lemma occ_app c (a b : string) : occ c (a +:+ b) = (occ c a + occ c b)%nat.
Proof. induction a as [|x a IH]; simpl; [reflexivity | rewrite IH; lia]. Qed.

Lemma escape_entity_none c :
  escape_entity c = None ->
  c <> "&"%char /\ c <> "<"%char /\ c <> ">"%char
  /\ c <> ascii_of_nat 34 /\ c <> "'"%char.
Proof.
  unfold escape_entity.
  repeat match goal with
         | |- context [Ascii.eqb c ?k] => destruct (Ascii.eqb_spec c k)
         end; try discriminate; intros _; repeat split; assumption.
Qed.

Lemma escape_entity_some c e :
  escape_entity c = Some e ->
  exists t, e = String "&" t /\ t ∈ entity_tails
            /\ (c = "&"%char -> t = "amp;").
Proof.
  unfold escape_entity.
  repeat match goal with
         | |- context [Ascii.eqb c ?k] => destruct (Ascii.eqb_spec c k)
         end; intros [= <-]; eexists; (split; [reflexivity |]);
    (split; [unfold entity_tails; in_list | ]); intros; subst;
    try reflexivity; congruence.
Qed.

Lemma occ_escapeHtml_markup c text :
  c ∈ ["<"%char; ">"%char; ascii_of_nat 34; "'"%char] ->
  occ c (escapeHtml text) = 0%nat.
Proof.
  intros Hc. induction text as [|x text IH]; simpl; [reflexivity |].
  destruct (escape_entity x) as [e|] eqn:E.
  - apply escape_entity_some in E as (t & -> & Ht & _).
    rewrite occ_app, IH, Nat.add_0_r.
    unfold entity_tails in Ht.
    repeat (apply elem_of_cons in Ht as [-> | Ht]);
      [ .. | apply elem_of_nil in Ht; contradiction ];
      repeat (apply elem_of_cons in Hc as [-> | Hc]);
      try reflexivity; apply elem_of_nil in Hc; contradiction.
  - apply escape_entity_none in E as (_ & H1 & H2 & H3 & H4).
    simpl. rewrite IH.
    destruct (Ascii.eqb_spec x c) as [-> | _]; [| reflexivity].
    repeat (apply elem_of_cons in Hc as [Hc | Hc]); try congruence.
    apply elem_of_nil in Hc; contradiction.
Qed.

Lemma occ_escapeHtml_lf text : occ lf (escapeHtml text) = occ lf text.
Proof.
  induction text as [|x text IH]; simpl; [reflexivity |].
  destruct (escape_entity x) as [e|] eqn:E.
  - assert (Hx : Ascii.eqb x lf = false).
    { revert E. unfold escape_entity.
      destruct (Ascii.eqb_spec x lf) as [-> | _]; [| reflexivity].
      discriminate. }
    rewrite Hx. apply escape_entity_some in E as (t & -> & Ht & _).
    rewrite occ_app, IH. unfold entity_tails in Ht.
    repeat (apply elem_of_cons in Ht as [-> | Ht]); try reflexivity.
    apply elem_of_nil in Ht; contradiction.
  - simpl. rewrite IH. reflexivity.
Qed.

Lemma occ_replace_char c x by_ s :
  occ c (replace_char x by_ s)
  = ((if Ascii.eqb c x then 0 else occ c s) + occ x s * occ c by_)%nat.
Proof.
  induction s as [|y s IH]; simpl; [destruct (Ascii.eqb c x); reflexivity |].
  destruct (Ascii.eqb_spec y x) as [-> | Hyx].
  - rewrite occ_app, IH.
    destruct (Ascii.eqb_spec c x) as [-> | Hcx].
    + lia.
    + destruct (Ascii.eqb_spec x c); [congruence | lia].
  - simpl. rewrite IH.
    destruct (Ascii.eqb_spec c x) as [-> | Hcx].
    + destruct (Ascii.eqb_spec y x); [congruence | lia].
    + lia.
Qed.

(** A block without ampersand in front of a string cannot hold the
    ampersand found in the whole. *)
Lemma app_amp_split (t s pre post : string) :
  occ "&" t = 0%nat ->
  t +:+ s = pre +:+ String "&" post ->
  exists pre', s = pre' +:+ String "&" post.
Proof.
  revert pre. induction t as [|x t IH]; simpl; intros pre Ht H.
  - exists pre. exact H.
  - destruct (Ascii.eqb_spec x "&") as [-> | Hx]; [discriminate |].
    destruct pre as [|p pre]; simpl in H.
    + injection H as H _. congruence.
    + injection H as _ H. apply (IH pre); [exact Ht | exact H].
Qed.

Lemma escapeHtml_amp text : forall pre post,
  escapeHtml text = pre +:+ String "&" post ->
  exists t rest, t ∈ entity_tails /\ post = t +:+ rest.
Proof.
  induction text as [|c text IH]; intros pre post H; simpl in H.
  - destruct pre; discriminate.
  - destruct (escape_entity c) as [e|] eqn:E.
    + apply escape_entity_some in E as (t & -> & Ht & _).
      destruct pre as [|p pre]; simpl in H.
      * injection H as H. exists t, (escapeHtml text). split; [exact Ht | congruence].
      * injection H as _ H.
        apply app_amp_split in H as [pre' H].
        -- apply (IH pre' post H).
        -- unfold entity_tails in Ht.
           repeat (apply elem_of_cons in Ht as [-> | Ht]); try reflexivity.
           apply elem_of_nil in Ht; contradiction.
    + apply escape_entity_none in E as (Hamp & _).
      destruct pre as [|p pre]; simpl in H.
      * injection H as H _. congruence.
      * injection H as _ H. apply (IH pre post H).
Qed.

Lemma occ_formattedContent c msg :
  c ∈ ["<"%char; ">"%char] ->
  occ c (formattedContent msg) = occ lf (content msg).
Proof.
  intros Hc. unfold formattedContent.
  rewrite occ_replace_char, occ_escapeHtml_lf.
  repeat (apply elem_of_cons in Hc as [-> | Hc]);
    [ rewrite occ_escapeHtml_markup by in_list; simpl; lia .. |].
  apply elem_of_nil in Hc; contradiction.
Qed.

Lemma occ_formattedContent_dq msg :
  occ (ascii_of_nat 34) (formattedContent msg) = 0%nat.
Proof.
  unfold formattedContent.
  rewrite occ_replace_char, occ_escapeHtml_markup by in_list.
  simpl. lia.
Qed.

Lemma occ_contentForCopy c msg :
  c ∈ ["<"%char; ">"%char; ascii_of_nat 34] ->
  occ c (contentForCopy msg) = 0%nat.
Proof.
  intros Hc. unfold contentForCopy.
  rewrite occ_replace_char.
  rewrite (occ_escapeHtml_markup (ascii_of_nat 34)) by in_list.
  repeat (apply elem_of_cons in Hc as [-> | Hc]);
    [ rewrite ?occ_escapeHtml_markup by in_list; reflexivity .. |].
  apply elem_of_nil in Hc; contradiction.
Qed.

Lemma occ_app2 c a b na nb :
  occ c a = na -> occ c b = nb -> occ c (a +:+ b) = (na + nb)%nat.
Proof. intros <- <-. apply occ_app. Qed.

Lemma occ_via c l r nl nr z :
  occ c l = nl -> occ c r = nr -> nl = (nr + z)%nat ->
  occ c l = (occ c r + z)%nat.
Proof. intros -> -> ->. reflexivity. Qed.

(** The proof that the count of [c] in a concatenation is the sum of
    the counts in its pieces, built along the concatenation. *)
Ltac occ_split c t :=
  lazymatch t with
  | ?a +:+ ?b =>
      let ea := occ_split c a in
      let eb := occ_split c b in
      uconstr:(occ_app2 c a b _ _ ea eb)
  | EmptyString => uconstr:(eq_refl 0%nat)
  | _ => uconstr:(eq_refl (occ c t))
  end.

(** The markup of a message differs from the markup of the same message
    left blank only by what [formattedContent] and [contentForCopy]
    hold. *)
Lemma occ_render_message c msg :
  occ c (render_message msg)
  = (occ c (render_message (with_content "" msg))
     + (occ c (formattedContent msg)
        + (if String.eqb (role msg) "assistant" && truthy (messageId msg)
           then occ c (contentForCopy msg) else 0)))%nat.
Proof.
  unfold render_message, createFeedbackHtml, quoted.
  cbn [role sources messageId rating comment timestamp with_content].
  replace (formattedContent (with_content "" msg)) with "" by reflexivity.
  replace (contentForCopy (with_content "" msg)) with "" by reflexivity.
  destruct (String.eqb (role msg) "assistant" && truthy (messageId msg));
    destruct (sources msg);
    lazymatch goal with
    | |- occ ?c ?l = (occ ?c ?r + ?z)%nat =>
        let el := occ_split c l in
        let er := occ_split c r in
        refine (occ_via c l r _ _ z el er _)
    end; lia.
Qed.

Lemma occ_chatHtml c chatMessages :
  c ∈ ["<"%char; ">"%char] ->
  occ c (chatHtml chatMessages)
  = (occ c (chatHtml (map (with_content "") chatMessages))
     + line_feeds chatMessages)%nat.
Proof.
  intros Hc. unfold chatHtml.
  induction chatMessages as [|msg rest IH]; [reflexivity |].
  cbn [map join fold_right line_feeds]. fold (join (map render_message rest)).
  fold (join (map render_message (map (with_content "") rest))).
  rewrite !occ_app, IH, (occ_render_message c msg).
  rewrite (occ_formattedContent c msg Hc).
  rewrite (occ_contentForCopy c msg)
    by (repeat (apply elem_of_cons in Hc as [-> | Hc]); [in_list ..|];
        apply elem_of_nil in Hc; contradiction).
  fold (line_feeds rest).
  destruct (String.eqb (role msg) "assistant" && truthy (messageId msg)); lia.
Qed.

Lemma occ_chatHtml_dq chatMessages :
  occ (ascii_of_nat 34) (chatHtml chatMessages)
  = occ (ascii_of_nat 34) (chatHtml (map (with_content "") chatMessages)).
Proof.
  unfold chatHtml.
  induction chatMessages as [|msg rest IH]; [reflexivity |].
  cbn [map join fold_right]. fold (join (map render_message rest)).
  fold (join (map render_message (map (with_content "") rest))).
  rewrite !occ_app, IH, (occ_render_message _ msg).
  rewrite occ_formattedContent_dq.
  rewrite (occ_contentForCopy _ msg) by in_list.
  destruct (String.eqb (role msg) "assistant" && truthy (messageId msg)); lia.
Qed.

(** C10. For every input string, [escapeHtml] returns a string without
    any angle bracket, double quote or single quote, in which every
    ampersand starts one of the five entities. [renderChatHistory]
    inserts the text of a message only after [escapeHtml]: compared with
    the markup of the same transcript with blank texts, the texts add no
    double quote and no angle bracket other than those of the line-break
    element written for each line feed. *)
Theorem escapeHtml_output_safe :
  (forall text,
      occ "<" (escapeHtml text) = 0%nat /\ occ ">" (escapeHtml text) = 0%nat
      /\ occ (ascii_of_nat 34) (escapeHtml text) = 0%nat
      /\ occ "'" (escapeHtml text) = 0%nat)
  /\ (forall text pre post,
        escapeHtml text = pre +:+ String "&" post ->
        exists t rest, t ∈ entity_tails /\ post = t +:+ rest)
  /\ (forall chatMessages,
        let blank := map (with_content "") chatMessages in
        occ "<" (chatHtml chatMessages)
          = (occ "<" (chatHtml blank) + line_feeds chatMessages)%nat
        /\ occ ">" (chatHtml chatMessages)
          = (occ ">" (chatHtml blank) + line_feeds chatMessages)%nat
        /\ occ (ascii_of_nat 34) (chatHtml chatMessages)
          = occ (ascii_of_nat 34) (chatHtml blank)).
Proof.
  split; [| split].
  - intros text. repeat split; apply occ_escapeHtml_markup; in_list.
  - exact escapeHtml_amp.
  - intros chatMessages blank. subst blank. repeat split.
    + apply occ_chatHtml; in_list.
    + apply occ_chatHtml; in_list.
    + apply occ_chatHtml_dq.
Qed.

Lemma escapeHtml_output_safe_witness :
  escapeHtml "a<b & 'c'" = "a&lt;b " +:+ String "&" "amp; &#039;c&#039;"
  /\ exists t rest, t ∈ entity_tails /\ "amp; &#039;c&#039;" = t +:+ rest.
Proof.
  split; [reflexivity |].
  apply (proj1 (proj2 escapeHtml_output_safe) "a<b & 'c'" "a&lt;b ").
  reflexivity.
Defined.

End HtmlFacts.

(** ** Facts about asynchronous computations *)

Module AsyncFacts.
Import Mon Async.

Section Run.
Context {S : Type} (settle : forall op, S -> Reply op * S).

Lemma run_bind_run {A B} (r : Run S A) (k : A -> Async S B) :
  run settle (bind_run r k)
  = match run settle r with
    | (Return a, s) => run settle (k a s)
    | (Throw e, s) => (Throw e, s)
    end.
Proof.
  induction r as [[a | e] s | op s resume IH]; simpl; try reflexivity.
  destruct (settle op s) as [x s']. apply IH.
Qed.

Lemma run_bind {A B} (c : Async S A) (k : A -> Async S B) s :
  run settle (bind c k s)
  = match run settle (c s) with
    | (Return a, s') => run settle (k a s')
    | (Throw e, s') => (Throw e, s')
    end.
Proof. apply run_bind_run. Qed.

Lemma run_sync {A} (c : M S A) s : run settle (sync c s) = c s.
Proof. unfold sync. destruct (c s). reflexivity. Qed.

Lemma run_catch_run {A} (r : Run S A) (h : string -> Async S A) :
  run settle (catch_run r h)
  = match run settle r with
    | (Return a, s) => (Return a, s)
    | (Throw e, s) => run settle (h e s)
    end.
Proof.
  induction r as [[a | e] s | op s resume IH]; simpl; try reflexivity.
  destruct (settle op s) as [x s']. apply IH.
Qed.

Lemma run_try_catch {A} (c : Async S A) (h : string -> Async S A) s :
  run settle (try_catch c h s)
  = match run settle (c s) with
    | (Return a, s') => (Return a, s')
    | (Throw e, s') => run settle (h e s')
    end.
Proof. apply run_catch_run. Qed.



Lemma run_await op s :
  run settle (await op s)
  = let (x, s') := settle op s in (Return x, s').
Proof. simpl. destruct (settle op s). reflexivity. Qed.

(** What holds during a call and at its end holds of its run,
    provided settling an operation keeps the property of the
    suspensions. *)
Lemma run_during {A} (P : S -> Prop) (Q : Completion A -> S -> Prop)
    (r : Run S A) :
  During P Q r ->
  (forall op s, P s -> P (snd (settle op s))) ->
  Q (fst (run settle r)) (snd (run settle r)).
Proof.
  intros H Hsettle. induction H as [c s Hs | op s resume Hs _ IH]; simpl.
  - exact Hs.
  - pose proof (Hsettle op s Hs) as Hs'.
    destruct (settle op s) as [x s']. apply IH. exact Hs'.
Qed.
End Run.

Section During.
Context {S : Type} (P : S -> Prop).

Lemma during_conseq {A} (Q Q' : Completion A -> S -> Prop) (r : Run S A) :
  During P Q r -> (forall c s, Q c s -> Q' c s) -> During P Q' r.
Proof.
  intros H HQ. induction H as [c s Hs | op s resume Hs _ IH].
  - constructor. apply HQ, Hs.
  - constructor; [exact Hs | exact IH].
Qed.

Lemma during_bind_run {A B} (Q1 : Completion A -> S -> Prop)
    (Q : Completion B -> S -> Prop) (r : Run S A) (k : A -> Async S B) :
  During P Q1 r ->
  (forall a s, Q1 (Return a) s -> During P Q (k a s)) ->
  (forall e s, Q1 (Throw e) s -> Q (Throw e) s) ->
  During P Q (bind_run r k).
Proof.
  intros H Hk He. induction H as [[a | e] s Hs | op s resume Hs _ IH]; simpl.
  - apply Hk, Hs.
  - constructor. apply He, Hs.
  - constructor; [exact Hs | exact IH].
Qed.

Lemma during_bind {A B} (Q1 : Completion A -> S -> Prop)
    (Q : Completion B -> S -> Prop) (c : Async S A) (k : A -> Async S B) s :
  During P Q1 (c s) ->
  (forall a s', Q1 (Return a) s' -> During P Q (k a s')) ->
  (forall e s', Q1 (Throw e) s' -> Q (Throw e) s') ->
  During P Q (bind c k s).
Proof. apply during_bind_run. Qed.

Lemma during_ret {A} (Q : Completion A -> S -> Prop) (a : A) s :
  Q (Return a) s -> During P Q (ret a s).
Proof. intros H. constructor. exact H. Qed.

Lemma during_throw {A} (Q : Completion A -> S -> Prop) e s :
  Q (Throw e) s -> During P Q (throw e s).
Proof. intros H. constructor. exact H. Qed.

Lemma during_await op (Q : Completion (Reply op) -> S -> Prop) s :
  P s -> (forall x s', P s' -> Q (Return x) s') -> During P Q (await op s).
Proof.
  intros H HQ. constructor; [exact H |]. intros x s' H'. constructor.
  apply HQ, H'.
Qed.

Lemma during_sync {A} (Q : Completion A -> S -> Prop) (c : M S A) s :
  Q (fst (c s)) (snd (c s)) -> During P Q (sync c s).
Proof. unfold sync. destruct (c s) as [r s']. intros H. constructor. exact H. Qed.

(** A synchronous step is run, and the call goes on from its
    result. *)
Lemma during_bind_sync {A B} (Q : Completion B -> S -> Prop)
    (c : M S A) (k : A -> Async S B) s :
  match c s with
  | (Return a, s') => During P Q (k a s')
  | (Throw e, s') => Q (Throw e) s'
  end ->
  During P Q (bind (sync c) k s).
Proof.
  unfold bind, sync. destruct (c s) as [[a | e] s']; simpl; intros H.
  - exact H.
  - constructor. exact H.
Qed.

Lemma during_catch_run {A} (Q1 Q : Completion A -> S -> Prop)
    (r : Run S A) (h : string -> Async S A) :
  During P Q1 r ->
  (forall a s, Q1 (Return a) s -> Q (Return a) s) ->
  (forall e s, Q1 (Throw e) s -> During P Q (h e s)) ->
  During P Q (catch_run r h).
Proof.
  intros H Ha Hh. induction H as [[a | e] s Hs | op s resume Hs _ IH]; simpl.
  - constructor. apply Ha, Hs.
  - apply Hh, Hs.
  - constructor; [exact Hs | exact IH].
Qed.

Lemma during_try_catch {A} (Q1 Q : Completion A -> S -> Prop)
    (c : Async S A) (h : string -> Async S A) s :
  During P Q1 (c s) ->
  (forall a s', Q1 (Return a) s' -> Q (Return a) s') ->
  (forall e s', Q1 (Throw e) s' -> During P Q (h e s')) ->
  During P Q (try_catch c h s).
Proof. apply during_catch_run. Qed.

Lemma during_finally_run {A} (Q1 Q : Completion A -> S -> Prop)
    (r : Run S A) (fin : M S unit) :
  During P Q1 r ->
  (forall c s, Q1 c s ->
     match fin s with
     | (Return _, s') => Q c s'
     | (Throw e, s') => Q (Throw e) s'
     end) ->
  During P Q (finally_run r fin).
Proof.
  intros H Hfin. induction H as [c s Hs | op s resume Hs _ IH]; simpl.
  - specialize (Hfin c s Hs). destruct (fin s) as [[u | e] s'];
      constructor; exact Hfin.
  - constructor; [exact Hs | exact IH].
Qed.

Lemma during_finally {A} (Q1 Q : Completion A -> S -> Prop)
    (c : Async S A) (fin : M S unit) s :
  During P Q1 (c s) ->
  (forall r s', Q1 r s' ->
     match fin s' with
     | (Return _, s'') => Q r s''
     | (Throw e, s'') => Q (Throw e) s''
     end) ->
  During P Q (finally c fin s).
Proof. apply during_finally_run. Qed.

Lemma always_for_each {A} (l : list A) (body : A -> Async S unit) s :
  (forall x s', P s' -> Always P (body x s')) ->
  P s -> Always P (for_each l body s).
Proof.
  intros Hbody. revert s. induction l as [|x l IH]; intros s Hs; simpl.
  - apply during_ret, Hs.
  - eapply during_bind; [apply Hbody, Hs | | intros e s' H; exact H].
    intros u s' Hs'. apply IH, Hs'.
Qed.
End During.

(** A computation on a part of the state keeps what does not depend on
    that part. *)
Lemma always_lift_run {W S A} (get : S -> W) (set : W -> S -> S)
    (P : S -> Prop) (r : Run W A) s :
  (forall w s', P s' -> P (set w s')) ->
  P s -> Always P (lift_run get set r s).
Proof.
  intros Hset. revert s. induction r as [c w | op w resume IH]; intros s Hs; simpl.
  - constructor. apply Hset, Hs.
  - constructor; [apply Hset, Hs |]. intros x s' Hs'. apply IH, Hs'.
Qed.

Lemma always_lift {W S A} (get : S -> W) (set : W -> S -> S)
    (P : S -> Prop) (c : Async W A) s :
  (forall w s', P s' -> P (set w s')) ->
  P s -> Always P (lift get set c s).
Proof. apply always_lift_run. Qed.

End AsyncFacts.

(** ** Facts about synchronous computations *)

Module MonFacts.
Import Mon.

Section Keeps.
Context {S : Type} (P : S -> Prop).

Lemma keeps_bind {A B} (c : M S A) (k : A -> M S B) :
  keeps P c -> (forall a, keeps P (k a)) -> keeps P (bind c k).
Proof.
  intros Hc Hk s Hs. unfold bind. specialize (Hc s Hs).
  destruct (c s) as [[a | e] s']; simpl in *; [apply Hk, Hc | exact Hc].
Qed.

Lemma keeps_ret {A} (a : A) : keeps P (ret a).
Proof. intros s Hs. exact Hs. Qed.

Lemma keeps_gets {A} (f : S -> A) : keeps P (gets f).
Proof. intros s Hs. exact Hs. Qed.

Lemma keeps_modify (f : S -> S) :
  (forall s, P s -> P (f s)) -> keeps P (modify f).
Proof. intros Hf s Hs. apply Hf, Hs. Qed.
End Keeps.

End MonFacts.

(** ** What calls keep *)

Module AppFacts.
Import Mon Async AsyncFacts MonFacts App.

Lemma app_only_world_stable P : app_only P -> world_stable P.
Proof. intros HP st w H. apply (HP st); [reflexivity | exact H]. Qed.

Lemma app_only_emit P e st :
  app_only P -> P st -> P (upd_log (fun l => (l ++ [e])%list) st).
Proof. intros HP H. apply (HP st); [reflexivity | exact H]. Qed.

Lemma keeps_in_world P {A} (c : M World A) :
  world_stable P -> keeps P (in_world c).
Proof.
  intros HP st H. unfold in_world. destruct (c (world st)). apply HP, H.
Qed.

Lemma always_sync (P : State -> Prop) {A} (c : M State A) st :
  keeps P c -> P st -> Always P (Async.sync c st).
Proof. intros Hc H. apply during_sync, Hc, H. Qed.

Lemma keeps_spawn (P : State -> Prop) (c : Async State unit) :
  (forall st, P st -> Always P (c st)) -> keeps P (spawn c).
Proof.
  intros Hc st H. specialize (Hc st H). unfold spawn, suspended.
  destruct Hc as [r s Hs | op s resume Hs _]; exact Hs.
Qed.

(** One step in the proof that synchronous code keeps [P]: the rule of
    the construct at the head. [HW] proves that [P] does not depend on
    the browser; [changed] proves that [P] holds after an assignment or
    after an addition to the record, given that it held before. *)
Ltac keeps_step HW changed :=
  cbn beta;
  lazymatch goal with
  | |- keeps _ (Mon.bind _ _) => apply keeps_bind; [ | intros ? ]
  | |- keeps _ (Mon.ret _) => apply keeps_ret
  | |- keeps _ (Mon.gets _) => apply keeps_gets
  | |- keeps _ (read _) => apply keeps_gets
  | |- keeps _ (in_world _) => apply keeps_in_world, HW
  | |- keeps _ (emit _) => apply keeps_modify; intros ? ?; changed
  | |- keeps _ (assign _) => apply keeps_modify; intros ? ?; changed
  | |- keeps _ (ui _) => apply keeps_modify; intros ? ?; changed
  | |- keeps _ (Mon.modify _) => apply keeps_modify; intros ? ?; changed
  | |- keeps _ (if ?b then _ else _) => destruct b
  | |- keeps _ (match ?x with _ => _ end) => destruct x
  end.

(** The same for asynchronous code. *)
Ltac always_step P HW changed :=
  cbn beta;
  lazymatch goal with
  | |- During _ _ (Async.bind _ _ _) =>
      eapply (during_bind P (fun _ s => P s));
      [ | intros ? ? ? | intros ? ? ?; assumption ]
  | |- During _ _ (Async.try_catch _ _ _) =>
      eapply (during_try_catch P (fun _ s => P s));
      [ | intros ? ? ?; assumption | intros ? ? ? ]
  | |- During _ _ (Async.sync _ _) =>
      apply always_sync; [ repeat keeps_step HW changed | assumption ]
  | |- During _ _ (Async.ret _ _) => apply during_ret; assumption
  | |- During _ _ (Async.throw _ _) => apply during_throw; assumption
  | |- During _ _ (await_world _ _) =>
      apply always_lift; [ intros ? ? ?; apply HW; assumption | assumption ]
  | |- During _ _ (Browser.fetch ?req _) =>
      apply (during_await P (Async.Fetch req));
      [ assumption | intros ? ? ?; assumption ]
  | |- During _ _ (Browser.sleep ?ms _) =>
      apply (during_await P (Async.Timeout ms));
      [ assumption | intros ? ? ?; assumption ]
  | |- During _ _ ((if ?b then _ else _) _) => destruct b
  | |- During _ _ ((match ?x with _ => _ end) _) => destruct x
  end.

(** [apiRequest] keeps every property that does not depend on the
    browser and that the additions it makes to the record keep. *)
Section Frame.
Variable manager : Manager.t.
Variable P : State -> Prop.
Hypothesis HW : world_stable P.
Hypothesis Hrecord : forall st e,
  match e with
  | FetchCalled _ | GetAccessToken | RefreshAccessToken | Console _ => True
  | _ => False
  end ->
  P st -> P (upd_log (fun l => (l ++ [e])%list) st).

Ltac recorded := apply Hrecord; [exact I | assumption].

Lemma await_fetch_always req st : P st -> Always P (await_fetch req st).
Proof.
  intros H. unfold Always, await_fetch. repeat always_step P HW recorded.
Qed.

Lemma initial_token_always st : P st -> Always P (initial_token manager st).
Proof.
  intros H. unfold Always, initial_token. repeat always_step P HW recorded.
Qed.

Lemma expire_session_always st : P st -> Always P (expire_session st).
Proof.
  intros H. unfold Always, expire_session. repeat always_step P HW recorded.
Qed.

Lemma on_unauthorized_always req headers st :
  P st -> Always P (on_unauthorized manager req headers st).
Proof.
  intros H. unfold Always, on_unauthorized.
  repeat first
    [ always_step P HW recorded
    | apply await_fetch_always; assumption
    | apply expire_session_always; assumption ].
Qed.

(** [P] is only needed from the point where the call is recorded. *)
Lemma apiRequest_recorded req st :
  P (upd_log (fun l => (l ++ [ApiRequest req])%list) st) ->
  Always P (apiRequest manager req st).
Proof.
  intros H. unfold Always, apiRequest. apply during_bind_sync.
  cbn [emit modify].
  repeat first
    [ always_step P HW recorded
    | apply initial_token_always; assumption
    | apply await_fetch_always; assumption
    | apply on_unauthorized_always; assumption ].
Qed.

Lemma apiRequest_always req st :
  (forall st0, P st0 -> P (upd_log (fun l => (l ++ [ApiRequest req])%list) st0)) ->
  P st -> Always P (apiRequest manager req st).
Proof. intros Hreq H. apply apiRequest_recorded, Hreq, H. Qed.
End Frame.

(** Settling an operation only changes the browser. *)
Lemma settle_world_stable env (P : State -> Prop) :
  world_stable P -> forall op st, P st -> P (snd (settle env op st)).
Proof.
  intros HW op st H. unfold settle.
  destruct (Browser.settle env op (world st)). apply HW, H.
Qed.

Lemma response_json_always (P : State -> Prop) response st :
  P st -> Always P (response_json response st).
Proof.
  intros H. unfold Always, response_json.
  destruct (Net.json response); constructor; exact H.
Qed.

(** In particular [apiRequest] changes no field of the application. *)
Lemma apiRequest_app_only manager (P : State -> Prop) req st :
  app_only P -> P st -> Always P (apiRequest manager req st).
Proof.
  intros HP. apply apiRequest_always.
  - apply app_only_world_stable, HP.
  - intros st0 e _. apply app_only_emit, HP.
  - intros st0. apply app_only_emit, HP.
Qed.

End AppFacts.

(** ** Session identity *)

Module SessionFacts.
Import Mon Async AsyncFacts MonFacts App AppFacts Js.

Section Session.
Variable env : Env.
Variable manager : Manager.t.

Lemma replace_xy_returns template w :
  exists s w', replace_xy env template w = (Return s, w')
               /\ sessionStorage w' = sessionStorage w.
Proof.
  revert w. induction template as [|c rest IH]; intros w; cbn [replace_xy].
  - eexists _, _. split; reflexivity.
  - destruct (Ascii.eqb c "x" || Ascii.eqb c "y").
    + destruct (IH (upd_random_draws S w)) as (s & w' & E & Hs).
      unfold Mon.bind, Browser.Math_random16. cbn beta iota. rewrite E.
      eexists _, _. split; [reflexivity | exact Hs].
    + destruct (IH w) as (s & w' & E & Hs).
      unfold Mon.bind. rewrite E. eexists _, _. split; [reflexivity | exact Hs].
Qed.

Lemma to_string16_digit v :
  0 <= v < 16 -> exists c, to_string16 v = String c EmptyString /\ c ∈ Js.hex_digits.
Proof.
  intros Hv.
  assert (H : v = 0 \/ v = 1 \/ v = 2 \/ v = 3 \/ v = 4 \/ v = 5 \/ v = 6 \/ v = 7
              \/ v = 8 \/ v = 9 \/ v = 10 \/ v = 11 \/ v = 12 \/ v = 13 \/ v = 14
              \/ v = 15) by lia.
  repeat (destruct H as [-> | H]); try subst v;
    (eexists; split; [reflexivity | unfold Js.hex_digits; simpl; HtmlFacts.in_list]).
Qed.

Lemma generateUUID_starts_with_digit w :
  0 <= random16 env (random_draws w) < 16 ->
  exists c tail w',
    generateUUID env w = (Return (String c tail), w')
    /\ c ∈ Js.hex_digits
    /\ sessionStorage w' = sessionStorage w.
Proof.
  intros Hr. unfold generateUUID.
  change (replace_xy env "xxxxxxxx-xxxx-4xxx-yxxx-xxxxxxxxxxxx" w)
    with (Mon.bind (Browser.Math_random16 env)
            (fun r => Mon.bind (replace_xy env "xxxxxxx-xxxx-4xxx-yxxx-xxxxxxxxxxxx")
                        (fun tail => Mon.ret (to_string16 r +:+ tail))) w).
  destruct (replace_xy_returns "xxxxxxx-xxxx-4xxx-yxxx-xxxxxxxxxxxx"
              (upd_random_draws S w)) as (tail & w' & E & Hs).
  unfold Mon.bind, Browser.Math_random16. cbn beta iota. rewrite E.
  destruct (to_string16_digit _ Hr) as (c & -> & Hc).
  exists c, tail, w'. split; [reflexivity | split; [exact Hc | exact Hs]].
Qed.

(** After a reset the session id starts with a hexadecimal digit. *)
Lemma resetChatSession_id st :
  0 <= random16 env (random_draws (world st)) < 16 ->
  exists c tail,
    chatSessionId (app (snd (resetChatSession env st))) = Some (String c tail)
    /\ c ∈ Js.hex_digits.
Proof.
  intros Hr. unfold resetChatSession.
  pose proof (generateUUID_starts_with_digit
                (upd_sessionStorage (delete "chatSessionId") (world st)) Hr)
    as (c & tail & w' & E & Hc & _).
  exists c, tail. split; [| exact Hc].
  unfold Mon.bind, in_world, Browser.sessionStorage_removeItem, modify.
  cbn [world set_world fst snd]. rewrite E. reflexivity.
Qed.

Lemma detectHardRefresh_frame st :
  exists b st',
    detectHardRefresh env st = (Return b, st')
    /\ app st' = app st
    /\ sessionStorage (world st') !! "verificationPlanSessionId"
       = sessionStorage (world st) !! "verificationPlanSessionId".
Proof.
  unfold detectHardRefresh, Mon.bind, in_world, Browser.sessionStorage_getItem,
    Browser.sessionStorage_setItem, Browser.Date_now, Mon.gets, Mon.modify.
  cbn [world set_world fst snd]. 
  destruct (navigation_type _); eexists _, _;
    (split; [reflexivity |]); (split; [reflexivity |]);
    cbn [world set_world sessionStorage upd_sessionStorage upd_clock_reads];
    apply lookup_insert_ne; discriminate.
Qed.

Lemma initializeChatSession_stored st sid :
  sessionStorage (world st) !! "verificationPlanSessionId" = Some sid ->
  truthy (Some sid) = true ->
  initializeChatSession env st
  = (Return tt, upd_app (set_chatSessionId (Some sid)) st).
Proof.
  intros Hsid Ht.
  unfold initializeChatSession, Mon.bind, in_world,
    Browser.sessionStorage_getItem, Mon.gets.
  cbn [world fst snd]. rewrite Hsid, Ht. cbn [negb].
  destruct st; reflexivity.
Qed.

Section Kept.
Variable sid : option string.
Let P (st : State) : Prop := chatSessionId (app st) = sid.

Lemma P_app_only : app_only P.
Proof. intros st st' E H. unfold P in *. rewrite <- E. exact H. Qed.

Ltac changed := unfold P in *; cbn; assumption.

Ltac go :=
  repeat first
    [ always_step P (app_only_world_stable _ P_app_only) changed
    | apply apiRequest_app_only; [exact P_app_only | assumption]
    | apply response_json_always; assumption ].

Lemma loadDefaultJobIdsForFolders_keeps st :
  P st -> Always P (loadDefaultJobIdsForFolders manager st).
Proof.
  intros H. unfold Always, loadDefaultJobIdsForFolders. go.
  apply always_for_each; [| assumption].
  intros ? ? ?. unfold Always, loadDefaultJobId, request. go.
Qed.

Lemma loadSearchTargetFromStorage_keeps :
  keeps P (loadSearchTargetFromStorage manager).
Proof.
  unfold loadSearchTargetFromStorage, updateCurrentFolderDisplay,
    updateQueryInputPlaceholder, renderChatHistory.
  repeat first
    [ keeps_step (app_only_world_stable _ P_app_only) changed
    | apply keeps_spawn; intros;
      apply loadDefaultJobIdsForFolders_keeps; assumption ].
Qed.

Lemma checkAuthManager_keeps : keeps P checkAuthManager.
Proof.
  unfold checkAuthManager.
  repeat keeps_step (app_only_world_stable _ P_app_only) changed.
Qed.
End Kept.

Lemma snd_bind {S A B} (c : M S A) (k : A -> M S B) s a s' :
  c s = (Return a, s') -> snd (Mon.bind c k s) = snd (k a s').
Proof. intros E. unfold Mon.bind. rewrite E. reflexivity. Qed.

(** A page load keeps the session id found in the storage of the tab. *)
Lemma page_load_stored_session apiEndpoint dom w sid :
  sessionStorage w !! "verificationPlanSessionId" = Some sid ->
  sid <> "" ->
  chatSessionId (app (fst (page_load env manager apiEndpoint dom w))) = Some sid.
Proof.
  intros Hsid Hne. unfold page_load.
  set (st0 := {| world := w; app := new_app apiEndpoint dom; log := [] |}).
  assert (Hst : chatSessionId (app (snd (constructor env manager st0))) = Some sid).
  { unfold constructor.
    destruct (detectHardRefresh_frame st0) as (b & st1 & E1 & Ha & Hs).
    rewrite (snd_bind _ _ _ _ _ E1).
    rewrite (snd_bind _ _ _ tt (upd_app (set_isHardRefresh b) st1)) by reflexivity.
    rewrite (snd_bind _ _ _ tt
               (upd_app (set_chatSessionId (Some sid))
                  (upd_app (set_isHardRefresh b) st1))).
    - apply (keeps_bind (fun st => chatSessionId (app st) = Some sid)).
      + apply loadSearchTargetFromStorage_keeps.
      + intros tasks. apply keeps_bind; [apply checkAuthManager_keeps |].
        intros u. apply keeps_ret.
      + reflexivity.
    - apply initializeChatSession_stored.
      + cbn [world upd_app]. rewrite Hs. exact Hsid.
      + destruct sid; [congruence | reflexivity]. }
  destruct (constructor env manager st0) as [[tasks | e] st]; exact Hst.
Qed.
End Session.

(** C5. A reload keeps the session id stored in the tab whatever the
    time since the previous load. Here the page is reloaded five seconds
    after its first load, with no folder selected: the load is classified
    as a hard refresh and the selection is cleared, yet the application
    goes on with the session id of the first load; no new id is issued,
    although the comment of [initializeChatSession] announces one on
    refresh. *)
Theorem reload_past_threshold_keeps_session_id :
  isHardRefresh (app Examples.reloaded) = true
  /\ selectedFolderPaths (app Examples.reloaded) = []
  /\ storedFolderPaths (world Examples.reloaded) = NoItem
  /\ chatSessionId (app Examples.loaded)
     = Some "verification_01234567-89ab-4cde-b012-3456789abcde"
  /\ chatSessionId (app Examples.reloaded)
     = Some "verification_01234567-89ab-4cde-b012-3456789abcde".
Proof. vm_compute. repeat split. Qed.

(** C6. The id generated on first load carries the prefix of the mode;
    the id generated by [resetChatSession] is the bare identifier,
    without the prefix. *)
Theorem reset_session_id_lacks_mode_prefix :
  chatSessionId (app Examples.loaded)
  = Some "verification_01234567-89ab-4cde-b012-3456789abcde"
  /\ chatSessionId (app Examples.after_reset)
     = Some "f0123456-789a-4bcd-af01-23456789abcd"
  /\ String.prefix "verification_" "f0123456-789a-4bcd-af01-23456789abcd"
     = false.
Proof. vm_compute. repeat split. Qed.

End SessionFacts.

(** ** The authenticated request client *)

Module ApiFacts.
Import Mon Async AsyncFacts MonFacts App AppFacts Js.

Section Cognito.
Variable env : Env.
Import CognitoAuthManager.

Lemma isAuthenticated_returns w :
  exists b w', isAuthenticated env w = (Return b, w').
Proof.
  unfold isAuthenticated, Mon.bind, Browser.localStorage_getItem, Mon.gets,
    Browser.Date_now.
  cbn beta iota.
  destruct (negb (truthy (localStorage w !! "cognito_access_token")));
    [eexists _, _; reflexivity |].
  cbn beta iota.
  destruct (truthy (localStorage w !! "cognito_token_expires_at"));
    [| eexists _, _; reflexivity].
  cbn beta iota.
  destruct (parseInt10 _) as [t |]; [| eexists _, _; reflexivity].
  destruct (t <=? _); eexists _, _; reflexivity.
Qed.

Lemma store_tokens_returns result w :
  exists rr w', store_tokens env result w = (Return rr, w').
Proof.
  eexists _, _. unfold store_tokens, Mon.bind, Mon.modify, Mon.ret,
    Browser.localStorage_setItem, Browser.Date_now.
  cbn beta iota. reflexivity.
Qed.

Lemma signOut_returns w : exists w', signOut w = (Return tt, w').
Proof. eexists. reflexivity. Qed.

Lemma refreshAccessToken_returns w :
  exists rr w',
    run (Browser.settle env) (refreshAccessToken env w) = (Return rr, w').
Proof.
  unfold refreshAccessToken.
  rewrite run_bind, run_sync. cbn [Browser.localStorage_getItem Mon.gets].
  destruct (negb (truthy (localStorage w !! "cognito_refresh_token")));
    [eexists _, _; reflexivity |].
  rewrite run_bind, run_sync. cbn [Mon.gets].
  destruct (negb (sdk_ready w)); [eexists _, _; reflexivity |].
  rewrite run_bind. unfold Browser.initiateAuth. cbn [run await Browser.settle].
  destruct (provider env (auth_calls w)) as [[result |] | code message].
  - rewrite run_sync. apply store_tokens_returns.
  - eexists _, _; reflexivity.
  - rewrite run_bind, run_sync.
    destruct (bool_decide (code = Some "NotAuthorizedException"));
      eexists _, _; reflexivity.
Qed.

Lemma getAccessToken_returns w :
  exists token w',
    run (Browser.settle env) (getAccessToken env w) = (Return token, w').
Proof.
  unfold getAccessToken. rewrite run_bind, run_sync.
  destruct (isAuthenticated_returns w) as (b & w1 & ->).
  destruct b; cbn [negb].
  - rewrite run_sync. eexists _, _; reflexivity.
  - rewrite run_bind.
    destruct (refreshAccessToken_returns w1) as (rr & w2 & ->).
    destruct (RefreshResult.success rr); cbn [negb].
    + rewrite run_sync. eexists _, _; reflexivity.
    + eexists _, _; reflexivity.
Qed.

Lemma cognito_total : manager_total env (manager env).
Proof.
  split; intros w; [apply getAccessToken_returns | apply refreshAccessToken_returns].
Qed.
End Cognito.

Section Client.
Variable env : Env.
Variable manager : Manager.t.

Lemma run_lift_world {A} (r : Run World A) st :
  run (settle env) (lift_run world set_world r st)
  = let (c, w') := run (Browser.settle env) r in (c, set_world w' st).
Proof.
  revert st. induction r as [c w | op w resume IH]; intros st; simpl.
  - reflexivity.
  - unfold settle at 1. cbn [world set_world].
    destruct (Browser.settle env op w) as [x w1].
    rewrite IH. cbn [world set_world].
    destruct (run (Browser.settle env) (resume x w1)) as [c w'].
    reflexivity.
Qed.

Lemma run_await_world {A} (c : Async World A) st :
  run_alone env (await_world c) st
  = let (r, w') := run (Browser.settle env) (c (world st)) in (r, set_world w' st).
Proof. apply run_lift_world. Qed.

Lemma run_await_fetch req st :
  run (settle env) (await_fetch req st)
  = let st1 := upd_log (fun l => (l ++ [FetchCalled req])%list) st in
    match transport env (fetches (world st)) req with
    | Net.Responded r => (Return r, set_world (upd_fetches S (world st)) st1)
    | Net.Rejected m => (Throw m, set_world (upd_fetches S (world st)) st1)
    end.
Proof.
  unfold await_fetch. rewrite run_bind, run_sync. cbn [emit modify fst snd].
  rewrite run_bind. unfold Browser.fetch. cbn [run await].
  unfold settle, Browser.settle. cbn [world upd_log].
  destruct (transport env (fetches (world st)) req); reflexivity.
Qed.

Ltac run_simpl :=
  cbn [emit read modify gets in_world Browser.navigate Mon.bind Mon.ret
       fst snd run Async.ret Async.throw app world log upd_log set_world
       upd_app negb].

Ltac run_step :=
  first
    [ rewrite run_bind
    | rewrite run_sync
    | rewrite run_try_catch
    | rewrite run_await_fetch
    | rewrite run_lift_world
    | progress run_simpl ].

Hypothesis Htotal : manager_total env manager.

Lemma run_expire_session st :
  run (settle env) (expire_session st)
  = (Throw session_expired,
     set_world (set_location_href (Some "index.html") (world st))
       (upd_log (fun l => (l ++ [Console refresh_failed_line])%list) st)).
Proof. unfold expire_session. repeat run_step. destruct st; reflexivity. Qed.

(** [apiRequest] without a manager: the stored token is sent and a
    401 ends the session at once. *)
Lemma run_apiRequest_detached req st :
  authManager (app st) = false ->
  exists sent st',
    run_alone env (apiRequest manager req) st
    = (match transport env (fetches (world st)) sent with
       | Net.Responded r =>
           if Net.status r =? 401 then Throw session_expired else Return r
       | Net.Rejected m => Throw m
       end, st')
    /\ Net.route sent = Net.route req
    /\ Net.body sent = Net.body req
    /\ timers (world st') = timers (world st).
Proof.
  intros Ham. unfold run_alone, apiRequest, initial_token.
  repeat run_step. rewrite Ham. repeat run_step.
  unfold Browser.localStorage_getItem. repeat run_step.
  match goal with |- context [transport env ?n ?r] =>
    exists r; destruct (transport env n r) as [r3 | m] eqn:Et end.
  - destruct (Net.status r3 =? 401) eqn:H401.
    + unfold on_unauthorized. repeat run_step. rewrite Ham.
      rewrite run_expire_session. repeat run_step.
      eexists. split; [reflexivity |]. repeat split.
    + repeat run_step. eexists. split; [reflexivity |]. repeat split.
  - repeat run_step. eexists. split; [reflexivity |]. repeat split.
Qed.

Lemma run_on_unauthorized req headers st :
  authManager (app st) = true ->
  exists c st' tail,
    run (settle env) (on_unauthorized manager req headers st) = (c, st')
    /\ app st' = app st
    /\ log st' = (log st ++ Console unauthorized_line :: RefreshAccessToken :: tail)%list
    /\ ((tail = [Console refresh_failed_line]
         /\ c = Throw session_expired /\ href st' = Some "index.html")
        \/ exists r2,
            let resend := [Console refreshed_line; GetAccessToken; FetchCalled r2] in
            (tail = (resend ++ [Console retry_successful_line])%list
             /\ exists r, c = Return r /\ Net.ok r = true)
            \/ (tail = (resend ++ [Console refresh_failed_line])%list
                /\ c = Throw session_expired /\ href st' = Some "index.html")
            \/ (tail = resend /\ exists e, c = Throw e)).
Proof.
  intros Ham. unfold on_unauthorized.
  repeat run_step. rewrite Ham. repeat run_step. unfold await_world, lift.
  repeat run_step.
  destruct (proj2 Htotal (world st)) as (rr & w1 & E1). rewrite E1.
  destruct (RefreshResult.success rr).
  - repeat run_step. unfold await_world, lift. repeat run_step.
    destruct (proj1 Htotal w1) as (tok & w2 & E2). rewrite E2.
    repeat run_step.
    match goal with |- context [transport env ?n ?r] =>
      destruct (transport env n r) as [r3 | m] eqn:Et end.
    + destruct (Net.ok r3) eqn:Hok.
      * repeat run_step. eexists _, _, _. split; [reflexivity |].
        split; [reflexivity |]. split.
        { cbn [log upd_log set_world]. rewrite <- !app_assoc. reflexivity. }
        right. eexists. left. split; [reflexivity |]. eexists; split; [reflexivity | exact Hok].
      * rewrite run_expire_session. eexists _, _, _. split; [reflexivity |].
        split; [reflexivity |]. split.
        { cbn [log upd_log set_world]. rewrite <- !app_assoc. reflexivity. }
        right. eexists. right. left. split; [reflexivity |]. split; reflexivity.
    + eexists _, _, _. split; [reflexivity |].
      split; [reflexivity |]. split.
      { cbn [log upd_log set_world]. rewrite <- !app_assoc. reflexivity. }
      right. eexists. right. right. split; [reflexivity |]. eexists; reflexivity.
  - rewrite run_expire_session. eexists _, _, _. split; [reflexivity |].
    split; [reflexivity |]. split.
    { cbn [log upd_log set_world]. rewrite <- !app_assoc. reflexivity. }
    left. split; [reflexivity |]. split; reflexivity.
Qed.

(** The calls and console lines of [apiRequest] when the manager is
  attached, in each of its ways to end. *)
Lemma run_apiRequest_attached req st :
    authManager (app st) = true ->
    exists c st' new,
      run_alone env (apiRequest manager req) st = (c, st')
      /\ log st' = (log st ++ new)%list
      /\ ((new = [ApiRequest req; GetAccessToken; Console no_token_line]
           /\ exists e, c = Throw e)
          \/ exists r1,
              (new = [ApiRequest req; GetAccessToken; FetchCalled r1]
               /\ exists r, c = Return r)
              \/ (new = [ApiRequest req; GetAccessToken; FetchCalled r1;
                         Console request_failed_line]
                  /\ exists e, c = Throw e)
              \/ exists tail,
                  new = ([ApiRequest req; GetAccessToken; FetchCalled r1;
                          Console unauthorized_line; RefreshAccessToken]
                         ++ tail)%list
                  /\ after_refresh c st' tail).
  Proof.
    intros Ham. unfold run_alone, apiRequest, initial_token.
    repeat run_step. rewrite Ham. repeat run_step. unfold await_world, lift.
    repeat run_step.
    destruct (proj1 Htotal (world st)) as (tok & w1 & E1). rewrite E1.
    destruct (truthy tok) eqn:Htok; cbn [negb].
    - repeat run_step.
      match goal with |- context [transport env ?n ?r] =>
        destruct (transport env n r) as [r3 | m] eqn:Et end.
      + destruct (Net.status r3 =? 401) eqn:H401.
        * match goal with |- context [on_unauthorized manager ?r ?h ?s] =>
            destruct (run_on_unauthorized r h s Ham)
              as (c & st' & tail & E & _ & Hlog & Hcases)
          end.
          rewrite E. cbn [log upd_log set_world] in Hlog.
          destruct Hcases as [(-> & -> & Hh) | (r2 & [(-> & r & -> & Hok) | [(-> & -> & Hh) | (-> & e & ->)]])].
          -- repeat run_step. eexists _, _, _. split; [reflexivity |]. split.
             { cbn [log upd_log]. rewrite Hlog, <- !app_assoc. reflexivity. }
             right. eexists. right. right. eexists. split; [reflexivity |].
             left. split; [reflexivity |]. split; [reflexivity | exact Hh].
          -- eexists _, _, _. split; [reflexivity |]. split.
             { rewrite Hlog, <- !app_assoc. reflexivity. }
             right. eexists. right. right. eexists. split; [reflexivity |].
             right. eexists. left. split; [reflexivity |]. eexists; split; [reflexivity | exact Hok].
          -- repeat run_step. eexists _, _, _. split; [reflexivity |]. split.
             { cbn [log upd_log]. rewrite Hlog, <- !app_assoc. reflexivity. }
             right. eexists. right. right. eexists. split; [reflexivity |].
             right. eexists. right. left. split; [reflexivity |]. split; [reflexivity | exact Hh].
          -- repeat run_step. eexists _, _, _. split; [reflexivity |]. split.
             { cbn [log upd_log]. rewrite Hlog, <- !app_assoc. reflexivity. }
             right. eexists. right. right. eexists. split; [reflexivity |].
             right. eexists. right. right. split; [reflexivity |]. eexists; reflexivity.
        * repeat run_step. eexists _, _, _. split; [reflexivity |]. split.
          { cbn [log upd_log set_world]. rewrite <- !app_assoc. reflexivity. }
          right. eexists. left. split; [reflexivity |]. eexists; reflexivity.
      + repeat run_step. eexists _, _, _. split; [reflexivity |]. split.
        { cbn [log upd_log set_world]. rewrite <- !app_assoc. reflexivity. }
        right. eexists. right. left. split; [reflexivity |]. eexists; reflexivity.
    - repeat run_step. eexists _, _, _. split; [reflexivity |]. split.
      { cbn [log upd_log set_world]. rewrite <- !app_assoc. reflexivity. }
      left. split; [reflexivity |]. eexists; reflexivity.
  Qed.
End Client.

(** C2, amended. When a request made with the manager attached receives
    a 401, [apiRequest] calls [refreshAccessToken] exactly once. It sends
    the request again exactly once if the refresh reports success and
    not at all if it fails, and never more than once. Its calls and
    console lines are those of [after_refresh]: the new response is
    returned if it is ok; when the refresh fails or the new response is
    not ok, the location is set to the sign-in page and the session
    error is thrown. *)
Theorem apiRequest_refresh_retry_once env manager req st new :
  manager_total env manager ->
  authManager (app st) = true ->
  log (snd (run_alone env (apiRequest manager req) st)) = (log st ++ new)%list ->
  In (Console unauthorized_line) new ->
  let c := fst (run_alone env (apiRequest manager req) st) in
  let st' := snd (run_alone env (apiRequest manager req) st) in
  refresh_calls new = 1%nat
  /\ (resends new <= 1)%nat
  /\ (resends new = 1%nat <-> In (Console refreshed_line) new)
  /\ exists r1 tail,
       new = ([ApiRequest req; GetAccessToken; FetchCalled r1;
               Console unauthorized_line; RefreshAccessToken] ++ tail)%list
       /\ after_refresh c st' tail.
Proof.
  intros Htotal Ham Hlog Hin.
  destruct (run_apiRequest_attached env manager Htotal req st Ham)
    as (c & st' & new' & E & Hlog' & Hcases).
  rewrite E in *. cbn [fst snd] in *.
  rewrite Hlog' in Hlog. apply app_inv_head in Hlog. subst new'.
  destruct Hcases as [(-> & _) | (r1 & [(-> & _) | [(-> & _) | (tail & -> & Hafter)]])].
  - exfalso. simpl in Hin. intuition discriminate.
  - exfalso. simpl in Hin. intuition discriminate.
  - exfalso. simpl in Hin. intuition discriminate.
  - assert (Hshape := Hafter).
    destruct Hafter as [(-> & _) | (r2 & [(-> & _) | [(-> & _) | (-> & _)]])].
    all: split; [reflexivity |].
    all: split; [cbv; lia |].
    all: split; [| exists r1; eexists; split; [reflexivity | exact Hshape]].
    + split; [intros H; discriminate H |].
      intros H. exfalso. simpl in H. intuition discriminate.
    + split; [intros _ | reflexivity]. simpl. auto 10.
    + split; [intros _ | reflexivity]. simpl. auto 10.
    + split; [intros _ | reflexivity]. simpl. auto 10.
Qed.

Lemma apiRequest_refresh_retry_once_witness :
  let env := Examples.env_refresh_succeeds in
  let manager := CognitoAuthManager.manager env in
  let run := run_alone env (apiRequest manager Examples.folders_request)
               Examples.signed_in in
  refresh_calls (log (snd run)) = 1%nat
  /\ (resends (log (snd run)) <= 1)%nat
  /\ (resends (log (snd run)) = 1%nat
      <-> In (Console unauthorized_line) (log (snd run))
          /\ In (Console refreshed_line) (log (snd run))).
Proof.
  intros env manager run.
  assert (Hin : In (Console unauthorized_line) (log (snd run))).
  { vm_compute. do 3 right. left. reflexivity. }
  destruct (apiRequest_refresh_retry_once env manager Examples.folders_request
              Examples.signed_in (log (snd run)))
    as (H1 & H2 & H3 & _).
  - apply cognito_total.
  - reflexivity.
  - reflexivity.
  - exact Hin.
  - split; [exact H1 | split; [exact H2 |]].
    split; [intros H; split; [exact Hin | apply H3, H] | intros [_ H]; apply H3, H].
Defined.

(** The claim as it is written fails when the refresh fails: the
    refresh is called once and the request is not sent again. *)
Lemma refresh_failure_leaves_no_resend :
  let env := Examples.env_refresh_fails in
  let manager := CognitoAuthManager.manager env in
  let run := run_alone env (apiRequest manager Examples.folders_request)
               Examples.signed_in in
  In (Console unauthorized_line) (log (snd run))
  /\ fst run = Throw session_expired
  /\ ~ (refresh_calls (log (snd run)) = 1%nat
        /\ resends (log (snd run)) = 1%nat).
Proof.
  intros env manager run. split; [| split].
  - vm_compute. do 3 right. left. reflexivity.
  - vm_compute. reflexivity.
  - intros [_ H]. vm_compute in H. discriminate H.
Qed.

(** C7. [loadChatHistory] calls [fetch] itself: with a job selected its
    only call is a transport call that carries no bearer header, it is
    not made through [apiRequest], and the 401 it receives is followed
    by no refresh. The sibling [loadFolderTreeInModal], in the same
    state and world, goes through [apiRequest], which sends the token
    and refreshes it on the 401. *)
Theorem loadChatHistory_bypasses_apiRequest :
  let env := Examples.env_refresh_succeeds in
  let manager := CognitoAuthManager.manager env in
  let direct := run_alone env loadChatHistory Examples.signed_in_with_job in
  let wrapped :=
    run_alone env (loadFolderTreeInModal manager) Examples.signed_in_with_job in
  (exists req,
      log (snd direct) = [FetchCalled req]
      /\ Net.route req = Net.KnowledgeQuery
      /\ Net.headers req !! "Authorization" = None)
  /\ count is_api_request (log (snd direct)) = 0%nat
  /\ refresh_calls (log (snd direct)) = 0%nat
  /\ count is_api_request (log (snd wrapped)) = 1%nat
  /\ refresh_calls (log (snd wrapped)) = 1%nat
  /\ transport_calls (log (snd wrapped)) = 2%nat.
Proof.
  vm_compute. split; [| repeat split].
  eexists. repeat split.
Qed.

End ApiFacts.

(** ** Query orchestration *)

Module QueryFacts.
Import Mon Async AsyncFacts MonFacts App AppFacts Js.

Lemma extends_world_stable l : world_stable (extends l).
Proof. intros st w [rest H]. exists rest. exact H. Qed.

Lemma extends_emit l e st :
  extends l st -> extends l (upd_log (fun l0 => (l0 ++ [e])%list) st).
Proof.
  intros [rest H]. exists (rest ++ [e])%list. cbn [log upd_log].
  rewrite H, app_assoc. reflexivity.
Qed.

Lemma extends_app l f st : extends l st -> extends l (upd_app f st).
Proof. intros [rest H]. exists rest. exact H. Qed.

Ltac grown :=
  first [ apply extends_emit; assumption | apply extends_app; assumption ].

(** A dictionary after an assignment: every name but [__proto__]
    holds the value assigned to it. *)
Lemma lookup_set_property key value obj p :
  set_property key value obj !! p
  = if bool_decide (p = key) && negb (String.eqb key "__proto__")
    then Some value else obj !! p.
Proof.
  unfold set_property. destruct (String.eqb key "__proto__").
  - rewrite andb_false_r. reflexivity.
  - rewrite andb_true_r. destruct (decide (p = key)) as [-> | Hne].
    + rewrite bool_decide_eq_true_2 by reflexivity. apply lookup_insert_eq.
    + rewrite bool_decide_eq_false_2 by exact Hne.
      apply lookup_insert_ne. congruence.
Qed.

Lemma lookup_record_defaults known paths ids p :
  fold_left (record_default known) paths ids !! p
  = if bool_decide (p ∈ paths) && negb (String.eqb p "__proto__")
    then match known p with Some g => Some g | None => ids !! p end
    else ids !! p.
Proof.
  revert ids. induction paths as [| x paths IH]; intros ids; cbn [fold_left].
  - rewrite bool_decide_eq_false_2 by (intros H; inversion H). reflexivity.
  - rewrite IH. unfold record_default.
    destruct (decide (p = x)) as [-> | Hne].
    + rewrite (bool_decide_eq_true_2 (x ∈ x :: paths)) by (left).
      destruct (known x) as [g |].
      * rewrite lookup_set_property.
        rewrite (bool_decide_eq_true_2 (x = x)) by reflexivity.
        destruct (bool_decide (x ∈ paths)), (String.eqb x "__proto__");
          reflexivity.
      * destruct (bool_decide (x ∈ paths)), (String.eqb x "__proto__");
          reflexivity.
    + assert (Hiff : p ∈ x :: paths <-> p ∈ paths).
      { rewrite elem_of_cons. tauto. }
      rewrite (bool_decide_ext _ _ Hiff).
      destruct (known x) as [g |]; [| reflexivity].
      rewrite lookup_set_property.
      rewrite (bool_decide_eq_false_2 (p = x)) by exact Hne.
      reflexivity.
Qed.

Section Query.
Variable env : Env.
Variable manager : Manager.t.

(** The state after [addChatMessage('user', content)]. *)
Lemma addChatMessage_user content st :
  exists st',
    addChatMessage env "user" content [] None st = (Return tt, st')
    /\ world st' = upd_clock_reads S (world st)
    /\ log st' = log st
    /\ app st'
       = let messages :=
           (chatMessages (app st)
            ++ [{| Html.role := "user"; Html.content := content;
                   Html.sources := [];
                   Html.timestamp :=
                     toLocaleString env (clock env (clock_reads (world st)));
                   Html.messageId := None;
                   Html.rating := None; Html.comment := None |}])%list in
         upd_elements (set_chatHistory_innerHTML (Html.chatHtml messages))
           (set_chatMessages messages (app st)).
Proof.
  eexists. split; [| split; [| split]].
  - cbv [addChatMessage renderChatHistory Mon.bind Mon.ret in_world
         Browser.new_Date Browser.Date_now read gets assign ui modify
         negb truthy andb String.eqb Ascii.eqb Bool.eqb].
    reflexivity.
  - reflexivity.
  - reflexivity.
  - reflexivity.
Qed.

Section Extends.
Variable l : list Event.
Let P := extends l.

Ltac go :=
  repeat first
    [ always_step P (extends_world_stable l) grown
    | apply apiRequest_always;
      [ apply extends_world_stable
      | intros ? ? _; apply extends_emit
      | intros ?; apply extends_emit
      | assumption ]
    | apply response_json_always; assumption ].

Lemma on_completed_extends statusData : keeps P (on_completed env statusData).
Proof.
  unfold on_completed, addChatMessage, renderChatHistory, updatePdfList,
    displayPdfInIframe, showMessage, hideLoadingUI.
  repeat keeps_step (extends_world_stable l) grown.
Qed.

Lemma poll_extends remaining attempts queryId st :
  P st -> Always P (poll env manager remaining attempts queryId st).
Proof.
  revert attempts st. induction remaining as [|remaining IH];
    intros attempts st H; cbn [poll].
  - constructor. exact H.
  - unfold Always, request. go.
    all: first [apply on_completed_extends | apply IH; assumption].
Qed.

Lemma after_start_extends (startResponse : Net.Response) st :
  P st ->
  Always P
    ((if negb (Net.ok startResponse) then
        Async.bind (response_json startResponse) (fun errorData =>
          Async.throw (or_default (Payload.error errorData)
                         "クエリの開始に失敗しました"))
      else
        Async.bind (response_json startResponse) (fun startData =>
          Async.bind (poll env manager maxAttempts 0 (Payload.query_id startData))
            (fun completed =>
               if negb completed then Async.throw timeout_message
               else Async.ret tt))) st).
Proof.
  intros H. unfold Always. go. apply poll_extends. assumption.
  all: go.
Qed.
End Extends.

Lemma submitQuery_try_records query st :
  Always (extends (log st ++ [ApiRequest (start_request (app st) query)]))
    (submitQuery_try env manager query st).
Proof.
  unfold Always, submitQuery_try.
  set (P := extends (log st ++ [ApiRequest (start_request (app st) query)])).
  apply during_bind_sync.
  destruct (addChatMessage_user query st) as (st1 & -> & _ & Hlog & Happ).
  apply during_bind_sync. cbn [ui modify].
  apply during_bind_sync. cbn [read gets].
  apply during_bind_sync. unfold request. cbn [Mon.bind read gets Mon.ret].
  apply during_bind with (Q1 := fun _ s => P s).
  - apply apiRequest_recorded.
    + apply extends_world_stable.
    + intros ? ? _. apply extends_emit.
    + exists []. cbn [log upd_log upd_app]. rewrite Hlog, app_nil_r.
      unfold start_request. cbn [app upd_app]. rewrite Happ. reflexivity.
  - intros r s' H. apply after_start_extends. exact H.
  - intros e s' H. exact H.
Qed.

Lemma submitQuery_records st :
  trim (queryInput_value (elements (app st))) <> "" ->
  selectedFolderPaths (app st) <> [] ->
  let query := trim (queryInput_value (elements (app st))) in
  Always (extends (log st ++ [ApiRequest (start_request (app st) query)]))
    (submitQuery env manager st).
Proof.
  intros Hquery Hpaths query. unfold Always, submitQuery.
  set (P := extends (log st ++ [ApiRequest (start_request (app st) query)])).
  apply during_bind_sync. cbn [read gets]. fold query.
  destruct query as [| c q] eqn:Eq; [contradiction |].
  apply during_bind_sync. cbn [read gets].
  destruct (selectedFolderPaths (app st)) as [| p paths] eqn:Ep; [contradiction |].
  apply during_bind_sync. cbn [ui modify].
  apply during_bind_sync. cbn [ui modify].
  apply during_bind_sync. cbn [showLoadingUI Mon.bind ui modify].
  apply during_finally with (Q1 := fun _ s => P s).
  - apply during_try_catch with (Q1 := fun _ s => P s).
    + match goal with
      | |- During _ _ (submitQuery_try _ _ ?q ?s) =>
          exact (submitQuery_try_records q s)
      end.
    + intros a s' H. exact H.
    + intros e s' H. apply always_sync; [| exact H].
      unfold submitQuery_catch, showMessage, hideLoadingUI.
      repeat keeps_step (extends_world_stable (log st ++ [ApiRequest (start_request (app st) (String c q))])) grown.
  - intros r s' H. cbn [submitQuery_finally Mon.bind ui modify].
    apply extends_app, extends_app, H.
Qed.

(** What every call of [apiRequest] leaves of the application and of
    the timeline. *)
Lemma run_apiRequest_frame req st :
  let st' := snd (run_alone env (apiRequest manager req) st) in
  app st' = app st
  /\ timeline (log st') = (timeline (log st) ++ [ApiRequest req])%list.
Proof.
  set (P := fun s : State =>
              app s = app st
              /\ timeline (log s) = (timeline (log st) ++ [ApiRequest req])%list).
  assert (HW : world_stable P) by (intros s w H; exact H).
  apply (run_during (settle env) P (fun _ s => P s)).
  - apply apiRequest_recorded.
    + exact HW.
    + intros s e He [Ha Ht]. split; [exact Ha |].
      cbn [log upd_log]. unfold timeline in *.
      rewrite List.filter_app, Ht. destruct e; try contradiction; cbn;
        rewrite app_nil_r; reflexivity.
    + split; [reflexivity |]. cbn [log upd_log]. unfold timeline.
      rewrite List.filter_app. reflexivity.
  - apply settle_world_stable, HW.
Qed.

Section Pending.
Variable I : World -> Prop.
Variable attached : bool.
Hypothesis Htick : forall w, I w -> I (upd_clock_reads S w).
Hypothesis Hfired : forall w,
  I w -> I (upd_timers (fun fired => (fired ++ [3000])%list) w).
Hypothesis Hpending : forall st req,
  I (world st) -> authManager (app st) = attached ->
  Net.route req = Net.QueryStart
  \/ (exists queryId, Net.route req = Net.QueryStatus queryId) ->
  exists r d st',
    run_alone env (apiRequest manager req) st = (Return r, st')
    /\ I (world st')
    /\ timers (world st') = timers (world st)
    /\ Net.ok r = true
    /\ Net.json r = Some d
    /\ (forall queryId, Net.route req = Net.QueryStatus queryId ->
          Payload.status d <> Some "completed"
          /\ Payload.status d <> Some "failed").


End Pending.
Section Defaults.
Variable I : World -> Prop.
Variable known : string -> option string.
Variable attached : bool.
Variable endpoint : string.
Variable selected : list string.
Hypothesis Hlookup : forall st folderPath,
  folderPath ∈ selected ->
  I (world st) -> authManager (app st) = attached ->
  apiEndpoint (app st) = endpoint ->
  let run :=
    run_alone env
      (apiRequest manager (default_job_request (app st) folderPath)) st in
  I (world (snd run)) /\ default_of (fst run) = known folderPath.

Lemma run_loadDefaultJobId folderPath st :
  folderPath ∈ selected ->
  I (world st) -> authManager (app st) = attached ->
  apiEndpoint (app st) = endpoint ->
  exists st',
    run_alone env (loadDefaultJobId manager folderPath) st = (Return tt, st')
    /\ I (world st')
    /\ folderDefaultJobIds (app st')
       = record_default known (folderDefaultJobIds (app st)) folderPath
    /\ (forall ids, set_folderDefaultJobIds ids (app st')
                    = set_folderDefaultJobIds ids (app st)).
Proof.
  intros Hin HI Ha He. unfold run_alone, loadDefaultJobId.
  rewrite run_try_catch, run_bind, run_sync. unfold request.
  cbn [Mon.bind read gets Mon.ret]. rewrite run_bind.
  pose proof (Hlookup st folderPath Hin HI Ha He) as [HI1 Hk].
  pose proof (run_apiRequest_frame
                (default_job_request (app st) folderPath) st) as [Happ _].
  unfold run_alone, default_job_request in *.
  destruct (run (settle env) (apiRequest manager _ st)) as [[r | e] st1].
  - cbn [fst snd default_of] in *. unfold record_default. rewrite <- Hk.
    destruct (Net.ok r).
    + rewrite run_bind. unfold response_json.
      destruct (Net.json r) as [d |]; cbn [run Async.ret Async.throw].
      * destruct (truthy (Payload.job_id d)) eqn:Ht.
        -- rewrite run_bind, run_sync. cbn [read gets]. rewrite run_sync.
           cbn [assign modify]. eexists. split; [reflexivity |].
           split; [exact HI1 |]. cbn [app upd_app folderDefaultJobIds set_folderDefaultJobIds].
           rewrite Happ. destruct (Payload.job_id d); [| discriminate Ht].
           split; [reflexivity |]. intros ids. reflexivity.
        -- cbn [run Async.ret]. eexists. split; [reflexivity |].
           split; [exact HI1 |]. rewrite Happ. split; reflexivity.
      * eexists. split; [reflexivity |].
        split; [exact HI1 |]. rewrite Happ. split; reflexivity.
    + cbn [run Async.ret]. eexists. split; [reflexivity |].
      split; [exact HI1 |]. rewrite Happ. split; reflexivity.
  - cbn [fst snd default_of run Async.ret] in *. unfold record_default.
    rewrite <- Hk. eexists. split; [reflexivity |].
    split; [exact HI1 |]. rewrite Happ. split; reflexivity.
Qed.

Lemma run_for_each_defaults paths st :
  paths ⊆ selected ->
  I (world st) -> authManager (app st) = attached ->
  apiEndpoint (app st) = endpoint ->
  exists st',
    run (settle env) (Async.for_each paths (loadDefaultJobId manager) st)
    = (Return tt, st')
    /\ I (world st')
    /\ folderDefaultJobIds (app st')
       = fold_left (record_default known) paths (folderDefaultJobIds (app st))
    /\ (forall ids, set_folderDefaultJobIds ids (app st')
                    = set_folderDefaultJobIds ids (app st)).
Proof.
  revert st. induction paths as [| p paths IH]; intros st Hsub HI Ha He;
    cbn [Async.for_each fold_left].
  - eexists. split; [reflexivity |]. split; [exact HI |]. split; reflexivity.
  - rewrite run_bind.
    destruct (run_loadDefaultJobId p st) as (st1 & E & HI1 & Hids & Hrest);
      [apply Hsub; left | exact HI | exact Ha | exact He |].
    unfold run_alone in E. rewrite E.
    assert (Hsame : authManager (app st1) = authManager (app st)
                    /\ apiEndpoint (app st1) = apiEndpoint (app st)).
    { pose proof (Hrest ∅) as H.
      split; [apply (f_equal authManager) in H | apply (f_equal apiEndpoint) in H];
        exact H. }
    destruct Hsame as [Ha1 He1].
    destruct (IH st1) as (st' & E' & HI' & Hids' & Hrest');
      [ intros x Hx; apply Hsub; right; exact Hx | exact HI1
      | congruence | congruence | ].
    exists st'. split; [exact E' |]. split; [exact HI' |].
    split; [rewrite Hids', Hids; reflexivity |].
    intros ids. rewrite Hrest', Hrest. reflexivity.
Qed.
End Defaults.
End Query.

(** C4. When a job reference is set and folders are selected, the request
    that starts the query carries the reference as [jobId] and as
    [selected_job_id], and neither [folder_paths] nor
    [folder_default_job_ids]: the selected folders and their defaults
    do not appear in it. *)
Theorem explicit_job_reference_takes_precedence env manager st jobId :
  selectedJobId (app st) = Some jobId ->
  jobId <> "" ->
  selectedFolderPaths (app st) <> [] ->
  trim (queryInput_value (elements (app st))) <> "" ->
  exists rest,
    log (snd (run_alone env (submitQuery env manager) st))
    = (log st
       ++ ApiRequest
            {| Net.endpoint := apiEndpoint (app st);
               Net.route := Net.QueryStart;
               Net.method := "POST";
               Net.headers := json_headers;
               Net.body :=
                 Some (Net.QueryB
                   {| QueryBody.query :=
                        trim (queryInput_value (elements (app st)));
                      QueryBody.chat_session_id := chatSessionId (app st);
                      QueryBody.use_agent := useAgent (app st);
                      QueryBody.agent_type := agentType (app st);
                      QueryBody.jobId := Some jobId;
                      QueryBody.selected_job_id := Some jobId;
                      QueryBody.folder_paths := None;
                      QueryBody.folder_default_job_ids := None |}) |}
          :: rest)%list.
Proof.
  intros Hjob Hne Hpaths Hquery.
  pose proof (submitQuery_records env manager st Hquery Hpaths) as H.
  apply (run_during (settle env)) in H;
    [| apply settle_world_stable, extends_world_stable].
  destruct H as [rest H]. exists rest. unfold run_alone. rewrite H.
  rewrite <- app_assoc. unfold start_request, build_requestBody.
  rewrite Hjob. destruct jobId; [contradiction |]. reflexivity.
Qed.

Lemma explicit_job_reference_takes_precedence_witness :
  let st := Examples.type_query Examples.question Examples.signed_in_with_job in
  exists rest,
    log (snd (run_alone Examples.env0
                (submitQuery Examples.env0 Examples.manager0) st))
    = (ApiRequest
         {| Net.endpoint := "https://api.example";
            Net.route := Net.QueryStart;
            Net.method := "POST";
            Net.headers := json_headers;
            Net.body :=
              Some (Net.QueryB
                {| QueryBody.query := Examples.question;
                   QueryBody.chat_session_id :=
                     Some "verification_01234567-89ab-4cde-b012-3456789abcde";
                   QueryBody.use_agent := true;
                   QueryBody.agent_type := "verification";
                   QueryBody.jobId := Some "job-1";
                   QueryBody.selected_job_id := Some "job-1";
                   QueryBody.folder_paths := None;
                   QueryBody.folder_default_job_ids := None |}) |}
       :: rest)%list.
Proof.
  intros st.
  apply (explicit_job_reference_takes_precedence Examples.env0
           Examples.manager0 st "job-1").
  - reflexivity.
  - discriminate.
  - discriminate.
  - vm_compute. discriminate.
Defined.




(** X10. No job reference is set. [loadDefaultJobIdsForFolders] looks
    up each selected folder once and never throws; [known] is what the
    lookup of a folder yields as long as the session holds. When the
    call has run to its end and a query is submitted next, the start
    request carries in [folder_default_job_ids] exactly the pairs of
    the selected folders that have a default, except for a folder
    named [__proto__], which never gets a pair; [folder_paths] lists
    every selected folder. *)
Theorem query_after_lookup_sends_known_defaults env manager (I : World -> Prop)
    (known : string -> option string) st text :
  truthy (selectedJobId (app st)) = false ->
  selectedFolderPaths (app st) <> [] ->
  trim text <> "" ->
  I (world st) ->
  (forall st' folderPath,
     folderPath ∈ selectedFolderPaths (app st) ->
     I (world st') -> authManager (app st') = authManager (app st) ->
     apiEndpoint (app st') = apiEndpoint (app st) ->
     let run :=
       run_alone env
         (apiRequest manager (default_job_request (app st') folderPath)) st' in
     I (world (snd run)) /\ default_of (fst run) = known folderPath) ->
  let loaded := run_alone env (loadDefaultJobIdsForFolders manager) st in
  let asked :=
    upd_app (upd_elements (set_queryInput_value text)) (snd loaded) in
  fst loaded = Return tt
  /\ exists body rest,
       log (snd (run_alone env (submitQuery env manager) asked))
       = (log asked
          ++ ApiRequest
               {| Net.endpoint := apiEndpoint (app st);
                  Net.route := Net.QueryStart;
                  Net.method := "POST";
                  Net.headers := json_headers;
                  Net.body := Some (Net.QueryB body) |}
             :: rest)%list
       /\ QueryBody.jobId body = None
       /\ QueryBody.selected_job_id body = None
       /\ QueryBody.folder_paths body = Some (selectedFolderPaths (app st))
       /\ forall folderPath jobId,
            default ∅ (QueryBody.folder_default_job_ids body) !! folderPath
            = Some jobId
            <-> folderPath ∈ selectedFolderPaths (app st)
                /\ folderPath <> "__proto__"
                /\ known folderPath = Some jobId.
Proof.
  intros Hjob Hpaths Htext HI Hlookup loaded asked.
  assert (Hloaded : exists st',
             loaded = (Return tt, st')
             /\ folderDefaultJobIds (app st')
                = fold_left (record_default known) (selectedFolderPaths (app st)) ∅
             /\ (forall ids, set_folderDefaultJobIds ids (app st')
                             = set_folderDefaultJobIds ids (app st))).
  { unfold loaded, run_alone, loadDefaultJobIdsForFolders.
    rewrite run_bind, run_sync. cbn [assign modify].
    rewrite run_bind, run_sync. cbn [read gets app upd_app].
    destruct (run_for_each_defaults env manager I known (authManager (app st))
                (apiEndpoint (app st)) (selectedFolderPaths (app st)) Hlookup
                (selectedFolderPaths (app st))
                (upd_app (set_folderDefaultJobIds ∅) st))
      as (st' & E & _ & Hids & Hrest);
      [ intros x Hx; exact Hx | exact HI | reflexivity | reflexivity | ].
    cbn [selectedFolderPaths set_folderDefaultJobIds] in E.
    exists st'. split; [exact E |]. split; [exact Hids |].
    intros ids. rewrite Hrest. reflexivity. }
  destruct Hloaded as (st' & E & Hids & Hrest).
  assert (Hfield : forall {A} (f : t -> A),
             (forall ids a, f (set_folderDefaultJobIds ids a) = f a) ->
             f (app st') = f (app st)).
  { intros A f Hf. rewrite <- (Hf ∅ (app st')), <- (Hf ∅ (app st)), Hrest.
    reflexivity. }
  pose proof (Hfield _ selectedFolderPaths (fun _ _ => eq_refl)) as Hsel.
  pose proof (Hfield _ selectedJobId (fun _ _ => eq_refl)) as Hsj.
  pose proof (Hfield _ apiEndpoint (fun _ _ => eq_refl)) as Hep.
  split; [rewrite E; reflexivity |].
  assert (Hasked : asked = upd_app (upd_elements (set_queryInput_value text)) st')
    by (unfold asked; rewrite E; reflexivity).
  clearbody asked loaded. subst asked.
  pose proof (submitQuery_records env manager
                (upd_app (upd_elements (set_queryInput_value text)) st')) as H.
  cbn [app upd_app elements upd_elements queryInput_value set_queryInput_value
       selectedFolderPaths log] in H.
  specialize (H Htext). rewrite Hsel in H. specialize (H Hpaths).
  apply (run_during (settle env)) in H;
    [| apply settle_world_stable, extends_world_stable].
  destruct H as [rest H].
  eexists _, rest. split.
  { unfold run_alone. rewrite H, <- app_assoc. cbn [log upd_app].
    unfold start_request. cbn [apiEndpoint upd_elements]. rewrite Hep.
    reflexivity. }
  unfold build_requestBody. cbn [selectedJobId upd_elements].
  rewrite Hsj, Hjob.
  cbn [QueryBody.jobId QueryBody.selected_job_id QueryBody.folder_paths
       QueryBody.folder_default_job_ids selectedFolderPaths
       folderDefaultJobIds upd_elements].
  split; [reflexivity |]. split; [reflexivity |].
  split; [rewrite Hsel; reflexivity |].
  intros folderPath jobId.
  assert (Hmap : default ∅
                   (if bool_decide (folderDefaultJobIds (app st') = ∅)
                    then None else Some (folderDefaultJobIds (app st')))
                 = folderDefaultJobIds (app st')).
  { case_bool_decide as Hm; [rewrite Hm |]; reflexivity. }
  rewrite Hmap, Hids, lookup_record_defaults, lookup_empty.
  destruct (decide (folderPath ∈ selectedFolderPaths (app st))) as [Hin | Hin];
    [ rewrite (bool_decide_eq_true_2 _ Hin)
    | rewrite (bool_decide_eq_false_2 _ Hin) ].
  - cbn [andb]. destruct (String.eqb_spec folderPath "__proto__") as [Hp | Hp];
      cbn [negb].
    + split; [discriminate | intros (_ & H' & _); contradiction].
    + destruct (known folderPath) as [g |].
      * split; [ intros [= ->]; repeat split; assumption
               | intros (_ & _ & [= ->]); reflexivity ].
      * split; [discriminate | intros (_ & _ & H'); discriminate H'].
  - cbn [andb]. split; [discriminate | intros [H' _]; contradiction].
Qed.

Lemma query_after_lookup_sends_known_defaults_witness :
  let env := Examples.env_defaults in
  let manager := Examples.manager0 in
  let st := Examples.two_folders in
  let loaded := run_alone env (loadDefaultJobIdsForFolders manager) st in
  let asked :=
    upd_app (upd_elements (set_queryInput_value Examples.question)) (snd loaded) in
  fst loaded = Return tt
  /\ exists body rest,
       log (snd (run_alone env (submitQuery env manager) asked))
       = (log asked
          ++ ApiRequest
               {| Net.endpoint := "https://api.example";
                  Net.route := Net.QueryStart;
                  Net.method := "POST";
                  Net.headers := json_headers;
                  Net.body := Some (Net.QueryB body) |}
             :: rest)%list
       /\ QueryBody.folder_paths body = Some ["docs/a"; "docs/b"]
       /\ default ∅ (QueryBody.folder_default_job_ids body) !! "docs/a"
          = Some "job-a"
       /\ default ∅ (QueryBody.folder_default_job_ids body) !! "docs/b" = None.
Proof.
  intros env manager st loaded asked.
  destruct (query_after_lookup_sends_known_defaults env manager (fun _ => True)
              Examples.known_defaults st Examples.question)
    as (Hret & body & rest & Hlog & _ & _ & Hpaths & Hpairs).
  - reflexivity.
  - discriminate.
  - vm_compute. discriminate.
  - exact Logic.I.
  - intros st' folderPath _ _ Ha _. cbn zeta. split; [exact Logic.I |].
    destruct (ApiFacts.run_apiRequest_detached env manager
                (default_job_request (app st') folderPath) st' Ha)
      as (sent & st2 & E & Hr & _).
    rewrite E. cbn [fst transport env Examples.env_defaults].
    unfold Examples.defaults_transport. rewrite Hr.
    cbn [Net.route default_job_request].
    unfold Examples.known_defaults.
    destruct (String.eqb folderPath "docs/a"); reflexivity.
  - split; [exact Hret |]. exists body, rest.
    split; [exact Hlog |]. split; [exact Hpaths |]. split.
    + apply Hpairs. split; [left |]. split; [discriminate | reflexivity].
    + destruct (default ∅ (QueryBody.folder_default_job_ids body) !! "docs/b")
        as [g |] eqn:Eg; [| reflexivity].
      apply Hpairs in Eg. destruct Eg as (_ & _ & Eg). discriminate Eg.
Defined.

End QueryFacts.

(** ** Feedback *)

Module FeedbackFacts.
Import Mon Async AsyncFacts MonFacts App AppFacts Js.

Lemma update_feedback_idempotent messageId rating comment messages :
  update_feedback messageId rating comment
    (update_feedback messageId rating comment messages)
  = update_feedback messageId rating comment messages.
Proof.
  induction messages as [| m rest IH]; cbn [update_feedback]; [reflexivity |].
  destruct (bool_decide (Html.messageId m = Some messageId)) eqn:E;
    cbn [update_feedback Html.messageId]; rewrite E.
  - destruct rating, comment; reflexivity.
  - rewrite IH. reflexivity.
Qed.

(** An update keeps the place of the message found for the id and
    the other fields of the transcript. *)
Lemma find_update_feedback messageId rating comment messages :
  find_message messageId (update_feedback messageId rating comment messages)
  = option_map
      (fun m =>
         {| Html.role := Html.role m; Html.content := Html.content m;
            Html.sources := Html.sources m;
            Html.timestamp := Html.timestamp m;
            Html.messageId := Html.messageId m;
            Html.rating :=
              match rating with Some _ => rating | None => Html.rating m end;
            Html.comment :=
              match comment with Some _ => comment | None => Html.comment m end
         |})
      (find_message messageId messages).
Proof.
  unfold find_message.
  induction messages as [| m rest IH]; cbn [update_feedback List.find]; [reflexivity |].
  destruct (bool_decide (Html.messageId m = Some messageId)) eqn:E;
    cbn [List.find Html.messageId]; rewrite E.
  - reflexivity.
  - exact IH.
Qed.

Lemma find_update_feedbacks messageId values messages :
  option_map (fun _ => tt) (find_message messageId (update_feedbacks messageId values messages))
  = option_map (fun _ => tt) (find_message messageId messages).
Proof.
  unfold update_feedbacks. revert messages.
  induction values as [| v values IH]; intros messages; cbn [fold_left]; [reflexivity |].
  rewrite IH, find_update_feedback.
  destruct (find_message messageId messages); reflexivity.
Qed.

Lemma rating_after_update messageId value comment earlier messages :
  option_map Html.rating
    (find_message messageId
       (update_feedback messageId (Some value) comment
          (update_feedbacks messageId earlier messages)))
  = option_map (fun _ => Some value) (find_message messageId messages).
Proof.
  rewrite find_update_feedback.
  pose proof (find_update_feedbacks messageId earlier messages) as H.
  destruct (find_message messageId (update_feedbacks messageId earlier messages)),
    (find_message messageId messages); try discriminate H; reflexivity.
Qed.

Section Feedback.
Variable env : Env.
Variable manager : Manager.t.

Lemma run_submitFeedback messageId rating comment st :
  let server :=
    fst (run_alone env
           (apiRequest manager
              (feedback_request (app st) messageId rating comment)) st) in
  let call := run_alone env (submitFeedback manager messageId rating comment) st in
  fst call = Return tt
  /\ chatMessages (app (snd call))
     = if confirmed server
       then update_feedback messageId rating comment (chatMessages (app st))
       else chatMessages (app st).
Proof.
  intros server call. unfold call, server, run_alone, submitFeedback.
  rewrite run_try_catch, run_bind, run_sync. cbn [read gets].
  rewrite run_bind, run_sync. unfold request.
  cbn [Mon.bind read gets Mon.ret]. rewrite run_bind.
  pose proof (QueryFacts.run_apiRequest_frame env manager
                (feedback_request (app st) messageId rating comment) st)
    as [Happ _].
  unfold run_alone, feedback_request in *.
  destruct (run (settle env) (apiRequest manager _ st)) as [[r | e] st1];
    cbn [fst snd confirmed] in *.
  - destruct (Net.ok r); cbn [negb andb].
    + rewrite run_bind. unfold response_json.
      destruct (Net.json r) as [d |]; cbn [run Async.ret Async.throw].
      * rewrite run_bind, run_sync. cbn [read gets]. rewrite run_sync.
        cbn [assign modify fst snd app upd_app chatMessages set_chatMessages].
        rewrite bool_decide_eq_true_2 by (eexists; reflexivity).
        rewrite Happ. split; reflexivity.
      * rewrite run_sync.
        rewrite bool_decide_eq_false_2 by (intros [x Hx]; discriminate Hx).
        rewrite <- Happ. split; reflexivity.
    + cbn [run Async.throw]. rewrite run_sync. rewrite <- Happ.
      split; reflexivity.
  - rewrite run_sync. rewrite <- Happ. split; reflexivity.
Qed.

Lemma submitFeedback_not_before messageId rating comment st :
  During (fun s => chatMessages (app s) = chatMessages (app st))
    (fun _ _ => True)
    (submitFeedback manager messageId rating comment st).
Proof.
  set (P := fun s : State => chatMessages (app s) = chatMessages (app st)).
  unfold submitFeedback.
  apply during_try_catch with (Q1 := fun _ _ => True).
  - apply during_bind_sync. cbn [read gets].
    apply during_bind_sync. unfold request. cbn [Mon.bind read gets Mon.ret].
    apply during_bind with (Q1 := fun _ s => P s).
    + apply apiRequest_app_only.
      * intros s s' E H. unfold P in *. rewrite <- E. exact H.
      * reflexivity.
    + intros r s _. destruct (negb (Net.ok r)); [constructor; exact Logic.I |].
      unfold response_json. destruct (Net.json r);
        cbn [Async.bind Async.bind_run Async.ret Async.throw];
        [| constructor; exact Logic.I].
      apply during_bind_sync. cbn [read gets].
      apply during_sync. exact Logic.I.
    + intros e s _. exact Logic.I.
  - intros a s _. exact Logic.I.
  - intros e s _. apply during_sync. exact Logic.I.
Qed.

Lemma chatMessages_submit_feedbacks messageId values st :
  all_confirmed env manager messageId values st = true ->
  chatMessages (app (submit_feedbacks env manager messageId values st))
  = update_feedbacks messageId values (chatMessages (app st)).
Proof.
  revert st. induction values as [| v values IH]; intros st H;
    cbn [submit_feedbacks all_confirmed update_feedbacks fold_left] in *;
    [reflexivity |].
  apply andb_prop in H. destruct H as [Hv H].
  rewrite (IH _ H).
  destruct (run_submitFeedback messageId (fst v) (snd v) st) as [_ Hc].
  cbn zeta in Hc. rewrite Hc, Hv. reflexivity.
Qed.
End Feedback.

(** C9, amended. The calls of [submitFeedback] are made one after the
    other, each started when the previous one has ended. A rating is
    submitted for a message after earlier feedback, and then the same
    rating once more; the server confirms each call. After the first
    of the two calls the rating of the message is the one submitted,
    and the second call leaves the transcript as it is. Any call of
    [submitFeedback] completes normally and changes the transcript
    only if the server has confirmed, by the update of the message;
    until its last suspension the transcript is the one the call
    started with. *)
Theorem feedback_rating_is_last_confirmed env manager st messageId
    (earlier : list (option Z * option string)) value comment :
  let last := (Some value, comment) in
  all_confirmed env manager messageId (earlier ++ [last; last]) st = true ->
  let once := submit_feedbacks env manager messageId (earlier ++ [last]) st in
  let twice := submit_feedbacks env manager messageId (earlier ++ [last; last]) st in
  option_map Html.rating (find_message messageId (chatMessages (app once)))
  = option_map (fun _ => Some value)
      (find_message messageId (chatMessages (app st)))
  /\ chatMessages (app twice) = chatMessages (app once)
  /\ forall st' rating' comment',
       let server :=
         fst (run_alone env
                (apiRequest manager
                   (feedback_request (app st') messageId rating' comment')) st') in
       let call :=
         run_alone env (submitFeedback manager messageId rating' comment') st' in
       fst call = Return tt
       /\ chatMessages (app (snd call))
          = (if confirmed server
             then update_feedback messageId rating' comment' (chatMessages (app st'))
             else chatMessages (app st'))
       /\ During (fun s => chatMessages (app s) = chatMessages (app st'))
            (fun _ _ => True)
            (submitFeedback manager messageId rating' comment' st').
Proof.
  intros last Hall once twice.
  assert (Honce : all_confirmed env manager messageId (earlier ++ [last]) st = true).
  { clear once twice. revert st Hall.
    induction earlier as [| v earlier IH]; intros st Hall;
      cbn [List.app all_confirmed] in *.
    - apply andb_prop in Hall. destruct Hall as [-> _]. reflexivity.
    - apply andb_prop in Hall. destruct Hall as [-> Hall]. apply IH, Hall. }
  split; [| split].
  - unfold once. rewrite (chatMessages_submit_feedbacks _ _ _ _ _ Honce).
    unfold update_feedbacks. rewrite fold_left_app. cbn [fold_left fst snd last].
    apply rating_after_update.
  - unfold twice, once.
    rewrite (chatMessages_submit_feedbacks _ _ _ _ _ Hall),
      (chatMessages_submit_feedbacks _ _ _ _ _ Honce).
    unfold update_feedbacks. rewrite !fold_left_app.
    cbn [fold_left fst snd last]. apply update_feedback_idempotent.
  - intros st' rating' comment'. cbn zeta.
    destruct (run_submitFeedback env manager messageId rating' comment' st')
      as [Hret Hchat].
    split; [exact Hret |]. split; [exact Hchat |].
    apply submitFeedback_not_before.
Qed.

Lemma feedback_rating_is_last_confirmed_witness :
  let env := Examples.env0 in
  let manager := Examples.manager0 in
  let st := Examples.answered in
  let once :=
    submit_feedbacks env manager "m-1" [(Some 2, None); (Some 5, None)] st in
  let twice :=
    submit_feedbacks env manager "m-1"
      [(Some 2, None); (Some 5, None); (Some 5, None)] st in
  option_map Html.rating (find_message "m-1" (chatMessages (app once)))
  = Some (Some 5)
  /\ chatMessages (app twice) = chatMessages (app once).
Proof.
  intros env manager st once twice.
  destruct (feedback_rating_is_last_confirmed env manager st "m-1"
              [(Some 2, None)] 5 None) as (H1 & H2 & _).
  - vm_compute. reflexivity.
  - split; [exact H1 | exact H2].
Defined.

(** The claim as it is written fails for calls that overlap. The
    answer is rated 2 and then 5 while the first call is still waiting
    for the server; the server confirms both, the second call first.
    Each call writes its rating when its own confirmation arrives, so
    the message ends with the rating 2, not with the rating submitted
    last; no failure is reported. *)
Lemma overlapping_feedback_keeps_earlier_rating :
  let env := Examples.env0 in
  let manager := Examples.manager0 in
  let clicked := steps env manager Examples.rated_twice Examples.answered_tab in
  let settled := steps env manager Examples.answered_in_reverse clicked in
  let payload rating :=
    Some (Net.FeedbackB
            {| FeedbackPayload.action := "update-feedback";
               FeedbackPayload.message_id := "m-1";
               FeedbackPayload.chat_session_id :=
                 Some "verification_01234567-89ab-4cde-b012-3456789abcde";
               FeedbackPayload.rating := Some rating;
               FeedbackPayload.comment := None |}) in
  map Net.body (outstanding clicked) = [payload 2; payload 5]
  /\ option_map Html.rating
       (find_message "m-1" (chatMessages (app (state clicked))))
     = Some None
  /\ length (pending settled) = 0%nat
  /\ queryStatus_textContent (elements (app (state settled))) = ""
  /\ option_map Html.rating
       (find_message "m-1" (chatMessages (app (state settled))))
     = Some (Some 2).
Proof. vm_compute. repeat split. Qed.

End FeedbackFacts.

(** ** Queries in flight *)

Module LoopFacts.
Import Mon Async AsyncFacts MonFacts App AppFacts Js.

Lemma submit_disabled_app_only : app_only submit_disabled.
Proof. intros st st' E H. unfold submit_disabled in *. rewrite <- E. exact H. Qed.

Lemma submit_disabled_world_stable : world_stable submit_disabled.
Proof. apply app_only_world_stable, submit_disabled_app_only. Qed.

Section Disabled.
Variable env : Env.
Variable manager : Manager.t.
Let P := submit_disabled.

Ltac unchanged :=
  idtac;
  match goal with
  | H : submit_disabled _ |- _ => exact H
  | H : P _ |- _ => exact H
  end.

Ltac go :=
  repeat first
    [ always_step P submit_disabled_world_stable unchanged
    | apply apiRequest_app_only; [apply submit_disabled_app_only | assumption]
    | apply response_json_always; assumption ].

Lemma on_completed_disabled statusData : keeps P (on_completed env statusData).
Proof.
  unfold on_completed, addChatMessage, renderChatHistory, updatePdfList,
    displayPdfInIframe, showMessage, hideLoadingUI.
  repeat keeps_step submit_disabled_world_stable unchanged.
Qed.

Lemma poll_disabled remaining attempts queryId st :
  P st -> Always P (poll env manager remaining attempts queryId st).
Proof.
  revert attempts st. induction remaining as [|remaining IH];
    intros attempts st H; cbn [poll].
  - constructor. exact H.
  - unfold Always, request. go.
    all: first [apply on_completed_disabled | apply IH; assumption].
Qed.

Lemma submitQuery_try_disabled query st :
  P st -> Always P (submitQuery_try env manager query st).
Proof.
  intros H. unfold Always, submitQuery_try, request, addChatMessage,
    renderChatHistory.
  go. apply poll_disabled. assumption. all: go.
Qed.
End Disabled.

(** X11. A call of [submitQuery] that passes the checks of the text
    and of the selection disables the submit button and the text area
    before its first suspension and enables them again only when it
    ends, which it always does normally: as long as no other handler
    has enabled them when the call is resumed, both are disabled each
    time the call is suspended. *)
Theorem submitQuery_holds_controls_until_it_ends env manager st :
  trim (queryInput_value (elements (app st))) <> "" ->
  selectedFolderPaths (app st) <> [] ->
  During submit_disabled
    (fun c s =>
       c = Return tt
       /\ submitQueryBtn_disabled (elements (app s)) = false
       /\ queryInput_disabled (elements (app s)) = false)
    (submitQuery env manager st).
Proof.
  intros Hquery Hpaths. unfold submitQuery.
  apply during_bind_sync. cbn [read gets].
  destruct (trim (queryInput_value (elements (app st)))) as [| c q];
    [contradiction |].
  apply during_bind_sync. cbn [read gets].
  destruct (selectedFolderPaths (app st)) as [| p paths]; [contradiction |].
  apply during_bind_sync. cbn [ui modify].
  apply during_bind_sync. cbn [ui modify].
  apply during_bind_sync. cbn [showLoadingUI Mon.bind ui modify].
  apply during_finally with (Q1 := fun c _ => c = Return tt).
  - apply during_try_catch with (Q1 := fun _ _ => True).
    + eapply during_conseq; [apply (submitQuery_try_disabled env manager) | intros; exact Logic.I].
      split; reflexivity.
    + intros [] s' _. reflexivity.
    + intros e s' _. apply during_sync. reflexivity.
  - intros r s' ->. cbn [submitQuery_finally Mon.bind ui modify].
    split; [reflexivity |]. split; reflexivity.
Qed.

Lemma submitQuery_holds_controls_until_it_ends_witness :
  During submit_disabled
    (fun c s =>
       c = Return tt
       /\ submitQueryBtn_disabled (elements (app s)) = false
       /\ queryInput_disabled (elements (app s)) = false)
    (submitQuery Examples.env0 Examples.manager0
       (Examples.type_query Examples.question Examples.signed_in)).
Proof.
  refine (submitQuery_holds_controls_until_it_ends Examples.env0
            Examples.manager0 _ _ _).
  - vm_compute. discriminate.
  - discriminate.
Defined.

(** C3. [submitQuery] protects the query in flight by disabling the
    submit button and the text area until it ends, and has no check of
    its own. Other handlers enable the text area while the lock is on:
    here the first query is in flight when the search target dialog is
    opened and applied, [applySearchTarget] enables the text area, and
    the Enter key starts a second query. The two start requests are
    outstanding together, and later the status requests of two
    different query ids. *)
Theorem second_query_starts_while_first_in_flight :
  let env := Examples.env_queue in
  let manager := CognitoAuthManager.manager env in
  let enabled_again := steps env manager Examples.first_in_flight Examples.opened in
  let sent := steps env manager Examples.second_sent Examples.opened in
  let polling := steps env manager Examples.both_polling Examples.opened in
  queries_in_flight enabled_again = [Net.QueryStart]
  /\ queryInput_disabled (elements (app (state enabled_again))) = false
  /\ queries_in_flight sent = [Net.QueryStart; Net.QueryStart]
  /\ queries_in_flight polling
     = [Net.QueryStatus (Some "q-2"); Net.QueryStatus (Some "q-3")].
Proof. vm_compute. repeat split. Qed.

(** C8. The defaults are looked up when the dialog is applied, but a
    tick in the dialog changes the selection at once. Here [docs/a] is
    selected and applied, so that its default is held; the dialog is
    opened again, [docs/b] is ticked and [docs/a] unticked, and the
    dialog is cancelled. The query sent next names [docs/b] as its
    only folder and carries the pair of [docs/a]: a pair for a folder
    that is not selected, and none for the selected folder, whose
    default the backend knows. *)
Theorem cancelled_selection_is_queried_with_stale_defaults :
  let env := Examples.env_both_known in
  let manager := CognitoAuthManager.manager env in
  let applied := steps env manager Examples.docs_a_applied Examples.opened_both_known in
  let asked := steps env manager Examples.cancelled_then_asked applied in
  selectedFolderPaths (app (state applied)) = ["docs/a"]
  /\ folderDefaultJobIds (app (state applied)) = {["docs/a" := "job-a"]}
  /\ Examples.both_known "docs/b" = Some "job-b"
  /\ selectedFolderPaths (app (state asked)) = ["docs/b"]
  /\ last (map Net.body (outstanding asked))
     = Some (Some (Net.QueryB
                     {| QueryBody.query := Examples.question;
                        QueryBody.chat_session_id :=
                          Some "verification_01234567-89ab-4cde-b012-3456789abcde";
                        QueryBody.use_agent := true;
                        QueryBody.agent_type := "verification";
                        QueryBody.jobId := None;
                        QueryBody.selected_job_id := None;
                        QueryBody.folder_paths := Some ["docs/b"];
                        QueryBody.folder_default_job_ids :=
                          Some {["docs/a" := "job-a"]} |})).
Proof. vm_compute. repeat split. Qed.

End LoopFacts.

(** ** More on the markup *)

Module MarkupFacts.
Import Js Html HtmlFacts.

(** The entries of the table of [escapeHtml]. *)
Lemma escape_entity_cases c :
  (escape_entity c = None
   /\ c <> "&"%char /\ c <> "<"%char /\ c <> ">"%char
   /\ c <> ascii_of_nat 34 /\ c <> "'"%char)
  \/ (c = "&"%char /\ escape_entity c = Some "&amp;")
  \/ (c = "<"%char /\ escape_entity c = Some "&lt;")
  \/ (c = ">"%char /\ escape_entity c = Some "&gt;")
  \/ (c = ascii_of_nat 34 /\ escape_entity c = Some "&quot;")
  \/ (c = "'"%char /\ escape_entity c = Some "&#039;").
Proof.
  destruct (escape_entity c) as [e |] eqn:E.
  - right. revert E. unfold escape_entity.
    repeat match goal with
           | |- context [Ascii.eqb c ?k] => destruct (Ascii.eqb_spec c k)
           end; intros [= <-]; subst; tauto.
  - left. split; [reflexivity |]. apply escape_entity_none, E.
Qed.

Lemma escapeHtml_injective a : forall b, escapeHtml a = escapeHtml b -> a = b.
Proof.
  induction a as [| c a IH]; intros [| d b] H.
  - reflexivity.
  - exfalso. cbn [escapeHtml] in H.
    destruct (escape_entity_cases d) as [(E & _) | [(_ & E) | [(_ & E) | [(_ & E) | [(_ & E) | (_ & E)]]]]];
      rewrite E in H; discriminate H.
  - exfalso. cbn [escapeHtml] in H.
    destruct (escape_entity_cases c) as [(E & _) | [(_ & E) | [(_ & E) | [(_ & E) | [(_ & E) | (_ & E)]]]]];
      rewrite E in H; discriminate H.
  - cbn [escapeHtml] in H.
    destruct (escape_entity_cases c) as [(Ec & Hc) | [(-> & Ec) | [(-> & Ec) | [(-> & Ec) | [(-> & Ec) | (-> & Ec)]]]]];
    destruct (escape_entity_cases d) as [(Ed & Hd) | [(-> & Ed) | [(-> & Ed) | [(-> & Ed) | [(-> & Ed) | (-> & Ed)]]]]];
      rewrite ?Ec, ?Ed in H; simpl in H; inversion H; subst;
      first [ f_equal; apply IH; assumption | exfalso; tauto ].
Qed.
Lemma length_app (a b : string) :
  String.length (a +:+ b) = (String.length a + String.length b)%nat.
Proof. induction a as [| c a IH]; simpl; [reflexivity | rewrite IH; reflexivity]. Qed.

Ltac eqb_values :=
  repeat match goal with
         | |- context [Ascii.eqb ?a ?b] =>
             let v := eval vm_compute in (Ascii.eqb a b) in
             change (Ascii.eqb a b) with v
         end;
  cbn beta iota.

Lemma length_escapeHtml text :
  String.length (escapeHtml text)
  = (String.length text + 4 * occ "&" text + 3 * occ "<" text
     + 3 * occ ">" text + 5 * occ (ascii_of_nat 34) text
     + 5 * occ "'" text)%nat.
Proof.
  induction text as [| c text IH]; [reflexivity |].
  cbn [escapeHtml].
  destruct (escape_entity_cases c)
    as [(E & H1 & H2 & H3 & H4 & H5) | [(-> & E) | [(-> & E) | [(-> & E) | [(-> & E) | (-> & E)]]]]];
    rewrite E.
  - cbn [String.length occ]. rewrite IH.
    repeat match goal with
           | |- context [Ascii.eqb c ?k] =>
               destruct (Ascii.eqb_spec c k); [contradiction |]
           end.
    lia.
  - rewrite length_app, IH. cbn [String.length occ]. eqb_values. lia.
  - rewrite length_app, IH. cbn [String.length occ]. eqb_values. lia.
  - rewrite length_app, IH. cbn [String.length occ]. eqb_values. lia.
  - rewrite length_app, IH. cbn [String.length occ]. eqb_values. lia.
  - rewrite length_app, IH. cbn [String.length occ]. eqb_values. lia.
Qed.

Lemma escapeHtml_plain text :
  (forall c, escape_entity c <> None -> occ c text = 0%nat) ->
  escapeHtml text = text.
Proof.
  induction text as [| c text IH]; intros H; [reflexivity |].
  cbn [escapeHtml].
  destruct (escape_entity c) as [e |] eqn:E.
  - exfalso. specialize (H c). rewrite E in H. specialize (H ltac:(discriminate)).
    cbn [occ] in H. rewrite Ascii.eqb_refl in H. discriminate H.
  - f_equal. apply IH. intros d Hd. specialize (H d Hd). cbn [occ] in H. lia.
Qed.

(** X1. [escapeHtml] loses nothing and only grows a text by its
    entities: two texts with the same escaped form are equal; the
    escaped form has the length of the text plus 4, 3, 3, 5 and 5 for
    each ampersand, less-than, greater-than, double and single quote;
    and it is the text itself exactly when the text has none of the
    five characters. *)
Theorem escapeHtml_is_injective_and_exact a b :
  (escapeHtml a = escapeHtml b <-> a = b)
  /\ String.length (escapeHtml a)
     = (String.length a + 4 * occ "&" a + 3 * occ "<" a
        + 3 * occ ">" a + 5 * occ (ascii_of_nat 34) a
        + 5 * occ "'" a)%nat
  /\ (escapeHtml a = a
      <-> occ "&" a = 0%nat /\ occ "<" a = 0%nat /\ occ ">" a = 0%nat
          /\ occ (ascii_of_nat 34) a = 0%nat /\ occ "'" a = 0%nat).
Proof.
  split; [| split].
  - split; [apply escapeHtml_injective | intros ->; reflexivity].
  - apply length_escapeHtml.
  - split.
    + intros H. pose proof (length_escapeHtml a) as L. rewrite H in L. lia.
    + intros (H1 & H2 & H3 & H4 & H5). apply escapeHtml_plain. intros c Hc.
      destruct (escape_entity_cases c)
        as [(E & _) | [(-> & _) | [(-> & _) | [(-> & _) | [(-> & _) | (-> & _)]]]]];
        [contradiction | assumption ..].
Qed.
End MarkupFacts.


(** ** The transcript and the selection *)

Module ListFacts.
Import Mon App Js Html.

Lemma update_feedback_first messageId rating comment before m after :
  find_message messageId before = None ->
  Html.messageId m = Some messageId ->
  exists m',
    update_feedback messageId rating comment (before ++ m :: after)
    = (before ++ m' :: after)%list
    /\ Html.rating m' = match rating with Some _ => rating | None => Html.rating m end
    /\ Html.comment m' = match comment with Some _ => comment | None => Html.comment m end.
Proof.
  induction before as [| x before IH]; intros Hnone Hm.
  - cbn [List.app update_feedback]. rewrite (bool_decide_eq_true_2 _ Hm).
    eexists. split; [reflexivity |]. split; reflexivity.
  - unfold find_message in Hnone. cbn [List.find] in Hnone.
    cbn [List.app update_feedback].
    destruct (bool_decide (Html.messageId x = Some messageId)); [discriminate |].
    destruct (IH Hnone Hm) as (m' & -> & Hr & Hc).
    exists m'. split; [reflexivity |]. split; assumption.
Qed.

Lemma update_feedback_touches_one_message messageId rating comment messages :
  let updated := update_feedback messageId rating comment messages in
  length updated = length messages
  /\ map without_feedback updated = map without_feedback messages
  /\ (find_message messageId messages = None -> updated = messages).
Proof.
  cbn zeta. split; [| split].
  - induction messages as [| m rest IH]; cbn [update_feedback]; [reflexivity |].
    destruct (bool_decide _); cbn [length]; [reflexivity | rewrite IH; reflexivity].
  - induction messages as [| m rest IH]; cbn [update_feedback]; [reflexivity |].
    destruct (bool_decide _); cbn [map]; [reflexivity | rewrite IH; reflexivity].
  - unfold find_message.
    induction messages as [| m rest IH]; cbn [update_feedback List.find]; [reflexivity |].
    destruct (bool_decide _); [discriminate |]. intros H. rewrite (IH H). reflexivity.
Qed.
End ListFacts.

Module StateFacts.
Import Mon Async AsyncFacts MonFacts App AppFacts Js Html.

Lemma unique_urls_spec sources : forall seen,
  NoDup (unique_urls sources seen)
  /\ forall u, u ∈ unique_urls sources seen
               <-> u ∈ map fileUrl sources /\ u ∉ seen.
Proof.
  induction sources as [| s sources IH]; intros seen; cbn [unique_urls map].
  - split; [constructor |]. intros u. split; [intros H | intros [H _]]; inversion H.
  - destruct (IH seen) as [Hnd Hin]. destruct (IH (fileUrl s :: seen)) as [Hnd' Hin'].
    case_bool_decide as Hs.
    + split; [exact Hnd |]. intros u. rewrite Hin, elem_of_cons.
      split; [tauto |]. intros [[-> | H] Hn]; [contradiction | tauto].
    + split.
      * constructor; [| exact Hnd']. rewrite Hin'. rewrite elem_of_cons. tauto.
      * intros u. rewrite !elem_of_cons, Hin', elem_of_cons.
        destruct (decide (u = fileUrl s)) as [-> | Hne]; [tauto |]. tauto.
Qed.

Lemma unique_urls_head s sources :
  head (unique_urls (s :: sources) []) = Some (fileUrl s).
Proof.
  cbn [unique_urls].
  rewrite bool_decide_eq_false_2 by (intros H; inversion H). reflexivity.
Qed.

(** X2. [toggleFolderSelection] always returns. After it the folder is
    selected or not as asked and the other folders are as before; a
    selection without repetition stays so; and ticking a folder that
    was not selected and unticking it again gives back the selection
    as it was, in the same order. *)
Theorem toggleFolderSelection_membership folderPath isSelected st :
  let before := selectedFolderPaths (app st) in
  let toggled := toggleFolderSelection folderPath isSelected st in
  let after := selectedFolderPaths (app (snd toggled)) in
  fst toggled = Return tt
  /\ (forall p, p ∈ after
                <-> if isSelected then p = folderPath \/ p ∈ before
                    else p <> folderPath /\ p ∈ before)
  /\ (NoDup before -> NoDup after)
  /\ (isSelected = true -> folderPath ∉ before ->
      selectedFolderPaths
        (app (snd (toggleFolderSelection folderPath false (snd toggled))))
      = before).
Proof.
  cbn zeta. unfold toggleFolderSelection, Mon.bind, read, gets, assign, modify, Mon.ret.
  cbn [fst snd app]. destruct isSelected.
  - case_bool_decide as Hin; cbn [fst snd app upd_app selectedFolderPaths set_selectedFolderPaths].
    + split; [reflexivity |]. split.
      { intros p. split; [tauto |]. intros [-> | H]; assumption. }
      split; [tauto |]. intros _ Hn. contradiction.
    + split; [reflexivity |]. split.
      { intros p. rewrite elem_of_app, list_elem_of_singleton. tauto. }
      split.
      { intros Hnd. apply NoDup_app. split; [exact Hnd |]. split.
        - intros x Hx Hx'. apply list_elem_of_singleton in Hx'. subst. contradiction.
        - apply NoDup_singleton. }
      intros _ _. rewrite filter_app.
      rewrite (filter_cons_False _ folderPath []) by (intros H; apply H; reflexivity).
      rewrite filter_nil, app_nil_r.
      induction (selectedFolderPaths (app st)) as [| x l IH]; [reflexivity |].
      apply not_elem_of_cons in Hin as [Hx Hl].
      rewrite filter_cons_True by congruence. f_equal. apply IH, Hl.
  - cbn [fst snd app upd_app selectedFolderPaths set_selectedFolderPaths].
    split; [reflexivity |]. split.
    { intros p. rewrite list_elem_of_filter. tauto. }
    split; [apply NoDup_filter | discriminate].
Qed.

(** The list grows at its end: a new address is added after those
    already listed, a repeated one is not added. *)
Lemma unique_urls_snoc sources s : forall seen,
  unique_urls (sources ++ [s]) seen
  = (unique_urls sources seen
     ++ if bool_decide (fileUrl s ∈ seen \/ fileUrl s ∈ map fileUrl sources)
        then [] else [fileUrl s])%list.
Proof.
  induction sources as [| x sources IH]; intros seen;
    cbn [List.app unique_urls map].
  - destruct (decide (fileUrl s ∈ seen)) as [Hin | Hin].
    + rewrite (bool_decide_eq_true_2 _ Hin).
      rewrite bool_decide_eq_true_2 by (left; exact Hin). reflexivity.
    + rewrite (bool_decide_eq_false_2 _ Hin).
      rewrite bool_decide_eq_false_2; [reflexivity |].
      intros [H | H]; [contradiction | inversion H].
  - case_bool_decide as Hx.
    + rewrite IH. f_equal.
      rewrite (bool_decide_ext
                 (fileUrl s ∈ seen \/ fileUrl s ∈ fileUrl x :: map fileUrl sources)
                 (fileUrl s ∈ seen \/ fileUrl s ∈ map fileUrl sources));
        [reflexivity |].
      rewrite elem_of_cons.
      split; [| tauto]. intros [H | [-> | H]]; tauto.
    + rewrite IH. cbn [List.app]. f_equal. f_equal.
      rewrite (bool_decide_ext
                 (fileUrl s ∈ seen \/ fileUrl s ∈ fileUrl x :: map fileUrl sources)
                 (fileUrl s ∈ fileUrl x :: seen
                  \/ fileUrl s ∈ map fileUrl sources));
        [reflexivity |].
      rewrite !elem_of_cons. tauto.
Qed.

Lemma unique_urls_first_appearance sources :
  unique_urls sources []
  = reverse (remove_dups (reverse (map fileUrl sources))).
Proof.
  induction sources as [| s sources IH] using rev_ind; [reflexivity |].
  rewrite unique_urls_snoc, map_app, reverse_app. cbn [map reverse].
  change (reverse [fileUrl s]) with [fileUrl s]. cbn [List.app remove_dups].
  rewrite IH.
  destruct (decide_rel elem_of (fileUrl s) (reverse (map fileUrl sources)))
    as [Hin | Hin].
  - rewrite bool_decide_eq_true_2, app_nil_r; [reflexivity |].
    right. apply elem_of_reverse. exact Hin.
  - rewrite bool_decide_eq_false_2, reverse_cons; [reflexivity |].
    intros [H | H]; [inversion H |]. apply Hin, elem_of_reverse. exact H.
Qed.

(** X3. [updatePdfList] lists the address of each source, which is its
    [presignedUrl] or else its [sourceUri] as it is: each address
    appears once, in the order of first appearance, [null],
    [undefined] and the empty string being three different addresses.
    With at least one source the index is set to 0 and the frame of
    the viewer gets the address of the first source; with none the
    list is emptied and nothing else changes. *)
Theorem updatePdfList_lists_each_address_once sources st :
  let updated := updatePdfList sources st in
  let uris := currentPdfUris (app (snd updated)) in
  fst updated = Return tt
  /\ uris = reverse (remove_dups (reverse (map fileUrl sources)))
  /\ NoDup uris
  /\ (forall u, u ∈ uris <-> u ∈ map fileUrl sources)
  /\ head uris = head (map fileUrl sources)
  /\ match sources with
     | [] => app (snd updated) = set_currentPdfUris [] (app st)
     | first :: _ =>
         currentPdfIndex (app (snd updated)) = 0%nat
         /\ pdfViewerContainer_src (elements (app (snd updated)))
            = Some (to_String (fileUrl first))
     end.
Proof.
  cbn zeta. destruct (unique_urls_spec sources []) as [Hnd Hin].
  assert (Huris : currentPdfUris (app (snd (updatePdfList sources st)))
                  = unique_urls sources []
                  /\ fst (updatePdfList sources st) = Return tt).
  { unfold updatePdfList, Mon.bind, assign, modify, Mon.ret.
    cbn [fst snd]. destruct (unique_urls sources []); split; reflexivity. }
  destruct Huris as [Huris Hret]. rewrite Huris.
  split; [exact Hret |]. split; [apply unique_urls_first_appearance |].
  split; [exact Hnd |]. split.
  { intros u. rewrite Hin. split; [tauto |]. intros H. split; [exact H |].
    intros H'; inversion H'. }
  destruct sources as [| s sources].
  - split; reflexivity.
  - rewrite unique_urls_head. split; [reflexivity |].
    unfold updatePdfList. cbn [unique_urls].
    rewrite bool_decide_eq_false_2 by (intros H; inversion H).
    split; reflexivity.
Qed.

(** X4. [addChatMessage] appends exactly one message, without
    feedback, and renders the transcript: the markup of the chat
    history is the markup of the new transcript. A message id that is
    given is kept; an assistant message without one gets the id made
    of the ISO time and a random suffix, so that every assistant message
    added has a non-empty id. *)
Theorem addChatMessage_appends_one_message env role content sources messageId st :
  let added := addChatMessage env role content sources messageId st in
  fst added = Return tt
  /\ chatHistory_innerHTML (elements (app (snd added)))
     = chatHtml (chatMessages (app (snd added)))
  /\ exists m,
       chatMessages (app (snd added)) = (chatMessages (app st) ++ [m])%list
       /\ Html.role m = role /\ Html.content m = content
       /\ Html.sources m = sources
       /\ Html.rating m = None /\ Html.comment m = None
       /\ Html.messageId m
          = (if truthy messageId then messageId
             else if String.eqb role "assistant"
                  then Some (toISOString env (clock env (clock_reads (world st)))
                             +:+ "#" +:+ random36 env (random_draws (world st)))
                  else messageId)
       /\ (if String.eqb role "assistant" then truthy (Html.messageId m) else true)
          = true.
Proof.
  cbn zeta.
  unfold addChatMessage, renderChatHistory, Mon.bind, Mon.ret, in_world,
    Browser.new_Date, Browser.Date_now, Browser.Math_random36, read, gets,
    assign, ui, modify.
  destruct (truthy messageId) eqn:Ht; cbn [negb andb fst snd].
  - split; [reflexivity |]. split; [reflexivity |].
    eexists. split; [reflexivity |]. cbn. repeat split.
    destruct (String.eqb role "assistant"); [exact Ht | reflexivity].
  - destruct (String.eqb role "assistant") eqn:Hr; cbn [fst snd].
    + split; [reflexivity |]. split; [reflexivity |].
      eexists. split; [reflexivity |]. cbn. repeat split.
      destruct (toISOString env _); reflexivity.
    + split; [reflexivity |]. split; [reflexivity |].
      eexists. split; [reflexivity |]. cbn. repeat split.
Qed.

Section Feedback.
Variable env : Env.
Variable manager : Manager.t.

(** The fields of the application after a call of [submitFeedback]. *)
Lemma run_submitFeedback_app messageId rating comment st :
  let server :=
    fst (run_alone env
           (apiRequest manager
              (feedback_request (app st) messageId rating comment)) st) in
  let call := run_alone env (submitFeedback manager messageId rating comment) st in
  if confirmed server
  then app (snd call)
       = set_chatMessages
           (update_feedback messageId rating comment (chatMessages (app st)))
           (app st)
  else exists error,
         app (snd call)
         = upd_elements (set_queryStatus_display "block")
             (upd_elements (set_queryStatus_className "status-message error")
                (upd_elements
                   (set_queryStatus_textContent
                      ("フィードバック送信に失敗しました: " +:+ error))
                   (app st))).
Proof.
  intros server call. unfold call, server, run_alone, submitFeedback.
  rewrite run_try_catch, run_bind, run_sync. cbn [read gets].
  rewrite run_bind, run_sync. unfold request.
  cbn [Mon.bind read gets Mon.ret]. rewrite run_bind.
  pose proof (QueryFacts.run_apiRequest_frame env manager
                (feedback_request (app st) messageId rating comment) st)
    as [Happ _].
  unfold run_alone, feedback_request in *.
  destruct (run (settle env) (apiRequest manager _ st)) as [[r | e] st1];
    cbn [fst snd confirmed] in *.
  - destruct (Net.ok r); cbn [negb andb].
    + rewrite run_bind. unfold response_json.
      destruct (Net.json r) as [d |]; cbn [run Async.ret Async.throw].
      * rewrite run_bind, run_sync. cbn [read gets]. rewrite run_sync.
        cbn [assign modify fst snd app upd_app].
        rewrite bool_decide_eq_true_2 by (eexists; reflexivity).
        rewrite Happ. reflexivity.
      * rewrite run_sync.
        rewrite bool_decide_eq_false_2 by (intros [x Hx]; discriminate Hx).
        eexists. rewrite <- Happ. reflexivity.
    + cbn [run Async.throw]. rewrite run_sync. eexists. rewrite <- Happ.
      reflexivity.
  - rewrite run_sync. eexists. rewrite <- Happ. reflexivity.
Qed.
End Feedback.

(** X5. Whatever the server answers, [submitFeedback] changes nothing of
    the transcript but the feedback of messages: roles, texts, sources,
    times and ids are as before, and with no message of the given id
    the transcript is unchanged. It does not render the transcript
    again, and it leaves the search target, the session id and the
    query controls as they are. *)
Theorem submitFeedback_changes_only_feedback env manager messageId rating comment st :
  let before := app st in
  let after :=
    app (snd (run_alone env (submitFeedback manager messageId rating comment) st)) in
  map without_feedback (chatMessages after)
  = map without_feedback (chatMessages before)
  /\ (find_message messageId (chatMessages before) = None ->
      chatMessages after = chatMessages before)
  /\ chatHistory_innerHTML (elements after) = chatHistory_innerHTML (elements before)
  /\ selectedFolderPaths after = selectedFolderPaths before
  /\ selectedJobId after = selectedJobId before
  /\ folderDefaultJobIds after = folderDefaultJobIds before
  /\ chatSessionId after = chatSessionId before
  /\ queryInput_value (elements after) = queryInput_value (elements before)
  /\ queryInput_disabled (elements after) = queryInput_disabled (elements before)
  /\ submitQueryBtn_disabled (elements after)
     = submitQueryBtn_disabled (elements before).
Proof.
  cbn zeta.
  pose proof (run_submitFeedback_app env manager messageId rating comment st) as H.
  cbn zeta in H.
  destruct (confirmed _) in H.
  - rewrite H. cbn [chatMessages set_chatMessages elements selectedFolderPaths
                    selectedJobId folderDefaultJobIds chatSessionId].
    destruct (ListFacts.update_feedback_touches_one_message
                messageId rating comment (chatMessages (app st)))
      as (_ & Hmap & Hnone).
    cbn zeta in Hmap, Hnone.
    split; [exact Hmap |]. split; [exact Hnone |]. repeat split.
  - destruct H as [error E]. rewrite E. repeat split.
Qed.
End StateFacts.


(** ** Session identifiers *)

Module SessionMore.
Import Mon Async AsyncFacts MonFacts App AppFacts Js.

Lemma upd_random_draws_succ k w :
  upd_random_draws (Nat.add k) (upd_random_draws S w)
  = upd_random_draws (Nat.add (S k)) w.
Proof.
  unfold upd_random_draws.
  cbn [localStorage storedFolderPaths sessionStorage location_href
       navigation_type manager_published sessionToken sdk_ready clock_reads
       random_draws fetches auth_calls timers].
  replace (k + S (random_draws w))%nat with (S k + random_draws w)%nat by lia.
  reflexivity.
Qed.

Lemma variant_digit r :
  0 <= r < 16 ->
  exists c, to_string16 (Z.lor (Z.land r 3) 8) = String c EmptyString
            /\ c ∈ list_ascii_of_string "89ab".
Proof.
  intros Hr.
  assert (H : r = 0 \/ r = 1 \/ r = 2 \/ r = 3 \/ r = 4 \/ r = 5 \/ r = 6 \/ r = 7
              \/ r = 8 \/ r = 9 \/ r = 10 \/ r = 11 \/ r = 12 \/ r = 13 \/ r = 14
              \/ r = 15) by lia.
  repeat (destruct H as [-> | H]); try subst r;
    (eexists; split; [reflexivity | simpl; HtmlFacts.in_list]).
Qed.

(** The replacement always returns and draws one number for each
    character it replaces. *)
Lemma replace_xy_draws env template : forall w,
  exists s,
    replace_xy env template w
    = (Return s, upd_random_draws (Nat.add (replaced template)) w).
Proof.
  induction template as [| t template IH]; intros w; cbn [replace_xy replaced].
  - exists EmptyString. destruct w; reflexivity.
  - destruct (Ascii.eqb t "x" || Ascii.eqb t "y").
    + destruct (IH (upd_random_draws S w)) as (s & E).
      unfold Mon.bind, Browser.Math_random16. cbn beta iota. rewrite E.
      eexists. cbn [Mon.ret]. rewrite upd_random_draws_succ. reflexivity.
    + destruct (IH w) as (s & E). unfold Mon.bind. rewrite E.
      eexists. reflexivity.
Qed.

Lemma generateUUID_draws env w :
  exists uuid,
    generateUUID env w = (Return uuid, upd_random_draws (Nat.add 31) w).
Proof. apply (replace_xy_draws env "xxxxxxxx-xxxx-4xxx-yxxx-xxxxxxxxxxxx"). Qed.

Section Uuid.
Variable env : Env.
Hypothesis Hrange : forall n, 0 <= random16 env n < 16.

Lemma replace_xy_fills template : forall w,
  exists s,
    replace_xy env template w
    = (Return s, upd_random_draws (Nat.add (replaced template)) w)
    /\ fills_template template s = true.
Proof.
  induction template as [| t template IH]; intros w; cbn [replace_xy replaced].
  - exists EmptyString. split; [| reflexivity]. destruct w; reflexivity.
  - destruct (Ascii.eqb t "x") eqn:Ex; cbn [orb].
    + destruct (IH (upd_random_draws S w)) as (s & E & Hs).
      destruct (SessionFacts.to_string16_digit (random16 env (random_draws w))
                  (Hrange _)) as (c & Ec & Hc).
      unfold Mon.bind, Browser.Math_random16. cbn beta iota.
      rewrite E, Ec. exists (String c s). split.
      * cbn [Mon.ret String.append]. rewrite upd_random_draws_succ.
        reflexivity.
      * cbn [fills_template]. rewrite Ex, Hs, (bool_decide_eq_true_2 _ Hc).
        reflexivity.
    + destruct (Ascii.eqb t "y") eqn:Ey.
      * destruct (IH (upd_random_draws S w)) as (s & E & Hs).
        destruct (variant_digit (random16 env (random_draws w)) (Hrange _))
          as (c & Ec & Hc).
        unfold Mon.bind, Browser.Math_random16. cbn beta iota.
        rewrite E, Ec. exists (String c s). split.
        -- cbn [Mon.ret String.append]. rewrite upd_random_draws_succ.
           reflexivity.
        -- cbn [fills_template]. rewrite Ex, Ey, Hs, (bool_decide_eq_true_2 _ Hc).
           reflexivity.
      * destruct (IH w) as (s & E & Hs).
        unfold Mon.bind. rewrite E. exists (String t s). split; [reflexivity |].
        cbn [fills_template]. rewrite Ex, Ey, Hs, Ascii.eqb_refl. reflexivity.
Qed.
End Uuid.

(** X6. With [Math.random() * 16 | 0] in its range 0 to 15,
    [generateUUID] returns a string of 36 characters of the shape
    [xxxxxxxx-xxxx-4xxx-yxxx-xxxxxxxxxxxx]: lower-case hexadecimal
    digits, the hyphens and the version digit 4 in place, and one of
    [8], [9], [a], [b] as the variant digit. It draws 31 random
    numbers. *)
Theorem generateUUID_has_version_4_shape env w :
  (forall n, 0 <= random16 env n < 16) ->
  exists uuid,
    generateUUID env w = (Return uuid, upd_random_draws (Nat.add 31) w)
    /\ fills_template "xxxxxxxx-xxxx-4xxx-yxxx-xxxxxxxxxxxx" uuid = true
    /\ String.length uuid = 36%nat.
Proof.
  intros Hrange.
  destruct (replace_xy_fills env Hrange "xxxxxxxx-xxxx-4xxx-yxxx-xxxxxxxxxxxx" w)
    as (s & E & Hs).
  exists s. split; [exact E |]. split; [exact Hs |].
  clear E.
  repeat (destruct s as [| ? s]; [discriminate Hs |]; cbn [fills_template] in Hs;
          apply andb_prop in Hs as [_ Hs]).
  destruct s; [reflexivity | discriminate Hs].
Qed.

Lemma generateUUID_has_version_4_shape_witness :
  exists uuid,
    generateUUID Examples.env0 Examples.fresh_world
    = (Return uuid, upd_random_draws (Nat.add 31) Examples.fresh_world)
    /\ fills_template "xxxxxxxx-xxxx-4xxx-yxxx-xxxxxxxxxxxx" uuid = true
    /\ String.length uuid = 36%nat.
Proof.
  apply (generateUUID_has_version_4_shape Examples.env0 Examples.fresh_world).
  intros n. cbn [random16 Examples.env0].
  pose proof (Nat.mod_upper_bound n 16). lia.
Defined.

(** X7. [initializeChatSession] always ends normally with a session
    id that is not empty and that the tab holds under
    [verificationPlanSessionId]. An id already stored there is taken as
    it is and nothing else changes; otherwise the id is a new
    identifier after the prefix [verification_]. A second call changes
    nothing. *)
Theorem initializeChatSession_settles_the_session_id env st :
  let key := "verificationPlanSessionId" in
  let stored := sessionStorage (world st) !! key in
  let first := initializeChatSession env st in
  fst first = Return tt
  /\ truthy (chatSessionId (app (snd first))) = true
  /\ sessionStorage (world (snd first)) !! key = chatSessionId (app (snd first))
  /\ (if truthy stored
      then snd first = upd_app (set_chatSessionId stored) st
      else exists uuid,
             chatSessionId (app (snd first)) = Some ("verification_" +:+ uuid)
             /\ random_draws (world (snd first)) = (31 + random_draws (world st))%nat)
  /\ initializeChatSession env (snd first) = (Return tt, snd first).
Proof.
  cbn zeta. destruct st as [w a l].
  unfold initializeChatSession, assign, Mon.bind, in_world,
    Browser.sessionStorage_getItem, Browser.sessionStorage_setItem,
    Mon.gets, Mon.modify.
  cbn [world fst snd set_world].
  destruct (truthy (sessionStorage w !! "verificationPlanSessionId")) eqn:Ht;
    cbn [negb].
  - cbn [fst snd app upd_app chatSessionId set_chatSessionId world set_world].
    rewrite Ht. cbn [negb fst snd]. repeat split; assumption.
  - destruct (generateUUID_draws env w) as (uuid & E).
    cbn [world set_world]. rewrite E.
    cbn [fst snd app upd_app chatSessionId set_chatSessionId world set_world
         sessionStorage upd_sessionStorage upd_random_draws random_draws].
    rewrite lookup_insert.
    destruct (decide ("verificationPlanSessionId" = "verificationPlanSessionId"));
      [| congruence].
    cbn [truthy String.append negb fst snd].
    split; [reflexivity |]. split; [reflexivity |]. split; [reflexivity |].
    split; [exists uuid; split; reflexivity |]. reflexivity.
Qed.

Lemma resetChatSession_other_keys env st key :
  key <> "chatSessionId" ->
  sessionStorage (world (snd (resetChatSession env st))) !! key
  = sessionStorage (world st) !! key.
Proof.
  intros Hkey. destruct st as [w a l].
  unfold resetChatSession, renderChatHistory, showMessage, assign, ui, read,
    Mon.bind, in_world, Browser.sessionStorage_removeItem,
    Browser.sessionStorage_setItem, Mon.gets, Mon.modify.
  cbn [world set_world].
  destruct (generateUUID_draws env (upd_sessionStorage (delete "chatSessionId") w))
    as (uuid & E).
  rewrite E. cbn.
  rewrite lookup_insert_ne by congruence.
  apply lookup_delete_ne. congruence.
Qed.

Lemma sessionStorage_reload_world w :
  sessionStorage (reload_world w) = sessionStorage w.
Proof. reflexivity. Qed.

(** X8. [resetChatSession] always ends normally. It empties the
    transcript, the list of addresses and the viewer, and renders the
    empty transcript; it leaves the selected folders, the job
    reference, the defaults and the state of the query controls as
    they are. The new session id is the identifier it generates, with
    31 random draws, and is stored under [chatSessionId]; every other
    item of [sessionStorage], [localStorage] and the record of calls
    are unchanged: no request is made. *)
Theorem resetChatSession_clears_chat_keeps_target env st :
  let after := snd (resetChatSession env st) in
  fst (resetChatSession env st) = Return tt
  /\ (chatMessages (app after) = []
      /\ currentPdfUris (app after) = []
      /\ currentPdfIndex (app after) = 0%nat
      /\ pdfViewerContainer_src (elements (app after)) = None
      /\ chatHistory_innerHTML (elements (app after)) = Html.chatHtml [])
  /\ (selectedFolderPaths (app after) = selectedFolderPaths (app st)
      /\ selectedJobId (app after) = selectedJobId (app st)
      /\ folderDefaultJobIds (app after) = folderDefaultJobIds (app st)
      /\ queryInput_disabled (elements (app after))
         = queryInput_disabled (elements (app st))
      /\ submitQueryBtn_disabled (elements (app after))
         = submitQueryBtn_disabled (elements (app st)))
  /\ (exists uuid,
        chatSessionId (app after) = Some uuid
        /\ sessionStorage (world after) !! "chatSessionId" = Some uuid
        /\ random_draws (world after) = (31 + random_draws (world st))%nat)
  /\ (forall key, key <> "chatSessionId" ->
        sessionStorage (world after) !! key = sessionStorage (world st) !! key)
  /\ localStorage (world after) = localStorage (world st)
  /\ storedFolderPaths (world after) = storedFolderPaths (world st)
  /\ log after = log st.
Proof.
  cbn zeta. destruct st as [w a l].
  unfold resetChatSession, renderChatHistory, showMessage, assign, ui, read,
    Mon.bind, in_world, Browser.sessionStorage_removeItem,
    Browser.sessionStorage_setItem, Mon.gets, Mon.modify.
  cbn [world set_world].
  destruct (generateUUID_draws env (upd_sessionStorage (delete "chatSessionId") w))
    as (uuid & E).
  rewrite E.
  cbn.
  split; [reflexivity |]. split; [repeat split |]. split; [repeat split |].
  split; [exists uuid; split; [reflexivity |]; split; [| reflexivity];
          apply lookup_insert_eq |].
  split; [| repeat split].
  intros key Hkey. rewrite lookup_insert_ne by congruence.
  apply lookup_delete_ne. congruence.
Qed.

(** X9. The id that [initializeChatSession] reads is stored under
    [verificationPlanSessionId], which [resetChatSession] does not
    write. So when the tab holds a session id there, a reset followed
    by a reload of the page brings back that id: the application
    continues the session that was reset. *)
Theorem page_load_after_reset_restores_stored_session
    env manager apiEndpoint dom st sid :
  sessionStorage (world st) !! "verificationPlanSessionId" = Some sid ->
  sid <> "" ->
  let after := snd (resetChatSession env st) in
  let next := fst (page_load env manager apiEndpoint dom (reload_world (world after))) in
  chatSessionId (app next) = Some sid.
Proof.
  intros Hsid Hne after next.
  apply SessionFacts.page_load_stored_session; [| exact Hne].
  rewrite sessionStorage_reload_world.
  unfold after. rewrite resetChatSession_other_keys by discriminate.
  exact Hsid.
Qed.

Lemma loaded_session_is_stored :
  sessionStorage (world Examples.loaded) !! "verificationPlanSessionId"
  = Some "verification_01234567-89ab-4cde-b012-3456789abcde".
Proof. vm_compute. reflexivity. Qed.

Lemma page_load_after_reset_restores_stored_session_witness :
  let after := snd (resetChatSession Examples.env0 Examples.loaded) in
  let next :=
    fst (page_load Examples.env0 Examples.manager0 "https://api.example"
           Examples.dom0 (reload_world (world after))) in
  chatSessionId (app next)
  = Some "verification_01234567-89ab-4cde-b012-3456789abcde".
Proof.
  refine (page_load_after_reset_restores_stored_session
            Examples.env0 Examples.manager0 "https://api.example" Examples.dom0
            Examples.loaded "verification_01234567-89ab-4cde-b012-3456789abcde"
            loaded_session_is_stored _).
  discriminate.
Defined.

End SessionMore.
(** ** Page load and sign-out *)

Module LoadFacts.
Import Mon Async AsyncFacts MonFacts App AppFacts Js.

Section Lookup.
Variable manager : Manager.t.
Variable a0 : t.
Let P (s : State) : Prop := exists ids, app s = set_folderDefaultJobIds ids a0.

Lemma only_defaults_app_only : app_only P.
Proof. intros st st' E [ids H]. exists ids. rewrite <- E. exact H. Qed.

Ltac changed :=
  idtac;
  match goal with
  | H : P _ |- _ => destruct H as [? H]; eexists; cbn; try rewrite H; reflexivity
  | H : ex _ |- _ => destruct H as [? H]; eexists; cbn; try rewrite H; reflexivity
  end.

Ltac go :=
  repeat first
    [ always_step P (app_only_world_stable _ only_defaults_app_only) changed
    | apply apiRequest_app_only; [exact only_defaults_app_only | assumption]
    | apply response_json_always; assumption ].

(** [loadDefaultJobIdsForFolders] changes no field of the application
    but the dictionary of defaults. *)
Lemma loadDefaultJobIdsForFolders_only_defaults st :
  P st -> Always P (loadDefaultJobIdsForFolders manager st).
Proof.
  intros H. unfold Always, loadDefaultJobIdsForFolders. go.
  apply always_for_each; [| assumption].
  intros ? ? ?. unfold Always, loadDefaultJobId, request. go.
Qed.
End Lookup.

Lemma spawn_lookup manager st :
  exists tasks st' ids,
    spawn (loadDefaultJobIdsForFolders manager) st = (Return tasks, st')
    /\ (length tasks <= 1)%nat
    /\ app st' = set_folderDefaultJobIds ids (app st).
Proof.
  pose proof (keeps_spawn _ _ (loadDefaultJobIdsForFolders_only_defaults manager (app st)) st)
    as H.
  unfold spawn in *.
  destruct (loadDefaultJobIdsForFolders manager st) as [c s | op s resume];
    cbn [suspended snd] in *.
  - destruct H as [ids H].
    { exists (folderDefaultJobIds (app st)). destruct (app st); reflexivity. }
    eexists _, _, ids. split; [reflexivity |]. split; [cbn; lia | exact H].
  - destruct H as [ids H].
    { exists (folderDefaultJobIds (app st)). destruct (app st); reflexivity. }
    eexists _, _, ids. split; [reflexivity |]. split; [cbn; lia | exact H].
Qed.

Lemma set_defaults_fields ids a :
  selectedFolderPaths (set_folderDefaultJobIds ids a) = selectedFolderPaths a
  /\ selectedJobId (set_folderDefaultJobIds ids a) = selectedJobId a
  /\ elements (set_folderDefaultJobIds ids a) = elements a
  /\ isHardRefresh (set_folderDefaultJobIds ids a) = isHardRefresh a.
Proof. repeat split. Qed.

Lemma loadSearchTargetFromStorage_hard manager st :
  isHardRefresh (app st) = true ->
  exists st',
    loadSearchTargetFromStorage manager st = (Return [], st')
    /\ selectedFolderPaths (app st') = []
    /\ queryInput_disabled (elements (app st')) = true
    /\ queryInput_placeholder (elements (app st'))
       = "検索対象を上のボタンから選択してください。"
    /\ storedFolderPaths (world st') = NoItem
    /\ localStorage (world st') !! "selectedJobId" = None
    /\ selectedJobId (app st') = None
    /\ folderDefaultJobIds (app st') = ∅.
Proof.
  intros Hhard. unfold loadSearchTargetFromStorage.
  unfold Mon.bind at 1. unfold read at 1. unfold gets at 1. cbn beta iota.
  rewrite Hhard.
  cbv [Mon.bind Mon.ret Mon.modify in_world Browser.localStorage_removeItem
       updateCurrentFolderDisplay updateQueryInputPlaceholder
       renderChatHistory assign ui read gets emit modify].
  cbn. eexists. split; [reflexivity |]. cbn.
  repeat split. apply lookup_delete_eq.
Qed.

(** The end of [loadSearchTargetFromStorage]: the display of the
    selection. *)
Lemma display_selection {A} (tasks : A) st :
  exists st',
    Mon.bind updateCurrentFolderDisplay
      (fun _ => Mon.bind updateQueryInputPlaceholder
         (fun _ => Mon.bind renderChatHistory (fun _ => Mon.ret tasks))) st
    = (Return tasks, st')
    /\ world st' = world st
    /\ selectedFolderPaths (app st') = selectedFolderPaths (app st)
    /\ queryInput_disabled (elements (app st'))
       = queryInput_disabled (elements (app st))
    /\ queryInput_placeholder (elements (app st'))
       = (if bool_decide (selectedFolderPaths (app st) = [])
          then "検索対象を上のボタンから選択してください。"
          else "質問を入力してください...").
Proof.
  unfold updateCurrentFolderDisplay, updateQueryInputPlaceholder,
    renderChatHistory, Mon.bind, Mon.ret, read, gets, ui, modify.
  cbn [app upd_app selectedFolderPaths upd_elements].
  destruct (selectedFolderPaths (app st)) as [| p [| q r]] eqn:E;
    cbn [app upd_app selectedFolderPaths upd_elements];
    rewrite ?E; eexists; (split; [reflexivity |]); repeat split.
  all: exact E.
Qed.

Lemma loadSearchTargetFromStorage_soft manager st :
  isHardRefresh (app st) = false ->
  exists tasks st',
    loadSearchTargetFromStorage manager st = (Return tasks, st')
    /\ (length tasks <= 1)%nat
    /\ (restored_paths st = [] -> tasks = [])
    /\ selectedFolderPaths (app st') = restored_paths st
    /\ queryInput_disabled (elements (app st'))
       = bool_decide (restored_paths st = [])
    /\ queryInput_placeholder (elements (app st'))
       = (if bool_decide (restored_paths st = [])
          then "検索対象を上のボタンから選択してください。"
          else "質問を入力してください...").
Proof.
  intros Hsoft. unfold loadSearchTargetFromStorage.
  unfold Mon.bind at 1. unfold read at 1. unfold gets at 1. cbn beta iota.
  rewrite Hsoft.
  unfold Mon.bind at 1. unfold gets at 1. cbn beta iota.
  set (st1 := match storedFolderPaths (world st) with
              | Paths l => upd_app (set_selectedFolderPaths l) st
              | Malformed => upd_app (set_selectedFolderPaths []) st
              | NoItem => st
              end).
  assert (H1 : world st1 = world st
               /\ selectedFolderPaths (app st1) = restored_paths st).
  { unfold st1, restored_paths. destruct (storedFolderPaths (world st));
      split; reflexivity. }
  destruct H1 as [Hw1 Hsel1].
  unfold Mon.bind at 1.
  replace (match storedFolderPaths (world st) with
           | NoItem => Mon.ret ()
           | Paths l => assign (set_selectedFolderPaths l)
           | Malformed => assign (set_selectedFolderPaths [])
           end st) with (Return tt, st1)
    by (unfold st1; destruct (storedFolderPaths (world st)); reflexivity).
  unfold Mon.bind at 1. unfold in_world, Browser.localStorage_getItem, gets.
  cbn beta iota.
  set (st2 := if truthy (localStorage (world st1) !! "selectedJobId")
              then upd_app (set_selectedJobId
                              (localStorage (world st1) !! "selectedJobId"))
                     (set_world (world st1) st1)
              else set_world (world st1) st1).
  assert (H2 : world st2 = world st
               /\ selectedFolderPaths (app st2) = restored_paths st).
  { unfold st2. destruct (truthy _); split; cbn; assumption. }
  destruct H2 as [Hw2 Hsel2].
  unfold Mon.bind at 1.
  replace ((if truthy (localStorage (world st1) !! "selectedJobId")
            then assign (set_selectedJobId
                           (localStorage (world st1) !! "selectedJobId"))
            else Mon.ret ()) (set_world (world st1) st1))
    with (Return tt, st2)
    by (unfold st2; destruct (truthy _); reflexivity).
  unfold Mon.bind at 1. unfold read at 1. unfold gets at 1. cbn beta iota.
  unfold Mon.bind at 1.
  clearbody st2. clear st1 Hw1 Hsel1.
  destruct (selectedFolderPaths (app st2)) as [| p paths] eqn:Epaths.
  - change (Mon.bind (ui (set_queryInput_disabled true))
              (fun _ => Mon.bind (emit (Scheduled "openSearchTargetModal" 100))
                          (fun _ => Mon.ret [])) st2)
      with (@Return (list Task) [],
            upd_log (fun l => (l ++ [Scheduled "openSearchTargetModal" 100])%list)
              (upd_app (upd_elements (set_queryInput_disabled true)) st2)).
    cbn beta iota.
    match goal with
    | |- context [Mon.bind updateCurrentFolderDisplay _ ?s] =>
        destruct (display_selection (@nil Task) s) as (st' & E & Hw & Hsel & Hdis & Hph)
    end.
    rewrite E. exists [], st'.
    cbn [world app upd_log upd_app selectedFolderPaths upd_elements elements
         queryInput_disabled set_queryInput_disabled] in Hw, Hsel, Hdis, Hph.
    rewrite <- Hsel2, Hsel, Hdis, Hph, Epaths.
    split; [reflexivity |]. split; [cbn; lia |]. repeat split.
  - destruct (spawn_lookup manager st2) as (tasks & st3 & ids & E3 & Hlen & Happ3).
    unfold Mon.bind at 1. rewrite E3.
    change (Mon.bind (ui (set_queryInput_disabled false))
              (fun _ => Mon.ret tasks) st3)
      with (Return tasks, upd_app (upd_elements (set_queryInput_disabled false)) st3).
    cbn beta iota.
    match goal with
    | |- context [Mon.bind updateCurrentFolderDisplay _ ?s] =>
        destruct (display_selection tasks s) as (st' & E & Hw & Hsel & Hdis & Hph)
    end.
    rewrite E. exists tasks, st'.
    cbn [world app upd_log upd_app selectedFolderPaths upd_elements elements
         queryInput_disabled set_queryInput_disabled] in Hw, Hsel, Hdis, Hph.
    rewrite Happ3 in Hsel, Hph.
    cbn [selectedFolderPaths set_folderDefaultJobIds] in Hsel, Hph.
    rewrite Epaths in Hsel, Hph.
    rewrite <- Hsel2, Hsel, Hdis, Hph.
    split; [reflexivity |]. split; [exact Hlen |].
    split; [discriminate |]. repeat split.
Qed.

(** X12. [loadSearchTargetFromStorage] never throws and leaves at
    most one call running, the lookup of the defaults, and none when
    no folder is selected. On a hard refresh the selection is emptied
    and the stored selection, the stored job reference, the job
    reference and the defaults are cleared; otherwise the selection is
    the stored one (empty if the stored text is not JSON, unchanged if
    there is none). In both cases the text area is disabled exactly
    when no folder is selected, and its placeholder says which. *)
Theorem loadSearchTargetFromStorage_restores_selection manager st :
  let loaded := loadSearchTargetFromStorage manager st in
  let st' := snd loaded in
  let hard := isHardRefresh (app st) in
  let selected := selectedFolderPaths (app st') in
  (exists tasks,
      fst loaded = Return tasks
      /\ (length tasks <= 1)%nat
      /\ (selected = [] -> tasks = []))
  /\ selected = (if hard then [] else restored_paths st)
  /\ queryInput_disabled (elements (app st')) = bool_decide (selected = [])
  /\ queryInput_placeholder (elements (app st'))
     = (if bool_decide (selected = [])
        then "検索対象を上のボタンから選択してください。"
        else "質問を入力してください...")
  /\ (hard = true ->
      storedFolderPaths (world st') = NoItem
      /\ localStorage (world st') !! "selectedJobId" = None
      /\ selectedJobId (app st') = None
      /\ folderDefaultJobIds (app st') = ∅).
Proof.
  cbn zeta. destruct (isHardRefresh (app st)) eqn:Hhard.
  - destruct (loadSearchTargetFromStorage_hard manager st Hhard)
      as (st' & -> & Hsel & Hdis & Hph & Hstored & Hjob & Hsj & Hids).
    cbn [fst snd]. rewrite Hsel, Hdis, Hph.
    split; [exists []; repeat split; cbn; lia |].
    repeat split; assumption.
  - destruct (loadSearchTargetFromStorage_soft manager st Hhard)
      as (tasks & st' & -> & Hlen & Hnone & Hsel & Hdis & Hph).
    cbn [fst snd]. rewrite Hsel, Hdis, Hph.
    split; [exists tasks; split; [reflexivity |]; split; assumption |].
    split; [reflexivity |]. split; [reflexivity |]. split; [reflexivity |].
    discriminate.
Qed.

End LoadFacts.

Module AuthFacts.
Import Mon Async AsyncFacts MonFacts App AppFacts Js CognitoAuthManager.

(** What [signOut] removes and what it keeps. *)
Lemma signOut_removes w :
  let out := snd (signOut w) in
  fst (signOut w) = Return tt
  /\ (forall key,
        localStorage out !! key
        = if bool_decide (key ∈ ["cognito_access_token"; "cognito_id_token";
                                 "cognito_refresh_token";
                                 "cognito_token_expires_at";
                                 "cognito_user_email"])
          then None else localStorage w !! key)
  /\ sessionToken out = None
  /\ fetches out = fetches w /\ auth_calls out = auth_calls w
  /\ clock_reads out = clock_reads w
  /\ location_href out = location_href w
  /\ sessionStorage out = sessionStorage w
  /\ storedFolderPaths out = storedFolderPaths w.
Proof.
  cbn zeta. unfold signOut, Mon.bind, Browser.localStorage_removeItem, modify.
  cbn [fst snd localStorage upd_localStorage set_sessionToken sessionToken
       fetches auth_calls clock_reads location_href sessionStorage
       storedFolderPaths].
  split; [reflexivity |]. split; [| repeat split].
  intros key.
  repeat (rewrite lookup_delete; destruct (decide (_ = key)) as [<- | ?];
          [reflexivity |]).
  rewrite bool_decide_eq_false_2; [reflexivity |].
  rewrite !elem_of_cons, elem_of_nil. intros H. intuition congruence.
Qed.

Lemma count_app p l1 l2 :
  App.count p (l1 ++ l2) = (App.count p l1 + App.count p l2)%nat.
Proof.
  induction l1 as [| e l1 IH]; cbn [List.app App.count]; [reflexivity |].
  rewrite IH. lia.
Qed.

Lemma run_getAccessToken_signed_out env w :
  localStorage w !! "cognito_access_token" = None ->
  localStorage w !! "cognito_refresh_token" = None ->
  run (Browser.settle env) (getAccessToken env w) = (Return None, w).
Proof.
  intros Ha Hr. unfold getAccessToken.
  rewrite run_bind, run_sync.
  unfold isAuthenticated, Mon.bind at 1, Browser.localStorage_getItem, gets.
  rewrite Ha. cbn [truthy negb Mon.ret].
  rewrite run_bind. unfold refreshAccessToken.
  rewrite run_bind, run_sync. unfold Browser.localStorage_getItem, gets.
  cbn beta iota. rewrite Hr.
  cbn [truthy negb run Async.ret RefreshResult.success RefreshResult.failure].
  reflexivity.
Qed.

(** X13. After [signOut] the five stored items are gone:
    [isAuthenticated] is false and [getAccessToken] resolves to [null]
    without a call to the identity provider. A request made through
    [apiRequest] with the manager attached then throws before any
    transport call: nothing is sent, the page is sent to [index.html],
    and the application is left as it is. *)
Theorem signed_out_client_sends_nothing env req st :
  authManager (app st) = true ->
  let out := snd (signOut (world st)) in
  let call := run_alone env (apiRequest (manager env) req) (set_world out st) in
  isAuthenticated env out = (Return false, out)
  /\ run (Browser.settle env) (getAccessToken env out) = (Return None, out)
  /\ fst call = Throw "認証セッションが切れました"
  /\ fetches (world (snd call)) = fetches (world st)
  /\ auth_calls (world (snd call)) = auth_calls (world st)
  /\ transport_calls (log (snd call)) = transport_calls (log st)
  /\ location_href (world (snd call)) = Some "index.html"
  /\ app (snd call) = app st.
Proof.
  intros Hm out call.
  destruct (signOut_removes (world st))
    as (_ & Hkeys & _ & Hf & Ha & _).
  fold out in Hkeys, Hf, Ha. clearbody out.
  pose proof (Hkeys "cognito_access_token") as Hat.
  pose proof (Hkeys "cognito_refresh_token") as Hrt.
  cbn in Hat, Hrt.
  split.
  { unfold isAuthenticated, Mon.bind, Browser.localStorage_getItem, gets.
    rewrite Hat. reflexivity. }
  split; [apply run_getAccessToken_signed_out; assumption |].
  unfold call, run_alone, apiRequest, initial_token.
  rewrite run_bind, run_sync. cbn [emit modify].
  rewrite run_bind, run_bind, run_sync. cbn [read gets app upd_log set_world].
  rewrite Hm.
  rewrite run_bind, run_sync. cbn [emit modify].
  rewrite run_bind.
  pose proof (ApiFacts.run_await_world env (Manager.getAccessToken (manager env))) as Hrun.
  unfold run_alone in Hrun. rewrite Hrun. clear Hrun.
  cbn [Manager.getAccessToken manager world upd_log set_world].
  rewrite (run_getAccessToken_signed_out env out Hat Hrt).
  cbn [truthy negb].
  rewrite run_bind, run_sync. cbn [emit modify].
  rewrite run_bind, run_sync.
  cbn [in_world Browser.navigate modify world set_world upd_log run Async.throw
       fst snd log app location_href set_location_href fetches auth_calls].
  split; [reflexivity |]. split; [exact Hf |]. split; [exact Ha |].
  split.
  { unfold transport_calls. rewrite !count_app. cbn. lia. }
  split; reflexivity.
Qed.

Lemma signed_out_client_sends_nothing_witness :
  let st := Examples.signed_in in
  let out := snd (signOut (world st)) in
  let call :=
    run_alone Examples.env0 (apiRequest Examples.manager0 Examples.folders_request)
      (set_world out st) in
  fst call = Throw "認証セッションが切れました"
  /\ fetches (world (snd call)) = 0%nat
  /\ location_href (world (snd call)) = Some "index.html".
Proof.
  intros st out call.
  destruct (signed_out_client_sends_nothing Examples.env0
              Examples.folders_request st eq_refl)
    as (_ & _ & Hthrow & Hf & _ & _ & Hhref & _).
  split; [exact Hthrow |]. split; [exact Hf | exact Hhref].
Defined.
End AuthFacts.
